(** * Credential resolution and OAuth token lifecycle of the gateway connectors

    A shallow embedding of the connector classes under [src/connectors]
    (FMP, NewsAPI, Polygon, Gemini, Home Assistant) together with the
    properties their specification states about credential loading, token
    refresh and the result envelope.

    Python values are modelled by [pyval]; a method that may raise returns
    an [outcome]; reads of the clock, of the environment, of the credential
    store and every HTTP request go through the state monad [M] over
    [world], which records them in a trace.

    The endpoints of [src/billing/bootstrap.py] are embedded as well, over
    the database, plan table and tenancy helper they are given. *)

From Stdlib Require Import ZArith String Ascii List Bool Floats.
From stdpp Require Import gmap strings list fin_maps.

Set Warnings "-register-all".
Local Open Scope string_scope.
Local Open Scope Z_scope.

(** ** Python strings

    A [str] is modelled by the [string] of its code points, one [ascii]
    per code point: the text of the model is the text whose code points
    are below 256 (ASCII and the Latin-1 supplement). *)

Module PyStr.

(** [str.isspace] on one code point below 256: 9 to 13, 28 to 32, 133
    (next line) and 160 (no-break space). These are the characters that
    [str.strip] removes. *)
Definition is_space (c : ascii) : bool :=
  let n := nat_of_ascii c in
  ((9 <=? n) && (n <=? 13) || (28 <=? n) && (n <=? 32)
   || (n =? 133) || (n =? 160))%nat.

Fixpoint lstrip (s : string) : string :=
  match s with
  | EmptyString => EmptyString
  | String c s' => if is_space c then lstrip s' else s
  end.

Fixpoint rstrip (s : string) : string :=
  match s with
  | EmptyString => EmptyString
  | String c s' =>
      match rstrip s' with
      | EmptyString => if is_space c then EmptyString else String c EmptyString
      | r => String c r
      end
  end.

(** [s.strip()] *)
Definition strip (s : string) : string := rstrip (lstrip s).

(** [s.rstrip(chars)] for a one-character [chars]. *)
Fixpoint rstrip_char (x : ascii) (s : string) : string :=
  match s with
  | EmptyString => EmptyString
  | String c s' =>
      match rstrip_char x s' with
      | EmptyString => if Ascii.eqb c x then EmptyString else String c EmptyString
      | r => String c r
      end
  end.

(** [c.upper()] for one code point below 256: the letters [a] to [z]
    and the Latin-1 letters 224 to 254 (247, the division sign, apart)
    lose 32, and 223 (sharp s) becomes [SS]. The capitals of 181 (micro
    sign) and 255 (y with diaeresis) lie above 255, outside the text of
    the model: the two are left as they are. *)
Definition upper_char (c : ascii) : string :=
  let n := nat_of_ascii c in
  if ((97 <=? n) && (n <=? 122) || (224 <=? n) && (n <=? 254) && negb (n =? 247))%nat
  then String (ascii_of_nat (n - 32)) EmptyString
  else if (n =? 223)%nat then "SS"
  else String c EmptyString.

(** [s.upper()] *)
Fixpoint upper (s : string) : string :=
  match s with
  | EmptyString => EmptyString
  | String c s' => upper_char c +:+ upper s'
  end.

(** [s.split(sep)[0]] for a one-character [sep]. *)
Fixpoint split_head (sep : ascii) (s : string) : string :=
  match s with
  | EmptyString => EmptyString
  | String c s' => if Ascii.eqb c sep then EmptyString else String c (split_head sep s')
  end.

(** Truth value of a string: non-empty. *)
Definition truthy (s : string) : bool :=
  match s with EmptyString => false | _ => true end.

Definition digit_of (c : ascii) : option Z :=
  let n := nat_of_ascii c in
  if ((48 <=? n) && (n <=? 57))%nat then Some (Z.of_nat n - 48) else None.

(** Decimal digits, a single underscore allowed between two digits. *)
Fixpoint parse_digits (s : string) (acc : Z) (after_digit : bool) : option Z :=
  match s with
  | EmptyString => if after_digit then Some acc else None
  | String c s' =>
      match digit_of c with
      | Some d => parse_digits s' (10 * acc + d) true
      | None =>
          if Ascii.eqb c "_" && after_digit then parse_digits s' acc false
          else None
      end
  end.

(** The whitespace that [int] accepts around a literal: 9 to 13 and 32,
    and the whitespace above 127. The separators 28 to 31 are not part of
    it. *)
Definition is_int_space (c : ascii) : bool :=
  let n := nat_of_ascii c in
  ((9 <=? n) && (n <=? 13) || (n =? 32) || (n =? 133) || (n =? 160))%nat.

Fixpoint int_lstrip (s : string) : string :=
  match s with
  | EmptyString => EmptyString
  | String c s' => if is_int_space c then int_lstrip s' else s
  end.

Fixpoint int_rstrip (s : string) : string :=
  match s with
  | EmptyString => EmptyString
  | String c s' =>
      match int_rstrip s' with
      | EmptyString => if is_int_space c then EmptyString else String c EmptyString
      | r => String c r
      end
  end.

Fixpoint count_digits (s : string) : nat :=
  match s with
  | EmptyString => 0%nat
  | String c s' =>
      match digit_of c with
      | Some _ => S (count_digits s')
      | None => count_digits s'
      end
  end.

(** [sys.get_int_max_str_digits()], at its default. *)
Definition MAX_STR_DIGITS : nat := 4300.

(** [int(s)] on a string, [None] where Python raises [ValueError]: on a
    text that is not a literal, and on a literal of more digits than the
    limit. *)
Definition parse_int (s : string) : option Z :=
  let t := int_rstrip (int_lstrip s) in
  if (MAX_STR_DIGITS <? count_digits t)%nat then None
  else
    match t with
    | String "+" r => parse_digits r 0 false
    | String "-" r => Z.opp <$> parse_digits r 0 false
    | _ => parse_digits t 0 false
    end.

End PyStr.

(** ** Python values *)

(** The values that reach the connectors from JSON documents (credential
    records, response bodies) and that they put into requests and result
    envelopes. *)
Inductive pyval : Type :=
| PNone
| PBool (b : bool)
| PInt (z : Z)
| PFloat (f : float)
| PStr (s : string)
| PList (l : list pyval)
| PDict (d : gmap string pyval).

Abbreviation pydict := (gmap string pyval).

Definition dict_is_empty (d : pydict) : bool := bool_decide (d = ∅).

(** [bool(v)] *)
Definition truthy (v : pyval) : bool :=
  match v with
  | PNone => false
  | PBool b => b
  | PInt z => negb (z =? 0)
  | PFloat f => negb (PrimFloat.eqb f 0%float)
  | PStr s => PyStr.truthy s
  | PList l => match l with [] => false | _ => true end
  | PDict d => negb (dict_is_empty d)
  end.

(** [a or b] *)
Definition py_or (a b : pyval) : pyval := if truthy a then a else b.

(** [d.get(k)] *)
Definition dict_get (d : pydict) (k : string) : pyval := default PNone (d !! k).

(** [d.get(k, dflt)] *)
Definition dict_get_default (d : pydict) (k : string) (dflt : pyval) : pyval :=
  default dflt (d !! k).

(** Truth value and [or] on [Optional[str]] attributes. *)
Definition opt_truthy (o : option string) : bool :=
  match o with Some s => PyStr.truthy s | None => false end.

Definition opt_or (a b : option string) : option string :=
  if opt_truthy a then a else b.

(** [o or ""] *)
Definition opt_or_empty (o : option string) : string :=
  match o with Some s => s | None => "" end.

Definition of_opt_str (o : option string) : pyval :=
  match o with Some s => PStr s | None => PNone end.

(** A value of type [Any]: a JSON value, or another object (a set,
    bytes, an instance of a class). The connectors do not read the values
    they are given with this type; they pass them on. *)
Inductive any : Type :=
| Plain (v : pyval)
| Opaque.

Abbreviation anydict := (gmap string any).

(** The JSON entries of a dictionary. *)
Definition plain_part (d : anydict) : pydict :=
  omap (fun a => match a with Plain v => Some v | Opaque => None end) d.

(** ** Exceptions and outcomes *)

Inductive exn : Type :=
| RequestException (msg : string)
| RuntimeError (msg : string)
| AttributeError
| ValueError
| TypeError
| OverflowError
| RecursionError.

Inductive outcome (A : Type) : Type :=
| Ret (a : A)
| Raise (e : exn).
Arguments Ret {A} a.
Arguments Raise {A} e.

(** [int(f)] on a float: truncation toward zero. *)
Definition float_to_int (f : float) : outcome Z :=
  match Prim2SF f with
  | S754_zero _ => Ret 0
  | S754_infinity _ => Raise OverflowError
  | S754_nan => Raise ValueError
  | S754_finite sgn m e =>
      let a := if 0 <=? e then Z.shiftl (Z.pos m) e else Z.shiftr (Z.pos m) (- e) in
      Ret (if sgn then - a else a)
  end.

(** [int(v)] *)
Definition py_int (v : pyval) : outcome Z :=
  match v with
  | PInt z => Ret z
  | PBool b => Ret (if b then 1 else 0)
  | PFloat f => float_to_int f
  | PStr s =>
      match PyStr.parse_int s with
      | Some z => Ret z
      | None => Raise ValueError
      end
  | PNone | PList _ | PDict _ => Raise TypeError
  end.

(** [v.strip()]: only strings have the method. *)
Definition py_strip (v : pyval) : outcome string :=
  match v with
  | PStr s => Ret (PyStr.strip s)
  | _ => Raise AttributeError
  end.

(** [v.get(k)] and [v.get(k, dflt)]: only dictionaries have the method. *)
Definition py_get (v : pyval) (k : string) : outcome pyval :=
  match v with
  | PDict d => Ret (dict_get d k)
  | _ => Raise AttributeError
  end.

Definition py_get_default (v : pyval) (k : string) (dflt : pyval) : outcome pyval :=
  match v with
  | PDict d => Ret (dict_get_default d k dflt)
  | _ => Raise AttributeError
  end.

(** [for x in v]: the items a [for] loop visits. *)
Definition py_iter (v : pyval) : outcome (list pyval) :=
  match v with
  | PList l => Ret l
  | PDict d => Ret ((fun kv => PStr (fst kv)) <$> map_to_list d)
  | PStr s => Ret ((fun c => PStr (String c EmptyString)) <$> list_ascii_of_string s)
  | PNone | PBool _ | PInt _ | PFloat _ => Raise TypeError
  end.

(** ** The world around a connector *)

(** *** HTTP through [requests] *)

Inductive verb : Type := GET | POST.

(** One call of [requests.get] / [requests.post] with its keyword arguments. *)
Record request : Type := mkRequest {
  rq_verb : verb;
  rq_url : string;
  rq_params : pydict;
  rq_data : pydict;
  rq_json : option pyval;
  rq_headers : gmap string string;
  rq_timeout : Z;
}.

(** Why [json()] raises on a body: the body is not a JSON document
    ([requests.exceptions.JSONDecodeError], with its text); or it is one
    that [json.loads] gives up on, with the [ValueError] of an integer
    literal longer than the digit limit or the [RecursionError] of a
    nesting that is too deep, which [json()] lets through. *)
Inductive json_error : Type :=
| JSONDecodeError (msg : string)
| DigitLimit
| Nesting.

(** A response: its status code, the text [raise_for_status] puts into the
    [HTTPError] it raises, and its body, a JSON document or the reason why
    [json()] raises. [HTTPError] and [JSONDecodeError] are subclasses of
    [requests.exceptions.RequestException]. *)
Record response : Type := mkResponse {
  status_code : Z;
  status_error : string;
  body : json_error + pyval;
}.

(** What a call of [requests.get] or [requests.post] comes to. It raises
    a [RequestException] (connection error, timeout, a URL or header that
    [requests] rejects, a [json] payload with a float that is not finite);
    or it raises another exception, as [requests.post] does when
    [json.dumps] cannot write its [json] payload ([TypeError] at a set,
    bytes or an instance of a class, [RecursionError] at a nesting that is
    too deep); or it yields a response. *)
Inductive net_result : Type :=
| NetFail (msg : string)
| NetError (e : exn)
| NetResp (r : response).

(** *** The credential store *)

(** Key of a record: credential id, tool name, tenant id. *)
Abbreviation cred_key := (string * string * option string)%type.

Record cred_record : Type := mkCred {
  credential_data : pydict;
  credential_type : string;
  encrypted : bool;
}.

(** *** Events and the world *)

(** [EvHttp]: a call of [requests.get] or [requests.post], with its
    arguments. *)
Inductive event : Type :=
| EvHttp (rq : request)
| EvGetenv (name : string)
| EvClock
| EvSave (k : cred_key) (r : cred_record).

Fixpoint n_http (t : list event) : nat :=
  match t with
  | [] => 0%nat
  | EvHttp _ :: t' => S (n_http t')
  | _ :: t' => n_http t'
  end.

Fixpoint n_clock (t : list event) : nat :=
  match t with
  | [] => 0%nat
  | EvClock :: t' => S (n_clock t')
  | _ :: t' => n_clock t'
  end.

(** [strict] is [config.CREDENTIALS_STRICT]; [environ] is the process
    environment; [db] the credential store; [net] answers the n-th HTTP
    request; [clock] is the n-th reading of the UTC clock, in seconds;
    [trace] lists the effects so far, most recent first. *)
Record world : Type := mkWorld {
  strict : bool;
  environ : gmap string string;
  db : gmap cred_key cred_record;
  net : nat -> request -> net_result;
  clock : nat -> Z;
  trace : list event;
}.

Definition log (e : event) (w : world) : world :=
  mkWorld (strict w) (environ w) (db w) (net w) (clock w) (e :: trace w).

Definition set_db (d : gmap cred_key cred_record) (w : world) : world :=
  mkWorld (strict w) (environ w) d (net w) (clock w) (trace w).

(** ** The monad of connector code

    A computation runs on a state [S], may change it, and either returns
    or raises; the state reached at a raise is kept, as Python keeps the
    assignments made before an exception. *)

Definition ST (S A : Type) : Type := S -> outcome A * S.

Definition ret {S A} (a : A) : ST S A := fun s => (Ret a, s).

Definition raise {S A} (e : exn) : ST S A := fun s => (Raise e, s).

Definition bind {S A B} (m : ST S A) (k : A -> ST S B) : ST S B :=
  fun s =>
    match m s with
    | (Ret a, s') => k a s'
    | (Raise e, s') => (Raise e, s')
    end.

Definition lift {S A} (o : outcome A) : ST S A := fun s => (o, s).

Notation "'let!' x ':=' m 'in' k" := (bind m (fun x => k))
  (at level 10, x name, m at level 200, k at level 200, only parsing).
Notation "'do!' m 'in' k" := (bind m (fun _ => k))
  (at level 10, m at level 200, k at level 200, only parsing).

(** [try: body except requests.exceptions.RequestException as e: handler] *)
Definition try_request {S A} (body : ST S A) (handler : string -> ST S A)
  : ST S A :=
  fun s =>
    match body s with
    | (Raise (RequestException msg), s') => handler msg s'
    | r => r
    end.

(** Code that touches only the world: the API-key connectors never
    assign an attribute after construction. *)
Abbreviation M := (ST world).

(** [requests.get(...)] / [requests.post(...)] *)
Definition requests_send (rq : request) : M response :=
  fun w =>
    let w' := log (EvHttp rq) w in
    match net w (n_http (trace w)) rq with
    | NetFail msg => (Raise (RequestException msg), w')
    | NetError e => (Raise e, w')
    | NetResp r => (Ret r, w')
    end.

(** The statuses on which [raise_for_status] raises. *)
Definition error_status (r : response) : bool :=
  (400 <=? status_code r) && (status_code r <? 600).

(** [r.raise_for_status()]: an [HTTPError] for 4xx and 5xx. *)
Definition raise_for_status (r : response) : M unit :=
  if error_status r
  then raise (RequestException (status_error r))
  else ret tt.

(** [r.json()] *)
Definition json (r : response) : M pyval :=
  match body r with
  | inl (JSONDecodeError msg) => raise (RequestException msg)
  | inl DigitLimit => raise ValueError
  | inl Nesting => raise RecursionError
  | inr v => ret v
  end.

(** [os.getenv(name)] *)
Definition getenv (name : string) : M (option string) :=
  fun w => (Ret (environ w !! name), log (EvGetenv name) w).

(** [int(datetime.now(UTC).timestamp())] *)
Definition now_ts : M Z :=
  fun w => (Ret (clock w (n_clock (trace w))), log EvClock w).

(** [config.CREDENTIALS_STRICT] *)
Definition credentials_strict : M bool := fun w => (Ret (strict w), w).

(** [get_db().get_credential(credential_id, tool_name, tenant_id)] *)
Definition get_credential (cid tool : string) (tenant : option string)
  : M (option cred_record) :=
  fun w => (Ret (db w !! (cid, tool, tenant)), w).

(** [get_db().save_credential(...)] *)
Definition save_credential (cid tool ctype : string) (data : pydict)
    (enc : bool) (tenant : option string) : M unit :=
  fun w =>
    let r := mkCred data ctype enc in
    (Ret tt, log (EvSave (cid, tool, tenant) r)
               (set_db (<[(cid, tool, tenant) := r]> (db w)) w)).

(** The result envelope of a business operation. *)
Definition failure (msg : string) : pydict :=
  {[ "success" := PBool false; "error" := PStr msg ]}.

(** [requests.get(url, params=..., headers=..., timeout=...)] *)
Definition requests_get (url : string) (params : pydict)
    (headers : gmap string string) (timeout : Z) : M response :=
  requests_send (mkRequest GET url params ∅ None headers timeout).

(** [int(z or dflt)] on an integer argument. *)
Definition int_or (z dflt : Z) : Z := if z =? 0 then dflt else z.

(** ** Vocabulary of the properties *)

(** A result envelope: [success] is a boolean, and a failed result
    carries its [error] text. *)
Definition envelope (d : pydict) : Prop :=
  d !! "success" = Some (PBool true)
  \/ (d !! "success" = Some (PBool false)
      /\ exists msg, d !! "error" = Some (PStr msg)).

(** The bodies that the code goes on to read satisfy [P]: an answer is a
    [RequestException], or a response that is not read ([reads] is
    false), or one whose body is not a JSON document, or one whose body is
    a document that [json()] returns and that satisfies [P]. *)
Definition answers (reads : response -> bool) (P : pyval -> Prop)
    (r : net_result) : Prop :=
  match r with
  | NetFail _ => True
  | NetError _ => False
  | NetResp resp =>
      reads resp = true ->
      match body resp with
      | inr v => P v
      | inl e => exists msg, e = JSONDecodeError msg
      end
  end.

(** Every answer of the upstream service read by a business operation
    has a body satisfying [P]. *)
Definition upstream (P : pyval -> Prop) (w : world) : Prop :=
  forall n rq, answers (fun r => negb (error_status r)) P (net w n rq).

Definition is_dict (v : pyval) : Prop := exists d, v = PDict d.

(** Clamping to the range from [lo] to [hi], as the words say it. *)
Definition clamp (lo hi x : Z) : Z :=
  if x <? lo then lo else if hi <? x then hi else x.

(** The count [v] is the argument [x], replaced by [dflt] when it is
    zero, clamped to the range from [lo] to [hi]. *)
Definition clamped (lo hi dflt x : Z) (v : pyval) : Prop :=
  v = PInt (clamp lo hi (if x =? 0 then dflt else x))
  /\ exists n, v = PInt n /\ lo <= n <= hi.

(** An operation guarded by [skip] sends nothing, or else sends exactly
    one request, which satisfies [P]. *)
Definition sends (skip : bool) (w w' : world) (P : request -> Prop) : Prop :=
  if skip then trace w' = trace w
  else exists rq, trace w' = EvHttp rq :: trace w /\ P rq.

(** ** Connectors authenticated by an API key

    [FmpConnector], [NewsApiConnector], [PolygonConnector] and
    [GeminiConnector] share their attributes, their [__init__], their
    [_load_credentials] and the guard that opens every operation; they
    differ in the tool name, the message of the error raised in strict
    mode, the environment variables read in turn and the text of the
    not-configured error. *)

Module ApiKey.

Record connector : Type := mkConnector {
  credential_id : string;
  tenant_id : option string;
  api_key : option string;
  configured : bool;
}.

(** [(data.get("api_key") or data.get("key") or "").strip()] *)
Definition stored_key (data : pydict) : outcome string :=
  py_strip (py_or (dict_get data "api_key")
                  (py_or (dict_get data "key") (PStr ""))).

Section ApiKeyConnector.

Variable TOOL_NAME : string.
Variable MISSING : string.
Variable ENV_VARS : list string.
Variable NOT_CONFIGURED : string.

(** [os.getenv(v1) or os.getenv(v2) or ... or ""] *)
Fixpoint getenv_first (vars : list string) : M string :=
  match vars with
  | [] => ret ""
  | v :: rest =>
      let! x := getenv v in
      if opt_truthy x then ret (opt_or_empty x) else getenv_first rest
  end.

(** The tail of [_load_credentials], reached when the store gave no key:
    the strict-mode check, then the environment. *)
Definition load_fallback (self : connector) : M connector :=
  let! s := credentials_strict in
  if s then raise (RuntimeError MISSING)
  else
    let! k := getenv_first ENV_VARS in
    let k := PyStr.strip k in
    ret (mkConnector (credential_id self) (tenant_id self) (Some k) (PyStr.truthy k)).

Definition _load_credentials (self : connector) : M connector :=
  let! cred := get_credential (credential_id self) TOOL_NAME (tenant_id self) in
  match cred with
  | Some c =>
      if dict_is_empty (credential_data c) then load_fallback self
      else
        let data := credential_data c in
        let! k := lift (stored_key data) in
        let self := mkConnector (credential_id self) (tenant_id self) (Some k) (configured self) in
        if PyStr.truthy k
        then ret (mkConnector (credential_id self) (tenant_id self) (api_key self) true)
        else load_fallback self
  | None => load_fallback self
  end.

(** [__init__(credential_id, tenant_id)] *)
Definition __init__ (cid : string) (tenant : option string) : M connector :=
  _load_credentials (mkConnector cid tenant None false).

(** [not self.configured or not self.api_key] *)
Definition unconfigured (self : connector) : bool :=
  negb (configured self) || negb (opt_truthy (api_key self)).

Definition not_configured : pydict := failure NOT_CONFIGURED.

End ApiKeyConnector.

(** The store holds nothing usable: no record, a record without data, or
    data whose key reads as the empty string. *)
Definition no_usable_record (r : option cred_record) : Prop :=
  match r with
  | None => True
  | Some c => credential_data c = ∅ \/ stored_key (credential_data c) = Ret ""
  end.

(** The key of the record, when there is a record, reads as text. *)
Definition readable_record (r : option cred_record) : Prop :=
  match r with
  | None => True
  | Some c => exists k, stored_key (credential_data c) = Ret k
  end.

(** Every variable of the list is unset or empty. *)
Definition env_unset (w : world) (vars : list string) : Prop :=
  Forall (fun v => opt_truthy (environ w !! v) = false) vars.

End ApiKey.

(** ** Financial Modeling Prep *)

Module Fmp.
Import ApiKey.

Definition TOOL_NAME : string := "fmp".
Definition BASE_URL : string := "https://financialmodelingprep.com/api/v3".
Definition MISSING : string :=
  "FMP API key missing. Set via credentials API or FMP_API_KEY in dev.".
Definition ENV_VARS : list string := ["FMP_API_KEY"].
Definition NOT_CONFIGURED : string :=
  "FMP connector not configured (missing API key)".

Definition _load_credentials : connector -> M connector :=
  ApiKey._load_credentials TOOL_NAME MISSING ENV_VARS.

Definition __init__ : string -> option string -> M connector :=
  ApiKey.__init__ TOOL_NAME MISSING ENV_VARS.

Definition quote (self : connector) (symbol : string) : M pydict :=
  if unconfigured self then ret (not_configured NOT_CONFIGURED)
  else if negb (PyStr.truthy (PyStr.strip symbol))
  then ret (failure "symbol is required")
  else
    let url := BASE_URL +:+ "/quote/" +:+ PyStr.upper symbol in
    try_request
      (let! r := requests_get url {[ "apikey" := of_opt_str (api_key self) ]} ∅ 20 in
       do! raise_for_status r in
       let! data := json r in
       ret {[ "success" := PBool true;
              "symbol" := PStr (PyStr.upper symbol);
              "results" := data ]})
      (fun e => ret {[ "success" := PBool false;
                       "error" := PStr e;
                       "symbol" := PStr (PyStr.upper symbol) ]}).

Definition stock_news (self : connector) (tickers : string) (limit : Z) : M pydict :=
  if unconfigured self then ret (not_configured NOT_CONFIGURED)
  else if negb (PyStr.truthy (PyStr.strip tickers))
  then ret (failure "tickers is required")
  else
    let url := BASE_URL +:+ "/stock_news" in
    try_request
      (let! r := requests_get url
                   {[ "tickers" := PStr tickers;
                      "limit" := PInt (Z.max 1 (Z.min 50 (int_or limit 10)));
                      "apikey" := of_opt_str (api_key self) ]} ∅ 20 in
       do! raise_for_status r in
       let! data := json r in
       ret {[ "success" := PBool true;
              "tickers" := PStr tickers;
              "results" := data ]})
      (fun e => ret {[ "success" := PBool false;
                       "error" := PStr e;
                       "tickers" := PStr tickers ]}).

End Fmp.

(** ** NewsAPI *)

Module NewsApi.
Import ApiKey.

Definition TOOL_NAME : string := "newsapi".
Definition BASE_URL : string := "https://newsapi.org/v2".
Definition MISSING : string :=
  "NewsAPI key missing. Set via credentials API or NEWSAPI_KEY in dev.".
Definition ENV_VARS : list string := ["NEWSAPI_KEY"].
Definition NOT_CONFIGURED : string :=
  "NewsAPI connector not configured (missing API key)".

Definition _load_credentials : connector -> M connector :=
  ApiKey._load_credentials TOOL_NAME MISSING ENV_VARS.

Definition __init__ : string -> option string -> M connector :=
  ApiKey.__init__ TOOL_NAME MISSING ENV_VARS.

Definition search (self : connector) (q language sort_by : string)
    (page_size : Z) : M pydict :=
  if unconfigured self then ret (not_configured NOT_CONFIGURED)
  else if negb (PyStr.truthy (PyStr.strip q))
  then ret (failure "q is required")
  else
    let url := BASE_URL +:+ "/everything" in
    try_request
      (let! r := requests_get url
                   {[ "q" := PStr q;
                      "language" := PStr language;
                      "sortBy" := PStr sort_by;
                      "pageSize" := PInt (Z.max 1 (Z.min 100 (int_or page_size 20)));
                      "apiKey" := of_opt_str (api_key self) ]} ∅ 20 in
       do! raise_for_status r in
       let! data := json r in
       let! articles := lift (py_get_default data "articles" (PList [])) in
       ret {[ "success" := PBool true;
              "query" := PStr q;
              "results" := articles ]})
      (fun e => ret {[ "success" := PBool false;
                       "error" := PStr e;
                       "query" := PStr q ]}).

Definition top_headlines (self : connector) (country : string)
    (category q : option string) (page_size : Z) : M pydict :=
  if unconfigured self then ret (not_configured NOT_CONFIGURED)
  else
    let url := BASE_URL +:+ "/top-headlines" in
    let params : pydict :=
      {[ "country" := PStr country;
         "pageSize" := PInt (Z.max 1 (Z.min 100 (int_or page_size 20)));
         "apiKey" := of_opt_str (api_key self) ]} in
    let params :=
      if opt_truthy category then <["category" := of_opt_str category]> params
      else params in
    let params :=
      if opt_truthy q then <["q" := of_opt_str q]> params else params in
    try_request
      (let! r := requests_get url params ∅ 20 in
       do! raise_for_status r in
       let! data := json r in
       let! articles := lift (py_get_default data "articles" (PList [])) in
       ret {[ "success" := PBool true; "results" := articles ]})
      (fun e => ret (failure e)).

End NewsApi.

(** ** Polygon.io *)

Module Polygon.
Import ApiKey.

Definition TOOL_NAME : string := "polygon".
Definition BASE_URL : string := "https://api.polygon.io".
Definition MISSING : string :=
  "Polygon API key missing. Set via credentials API or POLYGON_API_KEY in dev.".
Definition ENV_VARS : list string := ["POLYGON_API_KEY"].
Definition NOT_CONFIGURED : string :=
  "Polygon connector not configured (missing API key)".

Definition _load_credentials : connector -> M connector :=
  ApiKey._load_credentials TOOL_NAME MISSING ENV_VARS.

Definition __init__ : string -> option string -> M connector :=
  ApiKey.__init__ TOOL_NAME MISSING ENV_VARS.

Definition prev_close (self : connector) (ticker : string) (adjusted : bool)
  : M pydict :=
  if unconfigured self then ret (not_configured NOT_CONFIGURED)
  else if negb (PyStr.truthy (PyStr.strip ticker))
  then ret (failure "ticker is required")
  else
    let url := BASE_URL +:+ "/v2/aggs/ticker/" +:+ PyStr.upper ticker +:+ "/prev" in
    try_request
      (let! r := requests_get url
                   {[ "adjusted" := PStr (if adjusted then "true" else "false");
                      "apiKey" := of_opt_str (api_key self) ]} ∅ 20 in
       do! raise_for_status r in
       let! data := json r in
       let! results := lift (py_get_default data "results" (PList [])) in
       ret {[ "success" := PBool true;
              "ticker" := PStr (PyStr.upper ticker);
              "results" := results ]})
      (fun e => ret {[ "success" := PBool false;
                       "error" := PStr e;
                       "ticker" := PStr (PyStr.upper ticker) ]}).

Definition ticker_details (self : connector) (ticker : string) : M pydict :=
  if unconfigured self then ret (not_configured NOT_CONFIGURED)
  else if negb (PyStr.truthy (PyStr.strip ticker))
  then ret (failure "ticker is required")
  else
    let url := BASE_URL +:+ "/v3/reference/tickers/" +:+ PyStr.upper ticker in
    try_request
      (let! r := requests_get url {[ "apiKey" := of_opt_str (api_key self) ]} ∅ 20 in
       do! raise_for_status r in
       let! data := json r in
       let! results := lift (py_get_default data "results" (PDict ∅)) in
       ret {[ "success" := PBool true;
              "ticker" := PStr (PyStr.upper ticker);
              "result" := results ]})
      (fun e => ret {[ "success" := PBool false;
                       "error" := PStr e;
                       "ticker" := PStr (PyStr.upper ticker) ]}).

End Polygon.

(** ** Gemini image generation and Google text-to-speech *)

Module Gemini.
Import ApiKey.

Definition TOOL_NAME : string := "gemini".
Definition GENERATIVE_BASE_URL : string :=
  "https://generativelanguage.googleapis.com/v1beta".
Definition IMAGE_MODEL : string := "imagen-3.0-generate-001".
Definition TTS_BASE_URL : string := "https://texttospeech.googleapis.com/v1".
Definition MISSING : string :=
  "Gemini API key missing. Set via credentials API or GEMINI_API_KEY in dev.".
Definition ENV_VARS : list string := ["GEMINI_API_KEY"; "GOOGLE_API_KEY"].
Definition NOT_CONFIGURED : string :=
  "Gemini connector not configured (missing API key)".

Definition _load_credentials : connector -> M connector :=
  ApiKey._load_credentials TOOL_NAME MISSING ENV_VARS.

Definition __init__ : string -> option string -> M connector :=
  ApiKey.__init__ TOOL_NAME MISSING ENV_VARS.

(** [requests.post(url, params=..., json=..., timeout=...)] *)
Definition requests_post_json (url : string) (params : pydict)
    (payload : pyval) (timeout : Z) : M response :=
  requests_send (mkRequest POST url params ∅ (Some payload) ∅ timeout).

(** The loop over the generated images: keep the non-empty
    [bytesBase64Encoded] of every item. *)
Fixpoint collect_images (items images : list pyval) : M (list pyval) :=
  match items with
  | [] => ret images
  | item :: rest =>
      let! b64 := lift (py_get item "bytesBase64Encoded") in
      collect_images rest (if truthy b64 then images ++ [b64] else images)
  end.

Definition generate_image (self : connector) (prompt : string)
    (sample_count : Z) (output_mime_type : string) : M pydict :=
  if unconfigured self then ret (not_configured NOT_CONFIGURED)
  else if negb (PyStr.truthy (PyStr.strip prompt))
  then ret (failure "prompt is required")
  else
    let sample_count := Z.min 4 (Z.max 1 (int_or sample_count 1)) in
    let url := GENERATIVE_BASE_URL +:+ "/models/" +:+ IMAGE_MODEL +:+ ":generateImages" in
    let payload : pydict :=
      {[ "prompt" := PDict {[ "text" := PStr prompt ]};
         "imageParameters" :=
           PDict {[ "sampleCount" := PInt sample_count;
                    "outputMimeType" := PStr output_mime_type ]} ]} in
    try_request
      (let! r := requests_post_json url {[ "key" := of_opt_str (api_key self) ]}
                   (PDict payload) 30 in
       do! raise_for_status r in
       let! data := json r in
       let! generated := lift (py_get_default data "generatedImages" (PList [])) in
       let! items := lift (py_iter (py_or generated (PList []))) in
       let! images := collect_images items [] in
       ret {[ "success" := PBool true;
              "prompt" := PStr prompt;
              "images" := PList images;
              "count" := PInt (Z.of_nat (length images));
              "output_mime_type" := PStr output_mime_type ]})
      (fun e => ret (failure e)).

Definition text_to_speech (self : connector)
    (text language_code voice_name audio_encoding : string)
    (speaking_rate pitch : float) : M pydict :=
  if unconfigured self then ret (not_configured NOT_CONFIGURED)
  else if negb (PyStr.truthy (PyStr.strip text))
  then ret (failure "text is required")
  else
    let url := TTS_BASE_URL +:+ "/text:synthesize" in
    let payload : pydict :=
      {[ "input" := PDict {[ "text" := PStr text ]};
         "voice" := PDict {[ "languageCode" := PStr language_code;
                             "name" := PStr voice_name ]};
         "audioConfig" :=
           PDict {[ "audioEncoding" := PStr audio_encoding;
                    "speakingRate" := PFloat speaking_rate;
                    "pitch" := PFloat pitch ]} ]} in
    try_request
      (let! r := requests_post_json url {[ "key" := of_opt_str (api_key self) ]}
                   (PDict payload) 30 in
       do! raise_for_status r in
       let! data := json r in
       let! audio := lift (py_get data "audioContent") in
       ret {[ "success" := PBool true;
              "audio_content" := audio;
              "audio_encoding" := PStr audio_encoding;
              "voice_name" := PStr voice_name;
              "language_code" := PStr language_code ]})
      (fun e => ret (failure e)).

(** A body [generate_image] can read: an object whose [generatedImages]
    is absent, empty, or a list of objects. *)
Definition images_body (v : pyval) : Prop :=
  exists d, v = PDict d
    /\ (truthy (dict_get_default d "generatedImages" (PList [])) = false
        \/ exists l, d !! "generatedImages" = Some (PList l) /\ Forall is_dict l).

End Gemini.

(** ** Home Assistant *)

Module HomeAssistant.

Definition TOOL_NAME : string := "home_assistant".
Definition MISSING : string :=
  "Home Assistant credentials missing. Set via credentials API or env vars in dev.".

Record connector : Type := mkConnector {
  credential_id : string;
  tenant_id : option string;
  base_url : option string;
  token : option string;
  access_token : option string;
  refresh_token : option string;
  client_id : option string;
  client_secret : option string;
  token_url : option string;
  expires_at : pyval;
  configured : bool;
}.

Definition set_token_url (v : option string) (c : connector) : connector :=
  mkConnector (credential_id c) (tenant_id c) (base_url c) (token c)
    (access_token c) (refresh_token c) (client_id c) (client_secret c)
    v (expires_at c) (configured c).

Definition set_access_token (v : option string) (c : connector) : connector :=
  mkConnector (credential_id c) (tenant_id c) (base_url c) (token c)
    v (refresh_token c) (client_id c) (client_secret c)
    (token_url c) (expires_at c) (configured c).

Definition set_refresh_token (v : option string) (c : connector) : connector :=
  mkConnector (credential_id c) (tenant_id c) (base_url c) (token c)
    (access_token c) v (client_id c) (client_secret c)
    (token_url c) (expires_at c) (configured c).

Definition set_expires_at (v : pyval) (c : connector) : connector :=
  mkConnector (credential_id c) (tenant_id c) (base_url c) (token c)
    (access_token c) (refresh_token c) (client_id c) (client_secret c)
    (token_url c) v (configured c).

(** Methods run on the connector object and the world. *)
Abbreviation HA := (ST (connector * world)).

Definition io {A} (m : M A) : HA A :=
  fun s =>
    match m (snd s) with
    | (r, w') => (r, (fst s, w'))
    end.

Definition get_self : HA connector := fun s => (Ret (fst s), s).

(** An attribute assignment [self.x = v]. *)
Definition assign (f : connector -> connector) : HA unit :=
  fun s => (Ret tt, (f (fst s), snd s)).

(** [(data.get(k) or "").strip()] *)
Definition stripped (data : pydict) (k : string) : outcome string :=
  py_strip (py_or (dict_get data k) (PStr "")).

Definition _load_credentials : HA unit :=
  let! self := get_self in
  let! cred := io (get_credential (credential_id self) TOOL_NAME (tenant_id self)) in
  let from_store :=
    match cred with
    | Some c => if dict_is_empty (credential_data c) then None
                else Some (credential_data c)
    | None => None
    end in
  match from_store with
  | Some data =>
      let! base_url := lift (stripped data "base_url") in
      let! token := lift (stripped data "token") in
      let! access_token := lift (stripped data "access_token") in
      let! refresh_token := lift (stripped data "refresh_token") in
      let! client_id := lift (stripped data "client_id") in
      let! client_secret := lift (stripped data "client_secret") in
      let! token_url := lift (stripped data "token_url") in
      let expires_at := dict_get data "expires_at" in
      let base_url :=
        if PyStr.truthy base_url then PyStr.rstrip_char "/" base_url
        else base_url in
      assign (fun c =>
        mkConnector (credential_id c) (tenant_id c) (Some base_url) (Some token)
          (Some access_token) (Some refresh_token) (Some client_id)
          (Some client_secret) (Some token_url) expires_at
          (PyStr.truthy base_url &&
             (PyStr.truthy token || PyStr.truthy access_token
              || PyStr.truthy refresh_token)))
  | None =>
      let! s := io credentials_strict in
      if s then raise (RuntimeError MISSING)
      else
        let! b := io (getenv "HOME_ASSISTANT_BASE_URL") in
        let base_url := PyStr.rstrip_char "/" (PyStr.strip (opt_or_empty b)) in
        let! t := io (getenv "HOME_ASSISTANT_TOKEN") in
        let token := PyStr.strip (opt_or_empty t) in
        assign (fun c =>
          mkConnector (credential_id c) (tenant_id c) (Some base_url) (Some token)
            (access_token c) (refresh_token c) (client_id c) (client_secret c)
            (token_url c) (expires_at c)
            (PyStr.truthy base_url && PyStr.truthy token))
  end.

(** The object [__init__] builds before it loads the credentials. *)
Definition blank (cid : string) (tenant : option string) : connector :=
  mkConnector cid tenant None None None None None None None PNone false.

(** [HomeAssistantConnector(credential_id, tenant_id)]: the connector, or
    the exception that aborts the construction. *)
Definition __init__ (cid : string) (tenant : option string) : M connector :=
  fun w =>
    match _load_credentials (blank cid tenant, w) with
    | (Ret _, (self, w')) => (Ret self, w')
    | (Raise e, (_, w')) => (Raise e, w')
    end.

(** The [credential_data] that [_save_tokens] writes. *)
Definition token_bundle (self : connector) : pydict :=
  {[ "base_url" := PStr (opt_or_empty (base_url self));
     "token" := PStr (opt_or_empty (token self));
     "access_token" := PStr (opt_or_empty (access_token self));
     "refresh_token" := PStr (opt_or_empty (refresh_token self));
     "client_id" := PStr (opt_or_empty (client_id self));
     "client_secret" := PStr (opt_or_empty (client_secret self));
     "token_url" := PStr (opt_or_empty (token_url self));
     "expires_at" := expires_at self ]}.

Definition _save_tokens : HA unit :=
  let! self := get_self in
  if negb (opt_truthy (tenant_id self)) then ret tt
  else
    io (save_credential (credential_id self) TOOL_NAME "oauth2"
          (token_bundle self) false (tenant_id self)).

(** The form posted to the token endpoint. *)
Definition refresh_payload (self : connector) : pydict :=
  let payload : pydict :=
    {[ "grant_type" := PStr "refresh_token";
       "refresh_token" := of_opt_str (refresh_token self);
       "client_id" := PStr (opt_or_empty (client_id self)) ]} in
  if opt_truthy (client_secret self)
  then <["client_secret" := of_opt_str (client_secret self)]> payload
  else payload.

Definition refresh_request (self : connector) : request :=
  mkRequest POST (opt_or_empty (token_url self)) ∅ (refresh_payload self) None
    {[ "Content-Type" := "application/x-www-form-urlencoded" ]} 20.

(** The [try] block of [_refresh_access_token]. *)
Definition refresh_exchange : HA unit :=
  let! self := get_self in
  let! resp := io (requests_send (refresh_request self)) in
  if negb (status_code resp =? 200) then ret tt
  else
    let! data := io (json resp) in
    let! a := lift (py_get data "access_token") in
    let! access_token := lift (py_strip (py_or a (PStr ""))) in
    let! r := lift (py_get data "refresh_token") in
    let! refresh_token := lift (py_strip (py_or r (PStr ""))) in
    let! e := lift (py_get data "expires_in") in
    let! expires_in := lift (py_int (py_or e (PInt 0))) in
    do! (if PyStr.truthy access_token
         then assign (set_access_token (Some access_token)) else ret tt) in
    do! (if PyStr.truthy refresh_token
         then assign (set_refresh_token (Some refresh_token)) else ret tt) in
    do! (if negb (expires_in =? 0)
         then let! now := io now_ts in
              assign (set_expires_at (PInt (now + expires_in)))
         else ret tt) in
    _save_tokens.

(** [if not self.token_url: self.token_url = f"{self.base_url}/auth/token"] *)
Definition with_token_url (self : connector) : connector :=
  if negb (opt_truthy (token_url self))
  then set_token_url (Some (opt_or_empty (base_url self) +:+ "/auth/token")) self
  else self.

Definition _refresh_access_token : HA unit :=
  let! self := get_self in
  if negb (opt_truthy (refresh_token self)) then ret tt
  else if negb (opt_truthy (token_url self)) && negb (opt_truthy (base_url self))
  then ret tt
  else
    do! assign with_token_url in
    try_request refresh_exchange (fun _ => ret tt).

(** The header built from the attributes:
    [token = self.token or self.access_token], then [{}] without a token
    and [{"Authorization": f"Bearer {token}"}] with one. *)
Definition bearer (self : connector) : gmap string string :=
  let token := opt_or (token self) (access_token self) in
  if negb (opt_truthy token) then ∅
  else {[ "Authorization" := "Bearer " +:+ opt_or_empty token ]}.

Definition _auth_header : HA (gmap string string) :=
  let! self := get_self in
  do! (if truthy (expires_at self) && opt_truthy (access_token self)
       then let! now := io now_ts in
            let! e := lift (py_int (expires_at self)) in
            if e - 60 <=? now then _refresh_access_token else ret tt
       else ret tt) in
  let! self := get_self in
  ret (bearer self).

Definition _validate_configured (self : connector) : option string :=
  if negb (opt_truthy (base_url self))
  then Some "Home Assistant base_url missing"
  else if negb (opt_truthy (token self) || opt_truthy (access_token self)
                || opt_truthy (refresh_token self))
  then Some "Home Assistant token missing"
  else None.

(** [v.split(".")[0]]: only strings have the method. *)
Definition py_split_head (v : pyval) : outcome pyval :=
  match v with
  | PStr s => Ret (PStr (PyStr.split_head "." s))
  | _ => Raise AttributeError
  end.

(** One turn of the loop of [list_entities]. *)
Definition entity_of (entry : pyval) : outcome pyval :=
  match py_get entry "entity_id" with
  | Raise e => Raise e
  | Ret entity_id =>
  match py_get entry "attributes" with
  | Raise e => Raise e
  | Ret a =>
  let attrs := py_or a (PDict ∅) in
  match py_get entry "state" with
  | Raise e => Raise e
  | Ret state =>
  match py_get attrs "friendly_name" with
  | Raise e => Raise e
  | Ret n =>
  match (if truthy entity_id
         then py_split_head (py_or entity_id (PStr "")) else Ret PNone) with
  | Raise e => Raise e
  | Ret domain =>
      Ret (PDict {[ "entity_id" := entity_id;
                    "state" := state;
                    "name" := py_or n entity_id;
                    "domain" := domain ]})
  end end end end end.

Fixpoint collect_entities (entries entities : list pyval) : outcome (list pyval) :=
  match entries with
  | [] => Ret entities
  | entry :: rest =>
      match entity_of entry with
      | Ret e => collect_entities rest (entities ++ [e])
      | Raise e => Raise e
      end
  end.

Definition list_entities : HA pydict :=
  let! self := get_self in
  match _validate_configured self with
  | Some error => ret (failure error)
  | None =>
      try_request
        (let url := opt_or_empty (base_url self) +:+ "/api/states" in
         let! headers := _auth_header in
         let! resp := io (requests_get url ∅ headers 20) in
         do! io (raise_for_status resp) in
         let! data := io (json resp) in
         let! entries := lift (py_iter (py_or data (PList []))) in
         let! entities := lift (collect_entities entries []) in
         ret {[ "success" := PBool true; "entities" := PList entities ]})
        (fun e => ret (failure e))
  end.

Definition get_state (entity_id : string) : HA pydict :=
  let! self := get_self in
  match _validate_configured self with
  | Some error => ret (failure error)
  | None =>
      if negb (PyStr.truthy (PyStr.strip entity_id))
      then ret (failure "entity_id is required")
      else
        try_request
          (let url := opt_or_empty (base_url self) +:+ "/api/states/" +:+ entity_id in
           let! headers := _auth_header in
           let! resp := io (requests_get url ∅ headers 20) in
           do! io (raise_for_status resp) in
           let! data := io (json resp) in
           ret {[ "success" := PBool true; "state" := data ]})
          (fun e => ret {[ "success" := PBool false;
                           "error" := PStr e;
                           "entity_id" := PStr entity_id ]})
  end.

(** [payload = dict(service_data or {})], then
    [payload.setdefault("entity_id", entity_id)] for a given entity. *)
Definition service_payload (entity_id : option string)
    (service_data : option anydict) : anydict :=
  let payload : anydict := default ∅ service_data in
  if opt_truthy entity_id
  then match payload !! "entity_id" with
       | Some _ => payload
       | None => <["entity_id" := Plain (of_opt_str entity_id)]> payload
       end
  else payload.

(** The request shows the JSON entries of the payload; what
    [requests.post] makes of the other entries is part of its answer. *)
Definition call_service (domain service : string) (entity_id : option string)
    (service_data : option anydict) : HA pydict :=
  let! self := get_self in
  match _validate_configured self with
  | Some error => ret (failure error)
  | None =>
      if negb (PyStr.truthy (PyStr.strip domain))
      then ret (failure "domain is required")
      else if negb (PyStr.truthy (PyStr.strip service))
      then ret (failure "service is required")
      else
        let payload := service_payload entity_id service_data in
        try_request
          (let url := opt_or_empty (base_url self) +:+ "/api/services/"
                        +:+ domain +:+ "/" +:+ service in
           let! auth := _auth_header in
           let headers := <["Content-Type" := "application/json"]> auth in
           let! resp := io (requests_send
                              (mkRequest POST url ∅ ∅
                                 (Some (PDict (plain_part payload)))
                                 headers 20)) in
           do! io (raise_for_status resp) in
           let! data := io (json resp) in
           ret {[ "success" := PBool true; "result" := data ]})
          (fun e => ret (failure e))
  end.

(** The token endpoint did not answer 200: the request raised a
    [RequestException], or the status is another one. *)
Definition refresh_failed (r : net_result) : Prop :=
  match r with
  | NetFail _ => True
  | NetError _ => False
  | NetResp resp => status_code resp <> 200
  end.

(** The key and the record under which a connector saves its tokens. *)
Definition store_key (self : connector) : cred_key :=
  (credential_id self, TOOL_NAME, tenant_id self).

Definition token_record (self : connector) : cred_record :=
  mkCred (token_bundle self) "oauth2" false.

(** [expires_at], when it is consulted, reads as an integer. *)
Definition expires_readable (self : connector) : Prop :=
  truthy (expires_at self) && opt_truthy (access_token self) = true ->
  exists e, py_int (expires_at self) = Ret e.

(** A field that is absent, empty, or a string. *)
Definition text_or_absent (v : pyval) : Prop :=
  truthy v = false \/ exists s, v = PStr s.

(** A body of the token endpoint that the refresh can read. *)
Definition token_body (v : pyval) : Prop :=
  exists d, v = PDict d
    /\ text_or_absent (dict_get d "access_token")
    /\ text_or_absent (dict_get d "refresh_token")
    /\ exists ei, py_int (py_or (dict_get d "expires_in") (PInt 0)) = Ret ei.

(** Every answer to a form post (the refresh is the only one) with
    status 200 has a body the refresh can read. *)
Definition token_endpoint (w : world) : Prop :=
  forall n rq, rq_verb rq = POST -> rq_json rq = None ->
    answers (fun r => status_code r =? 200) token_body (net w n rq).

(** An entry that the loop of [list_entities] can read. *)
Definition entity_entry (v : pyval) : Prop :=
  exists d, v = PDict d
    /\ text_or_absent (dict_get d "entity_id")
    /\ (truthy (dict_get d "attributes") = false
        \/ is_dict (dict_get d "attributes")).

(** A body [list_entities] can read: nothing, or a list of entries. *)
Definition entities_body (v : pyval) : Prop :=
  truthy v = false \/ exists l, v = PList l /\ Forall entity_entry l.

(** Every answer to a [GET] has a body [list_entities] can read. *)
Definition states_endpoint (w : world) : Prop :=
  forall n rq, rq_verb rq = GET ->
    answers (fun r => negb (error_status r)) entities_body (net w n rq).

Definition ENV_VARS : list string :=
  ["HOME_ASSISTANT_BASE_URL"; "HOME_ASSISTANT_TOKEN"].

(** The seven text attributes as the record gives them. *)
Record stored_texts (d : pydict) (b t a r ci cs tu : string) : Prop := {
  st_base_url : stripped d "base_url" = Ret b;
  st_token : stripped d "token" = Ret t;
  st_access_token : stripped d "access_token" = Ret a;
  st_refresh_token : stripped d "refresh_token" = Ret r;
  st_client_id : stripped d "client_id" = Ret ci;
  st_client_secret : stripped d "client_secret" = Ret cs;
  st_token_url : stripped d "token_url" = Ret tu;
}.

(** The store holds nothing usable: no record, a record without data, or
    data whose token, access token and refresh token are all empty. *)
Definition no_usable_record (r : option cred_record) : Prop :=
  match r with
  | None => True
  | Some c =>
      credential_data c = ∅
      \/ exists b ci cs tu, stored_texts (credential_data c) b "" "" "" ci cs tu
  end.

(** The attributes of the record, when there is a record, read as text. *)
Definition readable_record (r : option cred_record) : Prop :=
  match r with
  | None => True
  | Some c => exists b t a r ci cs tu,
                stored_texts (credential_data c) b t a r ci cs tu
  end.

(** [configured] says what [_load_credentials] computed from the other
    attributes. *)
Definition configured_sound (self : connector) : Prop :=
  configured self
  = opt_truthy (base_url self)
    && (opt_truthy (token self) || opt_truthy (access_token self)
        || opt_truthy (refresh_token self)).

End HomeAssistant.

(** ** Concrete connectors and worlds

    The inputs at which the properties below are evaluated. *)

Module Scenario.

(** A world whose store, environment and trace are empty, whose clock
    shows 1000 and whose network gives every request the same answer. *)
Definition world_of (mode : bool) (store : gmap cred_key cred_record)
    (answer : net_result) : world :=
  mkWorld mode ∅ store (fun _ _ => answer) (fun _ => 1000) [].

Definition ok (v : pyval) : net_result := NetResp (mkResponse 200 "" (inr v)).

(** A Home Assistant connector of tenant [acme] whose access token
    expires at 1030, inside the margin at time 1000. *)
Definition stale : HomeAssistant.connector :=
  HomeAssistant.mkConnector "home_assistant" (Some "acme") (Some "http://ha.local")
    (Some "") (Some "old-access") (Some "old-refresh") (Some "client") (Some "")
    (Some "") (PInt 1030) true.

(** The same connector built without a tenant, as [tenant_id] defaults. *)
Definition stale_no_tenant : HomeAssistant.connector :=
  HomeAssistant.mkConnector "home_assistant" None (Some "http://ha.local")
    (Some "") (Some "old-access") (Some "old-refresh") (Some "client") (Some "")
    (Some "") (PInt 1030) true.


(** A connector whose token is good until 4600. *)
Definition fresh : HomeAssistant.connector :=
  HomeAssistant.mkConnector "home_assistant" (Some "acme") (Some "http://ha.local")
    (Some "") (Some "old-access") (Some "old-refresh") (Some "client") (Some "")
    (Some "") (PInt 4600) true.

(** The token endpoint is down. *)
Definition offline : world := world_of false ∅ (NetFail "connection refused").

(** The token endpoint answers 200 and rotates the refresh token, but
    sends no access token. *)
Definition rotation_only : pydict :=
  {[ "refresh_token" := PStr "new-refresh"; "expires_in" := PInt 3600 ]}.

Definition rotating : world := world_of false ∅ (ok (PDict rotation_only)).

(** The token endpoint answers 200 with a new access token. *)
Definition grant : pydict :=
  {[ "access_token" := PStr "new-access"; "expires_in" := PInt 3600 ]}.

Definition granting : world := world_of false ∅ (ok (PDict grant)).

(** The token endpoint answers 200 with a lifetime that is no number,
    without and with an access token. *)
Definition lifetime_abc : pydict := {[ "expires_in" := PStr "abc" ]}.

Definition unreadable_lifetime : world :=
  world_of false ∅ (ok (PDict lifetime_abc)).

Definition grant_abc : pydict :=
  {[ "access_token" := PStr "new-access"; "expires_in" := PStr "abc" ]}.

Definition granting_unreadable : world :=
  world_of false ∅ (ok (PDict grant_abc)).

(** Strict mode; the store holds a Home Assistant record that names the
    server and no secret. *)
Definition address_only : cred_record :=
  mkCred {[ "base_url" := PStr "http://ha.local" ]} "oauth2" false.

Definition strict_address_only : world :=
  world_of true {[ ("home_assistant", "home_assistant", None) := address_only ]}
    (NetFail "connection refused").

(** Permissive mode; the store holds a Home Assistant record without a
    secret, whose [client_id] is a number. *)
Definition numeric_client : cred_record :=
  mkCred {[ "client_id" := PInt 5 ]} "oauth2" false.

Definition permissive_numeric_client : world :=
  world_of false {[ ("home_assistant", "home_assistant", None) := numeric_client ]}
    (NetFail "connection refused").

(** Strict and permissive mode with an empty store. *)
Definition strict_empty : world := world_of true ∅ (NetFail "connection refused").

Definition permissive_empty : world :=
  world_of false ∅ (NetFail "connection refused").

(** A configured NewsAPI connector, and an upstream that answers 200 with
    a JSON array. *)
Definition news : ApiKey.connector :=
  ApiKey.mkConnector "newsapi" None (Some "k") true.

Definition array_answer : world := world_of false ∅ (ok (PList [])).

(** An upstream that answers 200 with an empty JSON object. *)
Definition object_answer : world := world_of false ∅ (ok (PDict ∅)).

(** The store of the end-to-end scenario of FMP. *)
Definition fmp_record : cred_record :=
  mkCred {[ "api_key" := PStr "  secret123  " ]} "api_key" false.

Definition fmp_store : world :=
  world_of true {[ ("fmp", "fmp", None) := fmp_record ]}
    (NetFail "connection refused").

End Scenario.

(** ** Vocabulary of the further properties *)

(** Every character of the string is whitespace. *)
Fixpoint all_space (s : string) : bool :=
  match s with
  | EmptyString => true
  | String c s' => PyStr.is_space c && all_space s'
  end.

(** The first and the last character of a string. *)
Definition first_char (s : string) : option ascii :=
  match s with
  | EmptyString => None
  | String c _ => Some c
  end.

Fixpoint last_char (s : string) : option ascii :=
  match s with
  | EmptyString => None
  | String c EmptyString => Some c
  | String _ s' => last_char s'
  end.

(** A string is trimmed when neither its first nor its last character is
    whitespace. *)
Definition edge_ok (o : option ascii) : bool :=
  match o with
  | None => true
  | Some c => negb (PyStr.is_space c)
  end.

Definition trimmed (s : string) : bool :=
  edge_ok (first_char s) && edge_ok (last_char s).

(** The error text of a failed exchange: the request raised, the status
    is one on which [raise_for_status] raises, or the body is not JSON. *)
Definition transport_error (r : net_result) : option string :=
  match r with
  | NetFail msg => Some msg
  | NetError _ => None
  | NetResp resp =>
      if error_status resp then Some (status_error resp)
      else match body resp with
           | inl (JSONDecodeError msg) => Some msg
           | _ => None
           end
  end.

(** An operation left the store alone and sent at most one request. *)
Definition quiet (w w' : world) : Prop :=
  db w' = db w
  /\ (trace w' = trace w \/ exists rq, trace w' = EvHttp rq :: trace w).

(** A failed result that carries [msg], reached after one request and
    without a change to the store. *)
Definition reports (msg : string) (w : world) (r : outcome pydict * world)
  : Prop :=
  exists env w',
    r = (Ret env, w')
    /\ env !! "success" = Some (PBool false)
    /\ env !! "error" = Some (PStr msg)
    /\ db w' = db w
    /\ exists rq, trace w' = EvHttp rq :: trace w.

(** The reads of the environment that consulting [vars] in turn leaves
    in the trace, most recent first. *)
Definition env_reads (vars : list string) : list event :=
  rev (EvGetenv <$> vars).

(** The attributes that no method assigns after construction. *)
Definition same_identity (self self' : HomeAssistant.connector) : Prop :=
  HomeAssistant.credential_id self' = HomeAssistant.credential_id self
  /\ HomeAssistant.tenant_id self' = HomeAssistant.tenant_id self
  /\ HomeAssistant.base_url self' = HomeAssistant.base_url self
  /\ HomeAssistant.token self' = HomeAssistant.token self
  /\ HomeAssistant.client_id self' = HomeAssistant.client_id self
  /\ HomeAssistant.client_secret self' = HomeAssistant.client_secret self
  /\ HomeAssistant.configured self' = HomeAssistant.configured self.

(** The store changed at most under the connector's own key, and the
    configuration of the process did not change. *)
Definition own_key_only (self : HomeAssistant.connector) (w w' : world)
  : Prop :=
  (forall k, k <> HomeAssistant.store_key self -> db w' !! k = db w !! k)
  /\ net w' = net w /\ clock w' = clock w
  /\ strict w' = strict w /\ environ w' = environ w.

(** What a method may do to the connector and the world, with a bound
    on the requests it sends. *)
Definition frame (bound : nat) (s s' : HomeAssistant.connector * world)
  : Prop :=
  same_identity (fst s) (fst s')
  /\ own_key_only (fst s) (snd s) (snd s')
  /\ (n_http (trace (snd s')) <= n_http (trace (snd s)) + bound)%nat.


(** Further concrete connectors and worlds. *)

Module Cases.

(** A configured FMP connector. *)
Definition fmp : ApiKey.connector :=
  ApiKey.mkConnector "fmp" None (Some "k") true.

(** The token endpoint answers 200 with a new access token, a new
    refresh token and a lifetime. *)
Definition regrant : pydict :=
  {[ "access_token" := PStr "new-access";
     "refresh_token" := PStr "new-refresh";
     "expires_in" := PInt 3600 ]}.

Definition regranting : world :=
  Scenario.world_of false ∅ (Scenario.ok (PDict regrant)).

(** The store holds a Polygon record that names its key [key]. *)
Definition alias_record : cred_record :=
  mkCred {[ "key" := PStr " alt-key " ]} "api_key" false.

Definition alias_store : world :=
  Scenario.world_of true {[ ("polygon", "polygon", None) := alias_record ]}
    (NetFail "connection refused").

(** Permissive mode, an empty store, and only [GOOGLE_API_KEY] set. *)
Definition google_env : world :=
  mkWorld false {[ "GOOGLE_API_KEY" := " g-key " ]} ∅
    (fun _ _ => NetFail "connection refused") (fun _ => 1000) [].

(** A Home Assistant connector as the environment configures it: a base
    URL and a long-lived token, no expiry. *)
Definition from_env : HomeAssistant.connector :=
  HomeAssistant.mkConnector "home_assistant" None (Some "http://ha.local")
    (Some "long-lived") None None None None None PNone true.

(** A state as Home Assistant lists it, and a generated image. *)
Definition kitchen : pydict :=
  {[ "entity_id" := PStr "light.kitchen"; "state" := PStr "on" ]}.

Definition image : pyval := PDict {[ "bytesBase64Encoded" := PStr "aGk=" ]}.

End Cases.

(** The [bytesBase64Encoded] field of a generated image. *)
Definition b64_of (item : pyval) : pyval :=
  match item with
  | PDict d => dict_get d "bytesBase64Encoded"
  | _ => PNone
  end.

(** The text has no dot. *)
Fixpoint dotless (s : string) : bool :=
  match s with
  | EmptyString => true
  | String c s' => negb (Ascii.eqb c ".") && dotless s'
  end.

(** ** The billing endpoints

    [billing/bootstrap.py] is glue over collaborators that live elsewhere:
    the database, the plan table, the tenancy helper, [secrets], [hashlib]
    and [str]. They are the variables of the section; what is embedded is
    the code of the four endpoints. *)

Module Billing.

(** What an endpoint does: it replies, raises [HTTPException], or fails
    with another error ([KeyError] on a missing key, or one of [exn]). *)
Inductive fault : Type :=
| KeyError (key : string)
| Other (e : exn).

Inductive reply (A : Type) : Type :=
| Reply (a : A)
| HTTPException (status_code : Z) (detail : string)
| Fault (e : fault).
Arguments Reply {A} a.
Arguments HTTPException {A} status_code detail.
Arguments Fault {A} e.

(** The request, as far as the endpoints read it: [request.state.tenant_id]
    ([None] when the attribute is absent). *)
Record request : Type := mkRequest {
  state_tenant_id : pyval;
}.

(** The calls made on the database handle. *)
Inductive db_call : Type :=
| GetTenant (tenant_id : pyval)
| GetTenantUsage (tenant_id : pyval)
| CreateApiKey (tenant_id name : pyval) (key_hash : string)
| ListApiKeys (tenant_id : pyval)
| DeleteApiKey (key_id : string) (tenant_id : pyval).

(** The limits of a plan. *)
Record plan_limits : Type := mkLimits {
  requests_per_month : pyval;
  requests_per_day : pyval;
  requests_per_minute : pyval;
}.

Section Endpoints.

(** The state of the database. *)
Variable DB : Type.

(** [db.get_tenant], [db.get_tenant_usage], [db.create_api_key],
    [db.list_api_keys], [db.delete_api_key] *)
Variable db_get_tenant : DB -> pyval -> pyval.
Variable db_get_tenant_usage : DB -> pyval -> pyval.
Variable db_create_api_key : DB -> pyval -> pyval -> string -> pyval * DB.
Variable db_list_api_keys : DB -> pyval -> list pyval.
Variable db_delete_api_key : DB -> string -> pyval -> pyval * DB.

(** [get_plan_limits], [get_request_tenant_id], [str] and
    [hashlib.sha256(s.encode()).hexdigest()] *)
Variable get_plan_limits : pyval -> plan_limits.
Variable get_request_tenant_id : request -> pyval.
Variable py_str : pyval -> string.
Variable sha256_hex : string -> string.

(** [DEMO_MODE] and [DEMO_TENANT_ID] of the configuration, the database,
    the calls made on it so far (most recent first), the keys that
    [secrets.token_hex(32)] yields in turn, and how many were drawn. *)
Record state : Type := mkState {
  DEMO_MODE : bool;
  DEMO_TENANT_ID : pyval;
  database : DB;
  calls : list db_call;
  token_hex : nat -> string;
  drawn : nat;
}.

Definition called (c : db_call) (d : DB) (s : state) : state :=
  mkState (DEMO_MODE s) (DEMO_TENANT_ID s) d (c :: calls s) (token_hex s)
    (drawn s).

Definition B (A : Type) : Type := state -> reply A * state.

Definition pure {A} (a : A) : B A := fun s => (Reply a, s).

Definition abort {A} (status : Z) (detail : string) : B A :=
  fun s => (HTTPException status detail, s).

Definition fail {A} (e : fault) : B A := fun s => (Fault e, s).

Definition and_then {A C} (m : B A) (k : A -> B C) : B C :=
  fun s =>
    match m s with
    | (Reply a, s') => k a s'
    | (HTTPException c d, s') => (HTTPException c d, s')
    | (Fault e, s') => (Fault e, s')
    end.

Notation "'let*' x ':=' m 'in' k" := (and_then m (fun x => k))
  (at level 10, x name, m at level 200, k at level 200, only parsing).

(** [v[k]] *)
Definition subscript (v : pyval) (k : string) : B pyval :=
  match v with
  | PDict d =>
      match d !! k with
      | Some x => pure x
      | None => fail (KeyError k)
      end
  | _ => fail (Other TypeError)
  end.

(** The opening of every endpoint: the tenant of the request, or the demo
    tenant in demo mode, or a 401. *)
Definition tenant_or_demo (tenant_id : pyval) (detail : string) : B pyval :=
  fun s =>
    if negb (truthy tenant_id)
    then if negb (DEMO_MODE s) then (HTTPException 401 detail, s)
         else (Reply (DEMO_TENANT_ID s), s)
    else (Reply tenant_id, s).

Definition get_tenant (tenant_id : pyval) : B pyval :=
  fun s => (Reply (db_get_tenant (database s) tenant_id),
            called (GetTenant tenant_id) (database s) s).

Definition get_tenant_usage (tenant_id : pyval) : B pyval :=
  fun s => (Reply (db_get_tenant_usage (database s) tenant_id),
            called (GetTenantUsage tenant_id) (database s) s).

Definition create_key (tenant_id name : pyval) (key_hash : string) : B pyval :=
  fun s =>
    match db_create_api_key (database s) tenant_id name key_hash with
    | (r, d) => (Reply r, called (CreateApiKey tenant_id name key_hash) d s)
    end.

Definition list_keys (tenant_id : pyval) : B (list pyval) :=
  fun s => (Reply (db_list_api_keys (database s) tenant_id),
            called (ListApiKeys tenant_id) (database s) s).

Definition delete_key (key_id : string) (tenant_id : pyval) : B pyval :=
  fun s =>
    match db_delete_api_key (database s) key_id tenant_id with
    | (r, d) => (Reply r, called (DeleteApiKey key_id tenant_id) d s)
    end.

(** [secrets.token_hex(32)] *)
Definition draw_key : B string :=
  fun s => (Reply (token_hex s (drawn s)),
            mkState (DEMO_MODE s) (DEMO_TENANT_ID s) (database s) (calls s)
              (token_hex s) (S (drawn s))).

Definition billing_status (request : request) : B pydict :=
  let* tenant_id := tenant_or_demo (state_tenant_id request)
                      "No tenant context for billing status" in
  let* tenant := get_tenant tenant_id in
  if negb (truthy tenant) then abort 404 "Tenant not found"
  else
    let* plan := subscript tenant "plan" in
    let limits := get_plan_limits plan in
    let* usage_today := get_tenant_usage tenant_id in
    let* status := subscript tenant "status" in
    let* plan' := subscript tenant "plan" in
    pure {[ "tenant_id" := tenant_id;
            "status" := status;
            "plan" := plan';
            "usage" := PDict {[ "today" := usage_today ]};
            "limits" :=
              PDict {[ "requests_per_month" := requests_per_month limits;
                       "requests_per_day" := requests_per_day limits;
                       "requests_per_minute" := requests_per_minute limits ]} ]}.

Definition create_api_key (request : request) (body : option pydict) : B pydict :=
  let* tenant_id := tenant_or_demo (get_request_tenant_id request)
                      "Authentication required" in
  let name := py_or (dict_get (default ∅ body) "name") (PStr "API Key") in
  let* raw_key := draw_key in
  let key_hash := sha256_hex raw_key in
  let* api_key := create_key tenant_id name key_hash in
  let* id := subscript api_key "id" in
  pure {[ "api_key" := PStr raw_key;
          "api_key_id" := id;
          "tenant_id" := tenant_id;
          "warning" := PStr "Store this key now. It will not be shown again." ]}.

(** [any(str(k.get("id")) == str(key_id) for k in keys)] *)
Fixpoint any_key (keys : list pyval) (key_id : string) : B bool :=
  match keys with
  | [] => pure false
  | k :: rest =>
      match py_get k "id" with
      | Ret id =>
          if String.eqb (py_str id) key_id then pure true
          else any_key rest key_id
      | Raise e => fail (Other e)
      end
  end.

Definition delete_api_key (request : request) (key_id : string) : B pydict :=
  let* tenant_id := tenant_or_demo (get_request_tenant_id request)
                      "Authentication required" in
  let* keys := list_keys tenant_id in
  let* found := any_key keys key_id in
  if negb found then abort 404 "API key not found"
  else
    let* deleted := delete_key key_id tenant_id in
    if negb (truthy deleted) then abort 404 "API key not found"
    else pure {[ "deleted" := PBool true; "key_id" := PStr key_id ]}.

Definition list_api_keys (request : request) : B pydict :=
  let* tenant_id := tenant_or_demo (state_tenant_id request)
                      "No tenant context for API keys" in
  let* keys := list_keys tenant_id in
  pure {[ "keys" := PList keys;
          "total" := PInt (Z.of_nat (length keys)) ]}.

End Endpoints.

End Billing.

(** A database of one tenant, [acme], with a single key of id 7; every
    collaborator answers from it. *)
Module BillingCase.
Import Billing.

Definition keys_of (_ : unit) (tenant_id : pyval) : list pyval :=
  match tenant_id with
  | PStr "acme" => [PDict {[ "id" := PInt 7 ]}]
  | _ => []
  end.

Definition str_of (v : pyval) : string :=
  match v with
  | PStr s => s
  | PInt 7 => "7"
  | _ => "?"
  end.

Definition tenant_of (r : request) : pyval := state_tenant_id r.

Definition start (demo : bool) : state unit :=
  mkState unit demo (PStr "demo") tt [] (fun _ => "00ff") 0.

Definition delete :=
  delete_api_key unit keys_of (fun _ _ _ => (PBool true, tt)) tenant_of str_of.

Definition status :=
  billing_status unit (fun _ _ => PNone) (fun _ _ => PNone)
    (fun _ => mkLimits PNone PNone PNone).

Definition anonymous : request := mkRequest PNone.

Definition acme : request := mkRequest (PStr "acme").

End BillingCase.

(** * Properties *)

(** ** Dictionaries *)

Lemma dict_is_empty_true (d : pydict) : d = ∅ -> dict_is_empty d = true.
Proof. intros ->. reflexivity. Qed.

Lemma dict_is_empty_false (d : pydict) : d <> ∅ -> dict_is_empty d = false.
Proof. intros H. unfold dict_is_empty. apply bool_decide_eq_false, H. Qed.

Lemma lookup_not_empty (d : pydict) (k : string) (v : pyval) :
  d !! k = Some v -> d <> ∅.
Proof. intros H ->. rewrite lookup_empty in H. discriminate. Qed.

(** ** Credential resolution of the API-key connectors *)

Module ApiKeyFacts.
Import ApiKey.

Section Facts.

Variable TOOL_NAME : string.
Variable MISSING : string.
Variable ENV_VARS : list string.

Lemma getenv_first_unset (vars : list string) (w : world) :
  env_unset w vars ->
  exists w', getenv_first vars w = (Ret "", w')
             /\ db w' = db w /\ strict w' = strict w /\ n_http (trace w') = n_http (trace w).
Proof.
  revert w. induction vars as [|v vars IH]; intros w Hun.
  - exists w. repeat split.
  - inversion Hun as [|? ? Hv Hrest]; subst.
    cbn [getenv_first]. unfold bind, getenv. cbn.
    rewrite Hv.
    destruct (IH (log (EvGetenv v) w)) as (w' & E & Hdb & Hst & Hn).
    { exact Hrest. }
    exists w'. rewrite E. repeat split; assumption.
Qed.

Lemma fallback_strict (self : connector) (w : world) :
  strict w = true ->
  load_fallback MISSING ENV_VARS self w = (Raise (RuntimeError MISSING), w).
Proof.
  intros Hs. unfold load_fallback, bind, credentials_strict. cbn.
  rewrite Hs. reflexivity.
Qed.

Lemma fallback_permissive (self : connector) (w : world) :
  strict w = false ->
  env_unset w ENV_VARS ->
  exists w',
    load_fallback MISSING ENV_VARS self w
    = (Ret (mkConnector (credential_id self) (tenant_id self) (Some "") false), w')
    /\ db w' = db w /\ n_http (trace w') = n_http (trace w).
Proof.
  intros Hs Hun. unfold load_fallback, bind, credentials_strict. cbn.
  rewrite Hs.
  destruct (getenv_first_unset ENV_VARS w Hun) as (w' & E & Hdb & _ & Hn).
  exists w'. rewrite E. cbn. repeat split; assumption.
Qed.

(** With nothing usable in the store, [_load_credentials] is its tail. *)
Lemma load_no_usable (self : connector) (w : world) :
  no_usable_record (db w !! (credential_id self, TOOL_NAME, tenant_id self)) ->
  exists self',
    _load_credentials TOOL_NAME MISSING ENV_VARS self w
    = load_fallback MISSING ENV_VARS self' w
    /\ credential_id self' = credential_id self
    /\ tenant_id self' = tenant_id self.
Proof.
  intros Hno. unfold _load_credentials, bind, get_credential. cbn.
  destruct (db w !! _) as [c|] eqn:E; cbn in Hno.
  - destruct Hno as [Hempty | Hkey].
    + rewrite (dict_is_empty_true _ Hempty). exists self. repeat split.
    + destruct (dict_is_empty (credential_data c)).
      * exists self. repeat split.
      * unfold lift. rewrite Hkey. cbn.
        eexists. split; [reflexivity|]. split; reflexivity.
  - exists self. repeat split.
Qed.

Lemma init_strict_missing (cid : string) (tenant : option string) (w : world) :
  strict w = true ->
  no_usable_record (db w !! (cid, TOOL_NAME, tenant)) ->
  __init__ TOOL_NAME MISSING ENV_VARS cid tenant w = (Raise (RuntimeError MISSING), w).
Proof.
  intros Hs Hno. unfold __init__.
  destruct (load_no_usable (mkConnector cid tenant None false) w Hno)
    as (self' & -> & _ & _).
  apply fallback_strict, Hs.
Qed.

Lemma init_permissive_unconfigured (cid : string) (tenant : option string)
    (w : world) :
  strict w = false ->
  no_usable_record (db w !! (cid, TOOL_NAME, tenant)) ->
  env_unset w ENV_VARS ->
  exists w',
    __init__ TOOL_NAME MISSING ENV_VARS cid tenant w
    = (Ret (mkConnector cid tenant (Some "") false), w')
    /\ db w' = db w /\ n_http (trace w') = n_http (trace w).
Proof.
  intros Hs Hno Hun. unfold __init__.
  destruct (load_no_usable (mkConnector cid tenant None false) w Hno)
    as (self' & -> & Hc & Ht).
  destruct (fallback_permissive self' w Hs Hun) as (w' & E & Hdb & Hn).
  exists w'. rewrite E, Hc, Ht. repeat split; assumption.
Qed.

(** A record with a non-blank string under [api_key] configures the
    connector in either mode, with the key trimmed. *)
Lemma init_stored_key (cid : string) (tenant : option string) (w : world)
    (c : cred_record) (raw : string) :
  db w !! (cid, TOOL_NAME, tenant) = Some c ->
  credential_data c !! "api_key" = Some (PStr raw) ->
  PyStr.truthy (PyStr.strip raw) = true ->
  __init__ TOOL_NAME MISSING ENV_VARS cid tenant w
  = (Ret (mkConnector cid tenant (Some (PyStr.strip raw)) true), w).
Proof.
  intros Hdb Hk Hraw. unfold __init__, _load_credentials, bind, get_credential. cbn.
  rewrite Hdb.
  rewrite (dict_is_empty_false _ (lookup_not_empty _ _ _ Hk)). unfold lift, stored_key, dict_get. rewrite Hk. cbn.
  assert (Hraw' : PyStr.truthy raw = true).
  { destruct raw; [discriminate Hraw | reflexivity]. }
  unfold py_or at 1. cbn. rewrite Hraw'. cbn. rewrite Hraw. reflexivity.
Qed.

End Facts.

End ApiKeyFacts.

(** ** Credential resolution of the Home Assistant connector *)

Module HomeAssistantFacts.
Import HomeAssistant.

(** Unfold the primitives of the monad and compute. *)
Ltac run :=
  unfold bind, ret, raise, lift, io, get_self, assign, get_credential,
    credentials_strict, getenv, now_ts, try_request, requests_get,
    requests_send, save_credential, json, raise_for_status; cbn.

Lemma init_no_record_strict (cid : string) (tenant : option string) (w : world) :
  strict w = true ->
  match db w !! (cid, TOOL_NAME, tenant) with
  | None => True
  | Some c => credential_data c = ∅
  end ->
  __init__ cid tenant w = (Raise (RuntimeError MISSING), w).
Proof.
  intros Hs Hno.
  unfold __init__, _load_credentials. run.
  destruct (db w !! _) as [c|]; cbn.
  - rewrite (dict_is_empty_true _ Hno). cbn. rewrite Hs. reflexivity.
  - rewrite Hs. reflexivity.
Qed.

Lemma init_no_record_permissive (cid : string) (tenant : option string)
    (w : world) :
  strict w = false ->
  match db w !! (cid, TOOL_NAME, tenant) with
  | None => True
  | Some c => credential_data c = ∅
  end ->
  ApiKey.env_unset w ENV_VARS ->
  exists self w',
    __init__ cid tenant w = (Ret self, w')
    /\ configured self = false /\ base_url self = Some ""
    /\ configured_sound self.
Proof.
  intros Hs Hno Hun.
  inversion Hun as [|? ? Hb Hrest]; subst.
  inversion Hrest as [|? ? Ht _]; subst.
  assert (Hb' : opt_or_empty (environ w !! "HOME_ASSISTANT_BASE_URL") = "").
  { destruct (environ w !! "HOME_ASSISTANT_BASE_URL") as [[|]|]; try reflexivity.
    discriminate Hb. }
  assert (Ht' : opt_or_empty (environ w !! "HOME_ASSISTANT_TOKEN") = "").
  { destruct (environ w !! "HOME_ASSISTANT_TOKEN") as [[|]|]; try reflexivity.
    discriminate Ht. }
  assert (E : _load_credentials (blank cid tenant, w)
              = (Ret tt,
                 (mkConnector cid tenant (Some "") (Some "") None None None None
                    None PNone false,
                  log (EvGetenv "HOME_ASSISTANT_TOKEN")
                    (log (EvGetenv "HOME_ASSISTANT_BASE_URL") w)))).
  { unfold _load_credentials. run.
    destruct (db w !! _) as [c|]; cbn.
    - rewrite (dict_is_empty_true _ Hno). cbn. rewrite Hs. cbn.
      rewrite Hb', Ht'. reflexivity.
    - rewrite Hs. cbn. rewrite Hb', Ht'. reflexivity. }
  unfold __init__. rewrite E.
  eexists _, _. split; [reflexivity|]. repeat split.
Qed.

(** A record with data decides the attributes in either mode; neither the
    mode nor the environment is read. *)
Lemma init_from_record (cid : string) (tenant : option string) (w : world)
    (c : cred_record) (b t a r ci cs tu : string) :
  db w !! (cid, TOOL_NAME, tenant) = Some c ->
  credential_data c <> ∅ ->
  stored_texts (credential_data c) b t a r ci cs tu ->
  let b' := if PyStr.truthy b then PyStr.rstrip_char "/" b else b in
  __init__ cid tenant w
  = (Ret (mkConnector cid tenant (Some b') (Some t) (Some a) (Some r)
            (Some ci) (Some cs) (Some tu)
            (dict_get (credential_data c) "expires_at")
            (PyStr.truthy b'
             && (PyStr.truthy t || PyStr.truthy a || PyStr.truthy r))), w).
Proof.
  intros Hdb Hne [Hb Ht Ha Hr Hci Hcs Htu] b'.
  unfold __init__, _load_credentials. run.
  rewrite Hdb. cbn.
  rewrite (dict_is_empty_false _ Hne). unfold lift. rewrite Hb, Ht, Ha, Hr, Hci, Hcs, Htu. reflexivity.
Qed.

Lemma init_unusable_record (cid : string) (tenant : option string) (w : world)
    (c : cred_record) :
  db w !! (cid, TOOL_NAME, tenant) = Some c ->
  credential_data c <> ∅ ->
  no_usable_record (Some c) ->
  exists self,
    __init__ cid tenant w = (Ret self, w)
    /\ configured self = false /\ configured_sound self.
Proof.
  intros Hdb Hne [Hempty | (b & ci & cs & tu & Hst)]; [contradiction|].
  eexists. split.
  - apply (init_from_record cid tenant w c _ _ _ _ _ _ _ Hdb Hne Hst).
  - cbn. split; [apply andb_false_r | reflexivity].
Qed.

Lemma unconfigured_validate (self : connector) :
  configured_sound self -> configured self = false ->
  exists msg, _validate_configured self = Some msg.
Proof.
  unfold configured_sound, _validate_configured. intros -> H.
  destruct (opt_truthy (base_url self)); cbn in *; [|eauto].
  rewrite H. cbn. eauto.
Qed.

(** *** Token refresh *)

Lemma refresh_skipped (self : connector) (w : world) :
  opt_truthy (refresh_token self) = false
  \/ opt_truthy (token_url self) || opt_truthy (base_url self) = false ->
  _refresh_access_token (self, w) = (Ret tt, (self, w)).
Proof.
  intros H. unfold _refresh_access_token. run.
  destruct (opt_truthy (refresh_token self)); cbn; [|reflexivity].
  destruct H as [H|H]; [discriminate|].
  apply orb_false_elim in H as [-> ->]. reflexivity.
Qed.

Lemma refresh_entered (self : connector) (w : world) :
  opt_truthy (refresh_token self) = true ->
  opt_truthy (token_url self) || opt_truthy (base_url self) = true ->
  _refresh_access_token (self, w)
  = try_request refresh_exchange (fun _ => ret tt) (with_token_url self, w).
Proof.
  intros Hr Hu. unfold _refresh_access_token.
  generalize (try_request refresh_exchange (fun _ => ret tt)). intros exchange.
  unfold bind, get_self, assign. cbn.
  rewrite Hr. cbn.
  destruct (opt_truthy (token_url self)); cbn in *.
  - reflexivity.
  - rewrite Hu. cbn. reflexivity.
Qed.

Lemma refresh_exchange_failed (self : connector) (w : world) :
  refresh_failed (net w (n_http (trace w)) (refresh_request self)) ->
  try_request refresh_exchange (fun _ => ret tt) (self, w)
  = (Ret tt, (self, log (EvHttp (refresh_request self)) w)).
Proof.
  intros H. unfold refresh_exchange. run.
  destruct (net w _ _) as [msg|err|resp]; cbn in *;
    [reflexivity | contradiction |].
  destruct (status_code resp =? 200) eqn:E; cbn; [|reflexivity].
  apply Z.eqb_eq in E. contradiction.
Qed.

(** What a 200 answer with a JSON object does. *)
Lemma refresh_exchange_200 (self : connector) (w : world) (resp : response)
    (d : pydict) (a r : string) (ei : Z) :
  net w (n_http (trace w)) (refresh_request self) = NetResp resp ->
  status_code resp = 200 ->
  body resp = inr (PDict d) ->
  stripped d "access_token" = Ret a ->
  stripped d "refresh_token" = Ret r ->
  py_int (py_or (dict_get d "expires_in") (PInt 0)) = Ret ei ->
  let now := clock w (n_clock (trace w)) in
  let self' :=
    mkConnector (credential_id self) (tenant_id self) (base_url self)
      (token self)
      (if PyStr.truthy a then Some a else access_token self)
      (if PyStr.truthy r then Some r else refresh_token self)
      (client_id self) (client_secret self) (token_url self)
      (if ei =? 0 then expires_at self else PInt (now + ei))
      (configured self) in
  let w1 := log (EvHttp (refresh_request self)) w in
  let w2 := if ei =? 0 then w1 else log EvClock w1 in
  let w' :=
    if opt_truthy (tenant_id self)
    then log (EvSave (store_key self') (token_record self'))
           (set_db (<[store_key self' := token_record self']> (db w)) w2)
    else w2 in
  try_request refresh_exchange (fun _ => ret tt) (self, w)
  = (Ret tt, (self', w')).
Proof.
  intros Hnet Hst Hb Ha Hr He now self' w1 w2 w'.
  subst self' w' w2 w1 now.
  unfold refresh_exchange, _save_tokens. run.
  rewrite Hnet. cbn. rewrite Hst. cbn. rewrite Hb. cbn.
  unfold stripped in Ha, Hr. rewrite Ha. cbn. rewrite Hr. cbn. rewrite He. cbn.
  destruct self as [cid ten bu tk ac rt ci cs tu ea cf]. cbn.
  destruct (PyStr.truthy a), (PyStr.truthy r), (ei =? 0); cbn;
    destruct (opt_truthy ten); cbn; reflexivity.
Qed.

Lemma py_strip_raises (v : pyval) (e : exn) :
  py_strip v = Raise e -> e = AttributeError.
Proof.
  destruct v; cbn; congruence.
Qed.

Lemma py_int_raises (v : pyval) (e : exn) :
  py_int v = Raise e -> e = ValueError \/ e = TypeError \/ e = OverflowError.
Proof.
  destruct v as [|b|z|f|s|l|d]; cbn; try (intros [= <-]; auto); try discriminate.
  - unfold float_to_int. destruct (Prim2SF f); intros [= <-]; auto.
  - destruct (PyStr.parse_int s); intros [= <-]; auto.
Qed.

(** A 200 answer whose refresh token is not text, or whose lifetime does
    not read as an integer: the error leaves the exchange, after the
    request and before any assignment. *)
Lemma refresh_exchange_unreadable (self : connector) (w : world)
    (resp : response) (d : pydict) (a : string) (e : exn) :
  net w (n_http (trace w)) (refresh_request self) = NetResp resp ->
  status_code resp = 200 ->
  body resp = inr (PDict d) ->
  stripped d "access_token" = Ret a ->
  stripped d "refresh_token" = Raise e
  \/ (exists r, stripped d "refresh_token" = Ret r)
     /\ py_int (py_or (dict_get d "expires_in") (PInt 0)) = Raise e ->
  try_request refresh_exchange (fun _ => ret tt) (self, w)
  = (Raise e, (self, log (EvHttp (refresh_request self)) w)).
Proof.
  intros Hnet Hst Hb Ha H.
  unfold refresh_exchange, _save_tokens. run.
  rewrite Hnet. cbn. rewrite Hst. cbn. rewrite Hb. cbn.
  unfold stripped in Ha, H. rewrite Ha. cbn.
  destruct H as [Hr | [[r Hr] He]]; rewrite Hr; cbn.
  - apply py_strip_raises in Hr as ->. reflexivity.
  - rewrite He. cbn.
    apply py_int_raises in He as [-> | [-> | ->]]; reflexivity.
Qed.

(** Whatever the answer, the exchange sends exactly one request. *)
Lemma refresh_exchange_one_request (self : connector) (w : world) :
  n_http (trace (snd (snd (try_request refresh_exchange (fun _ => ret tt) (self, w)))))
  = S (n_http (trace w)).
Proof.
  unfold refresh_exchange, _save_tokens. run.
  destruct (net w _ _) as [msg|err|resp]; cbn; [reflexivity | destruct err; reflexivity |].
  destruct (status_code resp =? 200); cbn; [|reflexivity].
  destruct (body resp) as [[msg| |]|data]; cbn; [reflexivity..|].
  destruct (py_get data "access_token") as [a|e]; cbn; [|destruct e; reflexivity].
  destruct (py_strip (py_or a (PStr ""))) as [a'|e]; cbn; [|destruct e; reflexivity].
  destruct (py_get data "refresh_token") as [r|e]; cbn; [|destruct e; reflexivity].
  destruct (py_strip (py_or r (PStr ""))) as [r'|e]; cbn; [|destruct e; reflexivity].
  destruct (py_get data "expires_in") as [x|e]; cbn; [|destruct e; reflexivity].
  destruct (py_int (py_or x (PInt 0))) as [ei|e]; cbn; [|destruct e; reflexivity].
  all: destruct (PyStr.truthy a'), (PyStr.truthy r'), (ei =? 0); cbn;
    destruct (opt_truthy (tenant_id self)); cbn; reflexivity.
Qed.

Lemma text_or_absent_strip (v : pyval) :
  text_or_absent v -> exists s, py_strip (py_or v (PStr "")) = Ret s.
Proof.
  intros [H | [s ->]].
  - unfold py_or. rewrite H. eexists. reflexivity.
  - unfold py_or. destruct (truthy (PStr s)); eexists; reflexivity.
Qed.

(** Given readable answers, the refresh returns, and the services of the
    world stay what they were. *)
Lemma refresh_returns (self : connector) (w : world) :
  token_endpoint w ->
  exists self' w',
    _refresh_access_token (self, w) = (Ret tt, (self', w'))
    /\ net w' = net w /\ base_url self' = base_url self.
Proof.
  intros Hep.
  destruct (opt_truthy (refresh_token self)) eqn:Hr;
    [destruct (opt_truthy (token_url self) || opt_truthy (base_url self)) eqn:Hu|].
  2, 3: rewrite refresh_skipped by (rewrite ?Hr, ?Hu; auto); eauto.
  rewrite (refresh_entered self w Hr Hu).
  assert (Hbase : base_url (with_token_url self) = base_url self).
  { unfold with_token_url. destruct (negb _); reflexivity. }
  set (s1 := with_token_url self) in *.
  pose proof (Hep (n_http (trace w)) (refresh_request s1) eq_refl eq_refl) as Hans.
  destruct (net w (n_http (trace w)) (refresh_request s1)) as [msg|err|resp] eqn:Hnet.
  - rewrite refresh_exchange_failed by (rewrite Hnet; exact I). eauto.
  - contradiction.
  - destruct (status_code resp =? 200) eqn:Hst.
    + apply Z.eqb_eq in Hst. cbn in Hans. rewrite Hst in Hans.
      destruct (body resp) as [je|v] eqn:Hb.
      * destruct (Hans eq_refl) as [msg ->].
        unfold refresh_exchange. run. rewrite Hnet. cbn. rewrite Hst. cbn.
        rewrite Hb. cbn. eauto.
      * destruct (Hans eq_refl) as (d & -> & Ha & Hrt & ei & Hei).
        destruct (text_or_absent_strip _ Ha) as [a Ha'].
        destruct (text_or_absent_strip _ Hrt) as [r Hr'].
        rewrite (refresh_exchange_200 s1 w resp d a r ei Hnet Hst Hb Ha' Hr' Hei).
        eexists _, _. split; [reflexivity|]. split.
        -- destruct (opt_truthy (tenant_id s1)), (ei =? 0); reflexivity.
        -- exact Hbase.
    + apply Z.eqb_neq in Hst.
      rewrite refresh_exchange_failed by (rewrite Hnet; exact Hst). eauto.
Qed.

Lemma auth_header_unchecked (self : connector) (w : world) :
  truthy (expires_at self) && opt_truthy (access_token self) = false ->
  _auth_header (self, w) = (Ret (bearer self), (self, w)).
Proof.
  intros H. unfold _auth_header, bearer. run. rewrite H. cbn.
  destruct (negb _); reflexivity.
Qed.

Lemma auth_header_fresh (self : connector) (w : world) (e : Z) :
  truthy (expires_at self) && opt_truthy (access_token self) = true ->
  py_int (expires_at self) = Ret e ->
  clock w (n_clock (trace w)) < e - 60 ->
  _auth_header (self, w) = (Ret (bearer self), (self, log EvClock w)).
Proof.
  intros H He Hlt. unfold _auth_header, bearer. run. rewrite H. cbn.
  rewrite He. cbn.
  destruct (Z.leb_spec (e - 60) (clock w (n_clock (trace w)))); [lia|]. cbn.
  destruct (negb _); reflexivity.
Qed.

Lemma auth_header_stale (self : connector) (w : world) (e : Z) :
  truthy (expires_at self) && opt_truthy (access_token self) = true ->
  py_int (expires_at self) = Ret e ->
  e - 60 <= clock w (n_clock (trace w)) ->
  _auth_header (self, w)
  = match _refresh_access_token (self, log EvClock w) with
    | (Ret _, (self', w')) => (Ret (bearer self'), (self', w'))
    | (Raise x, s') => (Raise x, s')
    end.
Proof.
  intros H He Hle. unfold _auth_header, bearer.
  generalize _refresh_access_token. intros refresh.
  run. rewrite H. cbn. rewrite He. cbn.
  destruct (Z.leb_spec (e - 60) (clock w (n_clock (trace w)))); [|lia].
  destruct (refresh (self, log EvClock w)) as [[[]|x] [self' w']]; cbn.
  - destruct (negb _); reflexivity.
  - reflexivity.
Qed.

Lemma auth_header_returns (self : connector) (w : world) :
  expires_readable self ->
  token_endpoint w ->
  exists h self' w',
    _auth_header (self, w) = (Ret h, (self', w'))
    /\ net w' = net w /\ base_url self' = base_url self.
Proof.
  intros Hex Hep.
  destruct (truthy (expires_at self) && opt_truthy (access_token self)) eqn:Hc.
  - destruct (Hex Hc) as [e He].
    destruct (Z.le_gt_cases (e - 60) (clock w (n_clock (trace w)))) as [Hle|Hgt].
    + rewrite (auth_header_stale self w e Hc He Hle).
      destruct (refresh_returns self (log EvClock w)) as (self' & w' & -> & Hn & Hb).
      { exact Hep. }
      eauto 10.
    + rewrite (auth_header_fresh self w e Hc He Hgt). eauto 10.
  - rewrite (auth_header_unchecked self w Hc). eauto 10.
Qed.

End HomeAssistantFacts.

(** ** Every operation returns an envelope *)

Module OperationFacts.
Import ApiKey.

Ltac run :=
  unfold bind, ret, raise, lift, try_request, requests_get,
    Gemini.requests_post_json, requests_send, json, raise_for_status; cbn.

(** Close a goal [exists env w', (Ret e, s) = (Ret env, w') /\ envelope env]. *)
Ltac enveloped :=
  eexists _, _; split;
  [ reflexivity
  | first [ left; reflexivity
          | right; split; [reflexivity | eexists; reflexivity] ] ].

(** Read the answer to the request the goal is waiting for; on a
    readable answer, [Hup] gives the shape of the body. *)
Ltac answer Hup :=
  match goal with
  | |- context [net ?w ?n ?rq] =>
      let Hans := fresh "Hans" in
      pose proof (Hup n rq) as Hans;
      destruct (net w n rq) as [?msg|?err|?resp]; cbn in Hans |- *;
      [ try enveloped
      | contradiction
      | let Est := fresh "Est" in
        destruct (error_status resp) eqn:Est; cbn in Hans |- *;
        [ try enveloped
        | let Hb := fresh "Hb" in
          destruct (body resp) as [?je|?data] eqn:Hb; cbn in Hans |- *;
          [ destruct (Hans eq_refl) as [?msg ->]; cbn; try enveloped
          | specialize (Hans eq_refl) ] ] ]
  end.

Lemma quote_returns (self : connector) (symbol : string) (w : world) :
  upstream (fun _ => True) w ->
  exists env w', Fmp.quote self symbol w = (Ret env, w') /\ envelope env.
Proof.
  intros Hup. unfold Fmp.quote, not_configured, failure.
  destruct (unconfigured self); [enveloped|].
  destruct (negb _); [enveloped|]. run.
  answer Hup. enveloped.
Qed.

Lemma stock_news_returns (self : connector) (tickers : string) (limit : Z)
    (w : world) :
  upstream (fun _ => True) w ->
  exists env w', Fmp.stock_news self tickers limit w = (Ret env, w') /\ envelope env.
Proof.
  intros Hup. unfold Fmp.stock_news, not_configured, failure.
  destruct (unconfigured self); [enveloped|].
  destruct (negb _); [enveloped|]. run.
  answer Hup. enveloped.
Qed.

Lemma search_returns (self : connector) (q language sort_by : string)
    (page_size : Z) (w : world) :
  upstream is_dict w ->
  exists env w',
    NewsApi.search self q language sort_by page_size w = (Ret env, w')
    /\ envelope env.
Proof.
  intros Hup. unfold NewsApi.search, not_configured, failure.
  destruct (unconfigured self); [enveloped|].
  destruct (negb _); [enveloped|]. run.
  answer Hup. destruct Hans as [d ->]. cbn. enveloped.
Qed.

Lemma top_headlines_returns (self : connector) (country : string)
    (category q : option string) (page_size : Z) (w : world) :
  upstream is_dict w ->
  exists env w',
    NewsApi.top_headlines self country category q page_size w = (Ret env, w')
    /\ envelope env.
Proof.
  intros Hup. unfold NewsApi.top_headlines, not_configured, failure.
  destruct (unconfigured self); [enveloped|]. run.
  answer Hup. destruct Hans as [d ->]. cbn. enveloped.
Qed.

Lemma prev_close_returns (self : connector) (ticker : string) (adjusted : bool)
    (w : world) :
  upstream is_dict w ->
  exists env w',
    Polygon.prev_close self ticker adjusted w = (Ret env, w') /\ envelope env.
Proof.
  intros Hup. unfold Polygon.prev_close, not_configured, failure.
  destruct (unconfigured self); [enveloped|].
  destruct (negb _); [enveloped|]. run.
  answer Hup. destruct Hans as [d ->]. cbn. enveloped.
Qed.

Lemma ticker_details_returns (self : connector) (ticker : string) (w : world) :
  upstream is_dict w ->
  exists env w',
    Polygon.ticker_details self ticker w = (Ret env, w') /\ envelope env.
Proof.
  intros Hup. unfold Polygon.ticker_details, not_configured, failure.
  destruct (unconfigured self); [enveloped|].
  destruct (negb _); [enveloped|]. run.
  answer Hup. destruct Hans as [d ->]. cbn. enveloped.
Qed.

Lemma text_to_speech_returns (self : connector)
    (text language_code voice_name audio_encoding : string)
    (speaking_rate pitch : float) (w : world) :
  upstream is_dict w ->
  exists env w',
    Gemini.text_to_speech self text language_code voice_name audio_encoding
      speaking_rate pitch w = (Ret env, w')
    /\ envelope env.
Proof.
  intros Hup. unfold Gemini.text_to_speech, not_configured, failure.
  destruct (unconfigured self); [enveloped|].
  destruct (negb _); [enveloped|]. run.
  answer Hup. destruct Hans as [d ->]. cbn. enveloped.
Qed.

Lemma collect_images_returns (items images : list pyval) (w : world) :
  Forall is_dict items ->
  exists imgs, Gemini.collect_images items images w = (Ret imgs, w).
Proof.
  intros H. revert images. induction H as [|item items [d ->] _ IH]; intros images.
  - eexists. reflexivity.
  - cbn. unfold bind, lift. cbn. apply IH.
Qed.

Lemma generate_image_returns (self : connector) (prompt : string)
    (sample_count : Z) (output_mime_type : string) (w : world) :
  upstream Gemini.images_body w ->
  exists env w',
    Gemini.generate_image self prompt sample_count output_mime_type w
    = (Ret env, w')
    /\ envelope env.
Proof.
  intros Hup. unfold Gemini.generate_image, not_configured, failure.
  destruct (unconfigured self); [enveloped|].
  destruct (negb _); [enveloped|].
  generalize Gemini.collect_images (fun items => collect_images_returns items []).
  intros collect Hcollect. run.
  answer Hup. destruct Hans as (d & -> & Hg). cbn.
  assert (Hitems : exists items,
             py_iter (py_or (dict_get_default d "generatedImages" (PList []))
                        (PList [])) = Ret items
             /\ Forall is_dict items).
  { destruct Hg as [Hg | (l & Hl & Hall)].
    - unfold py_or. rewrite Hg. exists []. split; [reflexivity | constructor].
    - unfold dict_get_default. rewrite Hl. cbn. unfold py_or.
      destruct (truthy (PList l)); cbn; eauto. }
  destruct Hitems as (items & -> & Hall). cbn.
  match goal with |- context [collect items [] ?w1] =>
    destruct (Hcollect items w1 Hall) as [imgs ->] end.
  enveloped.
Qed.

End OperationFacts.

Module HomeAssistantOps.
Import HomeAssistant HomeAssistantFacts.

Ltac enveloped := OperationFacts.enveloped.

Lemma entity_of_returns (v : pyval) :
  entity_entry v -> exists e, entity_of v = Ret e.
Proof.
  intros (d & -> & Hid & Hattr). unfold entity_of. cbn.
  assert (Ha : exists a, py_or (dict_get d "attributes") (PDict ∅) = PDict a).
  { unfold py_or. destruct Hattr as [-> | [a Ha]]; [eauto|].
    rewrite Ha. destruct (truthy (PDict a)); eauto. }
  destruct Ha as [a ->]. cbn.
  destruct Hid as [-> | [s ->]]; [eauto|].
  unfold py_or. destruct (truthy (PStr s)); cbn; eauto.
Qed.

Lemma collect_entities_returns (entries entities : list pyval) :
  Forall entity_entry entries ->
  exists es, collect_entities entries entities = Ret es.
Proof.
  intros H. revert entities.
  induction H as [|entry entries He _ IH]; intros entities.
  - eexists. reflexivity.
  - cbn. destruct (entity_of_returns entry He) as [e ->]. apply IH.
Qed.

Lemma entities_body_iter (v : pyval) :
  entities_body v ->
  exists entries, py_iter (py_or v (PList [])) = Ret entries
                  /\ Forall entity_entry entries.
Proof.
  intros [H | (l & -> & Hall)]; unfold py_or.
  - rewrite H. exists []. split; [reflexivity | constructor].
  - destruct (truthy (PList l)); cbn; eauto.
Qed.

Lemma list_entities_returns (self : connector) (w : world) :
  expires_readable self -> token_endpoint w -> states_endpoint w ->
  exists env s', list_entities (self, w) = (Ret env, s') /\ envelope env.
Proof.
  intros Hex Hep Hst.
  destruct (auth_header_returns self w Hex Hep) as (h & self' & w' & E & Hn & _).
  unfold list_entities, failure. revert E. generalize _auth_header. intros ah E.
  run. destruct (_validate_configured self); [enveloped|].
  rewrite E. cbn. rewrite Hn.
  match goal with |- context [net w ?n ?rq] =>
    pose proof (Hst n rq eq_refl) as Hans;
    destruct (net w n rq) as [msg|err|resp]; cbn in Hans |- * end;
    [enveloped | contradiction |].
  destruct (error_status resp); cbn in Hans |- *; [enveloped|].
  destruct (body resp) as [je|data]; cbn in Hans |- *;
    [destruct (Hans eq_refl) as [msg ->]; cbn; enveloped|].
  destruct (entities_body_iter data (Hans eq_refl)) as (entries & -> & Hall).
  cbn. destruct (collect_entities_returns entries [] Hall) as [es ->].
  enveloped.
Qed.

(** Read the answer to the request the goal is waiting for, in a world
    [w'] whose network is that of [w]. *)
Ltac answer_after Hup Hn :=
  rewrite Hn;
  match goal with
  | |- context [net ?w ?n ?rq] =>
      let Hans := fresh "Hans" in
      pose proof (Hup n rq) as Hans;
      destruct (net w n rq) as [?msg|?err|?resp]; cbn in Hans |- *;
      [ enveloped
      | contradiction
      | destruct (error_status resp); cbn in Hans |- *;
        [ enveloped
        | destruct (body resp) as [?je|?data]; cbn in Hans |- *;
          [ destruct (Hans eq_refl) as [?msg ->]; cbn; enveloped
          | enveloped ] ] ]
  end.

Lemma get_state_returns (self : connector) (entity_id : string) (w : world) :
  expires_readable self -> token_endpoint w -> upstream (fun _ => True) w ->
  exists env s', get_state entity_id (self, w) = (Ret env, s') /\ envelope env.
Proof.
  intros Hex Hep Hup.
  destruct (auth_header_returns self w Hex Hep) as (h & self' & w' & E & Hn & _).
  unfold get_state, failure. revert E. generalize _auth_header. intros ah E.
  run. destruct (_validate_configured self); [enveloped|].
  destruct (negb _); [enveloped|]. cbn.
  rewrite E. cbn. answer_after Hup Hn.
Qed.

Lemma call_service_returns (self : connector) (domain service : string)
    (entity_id : option string) (service_data : option anydict) (w : world) :
  expires_readable self -> token_endpoint w -> upstream (fun _ => True) w ->
  exists env s',
    call_service domain service entity_id service_data (self, w) = (Ret env, s')
    /\ envelope env.
Proof.
  intros Hex Hep Hup.
  destruct (auth_header_returns self w Hex Hep) as (h & self' & w' & E & Hn & _).
  unfold call_service, failure. revert E. generalize _auth_header. intros ah E.
  run. destruct (_validate_configured self); [enveloped|].
  destruct (negb _); [enveloped|].
  destruct (negb _); [enveloped|]. cbn.
  rewrite E. cbn. answer_after Hup Hn.
Qed.

End HomeAssistantOps.

(** * The claims *)

(** ** Token lifecycle of the Home Assistant connector *)

Section TokenLifecycle.
Import HomeAssistant HomeAssistantFacts.

Lemma with_token_url_same (self : connector) :
  credential_id (with_token_url self) = credential_id self
  /\ tenant_id (with_token_url self) = tenant_id self
  /\ access_token (with_token_url self) = access_token self
  /\ refresh_token (with_token_url self) = refresh_token self
  /\ expires_at (with_token_url self) = expires_at self.
Proof.
  unfold with_token_url. destruct (negb _); repeat split.
Qed.

(** C1. A refresh that meets a network failure or a status other than
    200 returns normally, leaves the access token, the refresh token and
    the expiry as they were (the token URL may have received its default),
    and saves nothing: the store is unchanged and at most the request
    itself was added to the trace. *)
Theorem refresh_failure_leaves_tokens (self : connector) (w : world) :
  refresh_failed
    (net w (n_http (trace w)) (refresh_request (with_token_url self))) ->
  exists self' w',
    _refresh_access_token (self, w) = (Ret tt, (self', w'))
    /\ access_token self' = access_token self
    /\ refresh_token self' = refresh_token self
    /\ expires_at self' = expires_at self
    /\ (self' = self \/ self' = with_token_url self)
    /\ db w' = db w
    /\ (trace w' = trace w
        \/ trace w' = EvHttp (refresh_request (with_token_url self)) :: trace w).
Proof.
  intros Hfail.
  destruct (opt_truthy (refresh_token self)) eqn:Hr;
    [destruct (opt_truthy (token_url self) || opt_truthy (base_url self)) eqn:Hu|].
  2, 3: rewrite refresh_skipped by (rewrite ?Hr, ?Hu; auto);
        exists self, w; repeat split; auto.
  rewrite (refresh_entered self w Hr Hu).
  rewrite (refresh_exchange_failed _ w Hfail).
  eexists _, _. split; [reflexivity|].
  unfold with_token_url. destruct (negb _); cbn; repeat split; auto.
Qed.

(** C1 at the stale connector, with the token endpoint down. *)
Lemma refresh_failure_leaves_tokens_witness :
  exists self' w',
    _refresh_access_token (Scenario.stale, Scenario.offline) = (Ret tt, (self', w'))
    /\ access_token self' = Some "old-access"
    /\ refresh_token self' = Some "old-refresh"
    /\ expires_at self' = PInt 1030
    /\ db w' = ∅.
Proof.
  destruct (refresh_failure_leaves_tokens Scenario.stale Scenario.offline)
    as (self' & w' & E & Ha & Hr & He & _ & Hdb & _).
  - exact I.
  - exists self', w'. rewrite E, Ha, Hr, He, Hdb. repeat split.
Defined.

(** Counterexample to C2 as stated. The endpoint answers 200 without an
    access token but with a new refresh token and a lifetime: the refresh
    token and the expiry change, and the bundle is saved. *)
Lemma refresh_without_access_token_counterexample :
  Scenario.rotation_only !! "access_token" = None
  /\ exists self' w',
      _refresh_access_token (Scenario.stale, Scenario.rotating)
      = (Ret tt, (self', w'))
      /\ refresh_token Scenario.stale = Some "old-refresh"
      /\ refresh_token self' = Some "new-refresh"
      /\ expires_at Scenario.stale = PInt 1030
      /\ expires_at self' = PInt 4600
      /\ db Scenario.rotating !! store_key Scenario.stale = None
      /\ db w' !! store_key Scenario.stale = Some (token_record self').
Proof.
  split; [reflexivity|].
  eexists _, _. split; [vm_compute; reflexivity|].
  repeat split; reflexivity.
Qed.

(** C2, amended. After a 200 answer that is a JSON object whose access
    token is absent, falsy or blank, the access token is unchanged. When
    the refresh token of the answer is not text, or its lifetime does not
    read as an integer, the refresh raises that error, after the request
    and before any assignment: nothing else changed and nothing is saved.
    Otherwise it returns: the refresh token is replaced when the answer
    carries a non-blank one and the expiry is recomputed, from the clock,
    when it carries a non-zero lifetime, and they stay otherwise; the
    resulting bundle is written to the store, as the last effect, when the
    connector has a tenant, and nothing is written when it has none. *)
Theorem refresh_without_access_token (self : connector) (w : world)
    (resp : response) (d : pydict) :
  opt_truthy (refresh_token self) = true ->
  opt_truthy (token_url self) || opt_truthy (base_url self) = true ->
  net w (n_http (trace w)) (refresh_request (with_token_url self)) = NetResp resp ->
  status_code resp = 200 ->
  body resp = inr (PDict d) ->
  stripped d "access_token" = Ret "" ->
  let key := (credential_id self, "home_assistant", tenant_id self) in
  match stripped d "refresh_token",
        py_int (py_or (dict_get d "expires_in") (PInt 0)) with
  | Ret r, Ret ei =>
      exists self' w',
        _refresh_access_token (self, w) = (Ret tt, (self', w'))
        /\ access_token self' = access_token self
        /\ refresh_token self'
           = (if PyStr.truthy r then Some r else refresh_token self)
        /\ expires_at self'
           = (if ei =? 0 then expires_at self
              else PInt (clock w (n_clock (trace w)) + ei))
        /\ (if opt_truthy (tenant_id self)
            then exists saved,
                   db w' = <[key := saved]> (db w)
                   /\ head (trace w') = Some (EvSave key saved)
                   /\ credential_data saved !! "access_token"
                      = Some (PStr (opt_or_empty (access_token self)))
                   /\ credential_data saved !! "refresh_token"
                      = Some (PStr (opt_or_empty (refresh_token self')))
                   /\ credential_data saved !! "expires_at"
                      = Some (expires_at self')
            else db w' = db w
                 /\ trace w' = ((if ei =? 0 then [] else [EvClock])
                                 ++ EvHttp (refresh_request (with_token_url self))
                                 :: trace w)%list)
  | Raise e, _ | Ret _, Raise e =>
      _refresh_access_token (self, w)
      = (Raise e,
         (with_token_url self,
          log (EvHttp (refresh_request (with_token_url self))) w))
  end.
Proof.
  intros Hr Hu Hnet Hst Hb Ha key.
  rewrite (refresh_entered self w Hr Hu).
  destruct (stripped d "refresh_token") as [r|e] eqn:Hrt.
  - destruct (py_int _) as [ei|e] eqn:Hei.
    + rewrite (refresh_exchange_200 _ w resp d "" r ei Hnet Hst Hb Ha Hrt Hei).
      destruct (with_token_url_same self) as (Hcid & Hten & Hat & Hrf & Hex).
      eexists _, _. split; [reflexivity|]. cbn.
      unfold store_key. cbn. rewrite Hten, Hcid, Hat, Hrf, Hex.
      repeat split.
      destruct (opt_truthy (tenant_id self)); cbn.
      * eexists. repeat split.
      * destruct (ei =? 0); split; reflexivity.
    + apply (refresh_exchange_unreadable _ w resp d "" e Hnet Hst Hb Ha).
      right. split; [eauto | exact Hei].
  - apply (refresh_exchange_unreadable _ w resp d "" e Hnet Hst Hb Ha).
    left. exact Hrt.
Qed.

(** C2, amended, at the stale connector: with a 200 answer that is an
    empty object, and with one whose lifetime is ["abc"]. *)
Lemma refresh_without_access_token_witness :
  (exists self' w',
     _refresh_access_token (Scenario.stale, Scenario.object_answer)
     = (Ret tt, (self', w'))
     /\ access_token self' = Some "old-access"
     /\ refresh_token self' = Some "old-refresh"
     /\ expires_at self' = PInt 1030)
  /\ fst (_refresh_access_token (Scenario.stale, Scenario.unreadable_lifetime))
     = Raise ValueError.
Proof.
  split.
  - destruct (refresh_without_access_token Scenario.stale Scenario.object_answer
                (mkResponse 200 "" (inr (PDict ∅))) ∅
                eq_refl eq_refl eq_refl eq_refl eq_refl eq_refl)
      as (self' & w' & E & Ha & Hr & He & _).
    exists self', w'. rewrite E, Ha, Hr, He. repeat split.
  - rewrite (refresh_without_access_token Scenario.stale Scenario.unreadable_lifetime
               (mkResponse 200 "" (inr (PDict Scenario.lifetime_abc))) Scenario.lifetime_abc
               eq_refl eq_refl eq_refl eq_refl eq_refl eq_refl).
    reflexivity.
Defined.

(** Counterexample to C3 as stated. A connector built without a tenant
    refreshes successfully, and nothing reaches the store. *)
Lemma refresh_without_tenant_counterexample :
  exists self' w',
    _refresh_access_token (Scenario.stale_no_tenant, Scenario.granting)
    = (Ret tt, (self', w'))
    /\ access_token self' = Some "new-access"
    /\ db w' = ∅
    /\ trace w'
       = [EvClock;
          EvHttp (refresh_request (with_token_url Scenario.stale_no_tenant))].
Proof.
  eexists _, _. split; [vm_compute; reflexivity|].
  repeat split; reflexivity.
Qed.

(** C3, amended. After a 200 answer that is a JSON object whose access
    token is a non-blank text, when the refresh token of the answer is
    text, absent or falsy and its lifetime reads as an integer, the refresh
    returns with the trimmed access token assigned. A connector that has a
    tenant then saves its bundle: the record now in the store, which is
    also the last effect, holds the new access token, the rotated refresh
    token if the answer gave a non-blank one and the prior one otherwise,
    and as expiry the clock plus the lifetime if the answer gave a non-zero
    one and the prior expiry otherwise. A connector without a tenant saves
    nothing: the store is unchanged and the trace holds the request and
    the clock reading only. When the refresh token is not text or the
    lifetime does not read as an integer, the refresh raises that error
    after the request, and nothing is assigned or saved. *)
Theorem refresh_success_persisted (self : connector) (w : world)
    (resp : response) (d : pydict) (a : string) :
  opt_truthy (refresh_token self) = true ->
  opt_truthy (token_url self) || opt_truthy (base_url self) = true ->
  net w (n_http (trace w)) (refresh_request (with_token_url self)) = NetResp resp ->
  status_code resp = 200 ->
  body resp = inr (PDict d) ->
  stripped d "access_token" = Ret a ->
  PyStr.truthy a = true ->
  let key := (credential_id self, "home_assistant", tenant_id self) in
  match stripped d "refresh_token",
        py_int (py_or (dict_get d "expires_in") (PInt 0)) with
  | Ret r, Ret ei =>
      exists self' w',
        _refresh_access_token (self, w) = (Ret tt, (self', w'))
        /\ access_token self' = Some a
        /\ (if opt_truthy (tenant_id self)
            then exists saved,
                   db w' = <[key := saved]> (db w)
                   /\ head (trace w') = Some (EvSave key saved)
                   /\ credential_data saved !! "access_token" = Some (PStr a)
                   /\ credential_data saved !! "refresh_token"
                      = Some (PStr (if PyStr.truthy r then r
                                    else opt_or_empty (refresh_token self)))
                   /\ credential_data saved !! "expires_at"
                      = Some (if ei =? 0 then expires_at self
                              else PInt (clock w (n_clock (trace w)) + ei))
            else db w' = db w
                 /\ trace w' = ((if ei =? 0 then [] else [EvClock])
                                 ++ EvHttp (refresh_request (with_token_url self))
                                 :: trace w)%list)
  | Raise e, _ | Ret _, Raise e =>
      _refresh_access_token (self, w)
      = (Raise e,
         (with_token_url self,
          log (EvHttp (refresh_request (with_token_url self))) w))
  end.
Proof.
  intros Hr Hu Hnet Hst Hb Ha Hat key.
  rewrite (refresh_entered self w Hr Hu).
  destruct (stripped d "refresh_token") as [r|e] eqn:Hrt.
  - destruct (py_int _) as [ei|e] eqn:Hei.
    + rewrite (refresh_exchange_200 _ w resp d a r ei Hnet Hst Hb Ha Hrt Hei).
      destruct (with_token_url_same self) as (Hcid & Hten & Hac & Hrf & Hex).
      eexists _, _. split; [reflexivity|]. cbn.
      unfold store_key. cbn. rewrite Hten, Hcid, Hrf, Hex, Hat.
      split; [reflexivity|].
      destruct (opt_truthy (tenant_id self)) eqn:Ht; cbn.
      * eexists. split; [reflexivity|]. split; [reflexivity|].
        cbn. split; [reflexivity|]. split.
        -- destruct (PyStr.truthy r); reflexivity.
        -- reflexivity.
      * destruct (ei =? 0); split; reflexivity.
    + apply (refresh_exchange_unreadable _ w resp d a e Hnet Hst Hb Ha).
      right. split; [eauto | exact Hei].
  - apply (refresh_exchange_unreadable _ w resp d a e Hnet Hst Hb Ha).
    left. exact Hrt.
Qed.

(** C3, amended, at the stale connector of tenant [acme]: with a 200
    answer that grants a new access token, and with one whose lifetime is
    ["abc"]. *)
Lemma refresh_success_persisted_witness :
  (exists self' w' saved,
     _refresh_access_token (Scenario.stale, Scenario.granting)
     = (Ret tt, (self', w'))
     /\ db w' !! store_key Scenario.stale = Some saved
     /\ credential_data saved !! "access_token" = Some (PStr "new-access")
     /\ credential_data saved !! "refresh_token" = Some (PStr "old-refresh")
     /\ credential_data saved !! "expires_at" = Some (PInt 4600))
  /\ (exists w',
        _refresh_access_token (Scenario.stale, Scenario.granting_unreadable)
        = (Raise ValueError, (with_token_url Scenario.stale, w'))
        /\ access_token (with_token_url Scenario.stale) = Some "old-access"
        /\ db w' = ∅).
Proof.
  split.
  - destruct (refresh_success_persisted Scenario.stale Scenario.granting
                (mkResponse 200 "" (inr (PDict Scenario.grant))) Scenario.grant
                "new-access" eq_refl eq_refl eq_refl eq_refl eq_refl eq_refl
                eq_refl)
      as (self' & w' & E & _ & saved & Hdb & _ & Ha & Hr & He).
    exists self', w', saved. rewrite E, Hdb, Ha, Hr, He.
    split; [reflexivity|]. split; [apply lookup_insert_eq|]. repeat split.
  - eexists. split.
    + apply (refresh_success_persisted Scenario.stale Scenario.granting_unreadable
               (mkResponse 200 "" (inr (PDict Scenario.grant_abc)))
               Scenario.grant_abc "new-access"
               eq_refl eq_refl eq_refl eq_refl eq_refl eq_refl eq_refl).
    + split; reflexivity.
Defined.




End TokenLifecycle.

(** ** Credential resolution *)

Section Resolution.

(** The operations of an unconfigured connector answer at once. *)
Lemma unconfigured_operations (self : ApiKey.connector) :
  ApiKey.unconfigured self = true ->
  (forall symbol w, Fmp.quote self symbol w
                    = (Ret (failure Fmp.NOT_CONFIGURED), w))
  /\ (forall tickers limit w,
        Fmp.stock_news self tickers limit w
        = (Ret (failure Fmp.NOT_CONFIGURED), w))
  /\ (forall q language sort_by page_size w,
        NewsApi.search self q language sort_by page_size w
        = (Ret (failure NewsApi.NOT_CONFIGURED), w))
  /\ (forall country category q page_size w,
        NewsApi.top_headlines self country category q page_size w
        = (Ret (failure NewsApi.NOT_CONFIGURED), w))
  /\ (forall ticker adjusted w,
        Polygon.prev_close self ticker adjusted w
        = (Ret (failure Polygon.NOT_CONFIGURED), w))
  /\ (forall ticker w,
        Polygon.ticker_details self ticker w
        = (Ret (failure Polygon.NOT_CONFIGURED), w))
  /\ (forall prompt sample_count output_mime_type w,
        Gemini.generate_image self prompt sample_count output_mime_type w
        = (Ret (failure Gemini.NOT_CONFIGURED), w))
  /\ (forall text language_code voice_name audio_encoding speaking_rate pitch w,
        Gemini.text_to_speech self text language_code voice_name audio_encoding
          speaking_rate pitch w
        = (Ret (failure Gemini.NOT_CONFIGURED), w)).
Proof.
  intros Hun.
  unfold Fmp.quote, Fmp.stock_news, NewsApi.search, NewsApi.top_headlines,
    Polygon.prev_close, Polygon.ticker_details, Gemini.generate_image,
    Gemini.text_to_speech.
  rewrite Hun. repeat split.
Qed.

Lemma unvalidated_operations (self : HomeAssistant.connector) (msg : string) :
  HomeAssistant._validate_configured self = Some msg ->
  (forall w, HomeAssistant.list_entities (self, w)
             = (Ret (failure msg), (self, w)))
  /\ (forall entity_id w,
        HomeAssistant.get_state entity_id (self, w)
        = (Ret (failure msg), (self, w)))
  /\ (forall domain service entity_id service_data w,
        HomeAssistant.call_service domain service entity_id service_data (self, w)
        = (Ret (failure msg), (self, w))).
Proof.
  intros Hv.
  unfold HomeAssistant.list_entities, HomeAssistant.get_state,
    HomeAssistant.call_service, bind, HomeAssistant.get_self. cbn.
  rewrite Hv. repeat split.
Qed.

(** Counterexample to C5 as stated. In strict mode, with a Home
    Assistant record that holds an address and no secret, the constructor
    returns an unconfigured connector instead of raising. *)
Lemma strict_unusable_record_counterexample :
  strict Scenario.strict_address_only = true
  /\ credential_data Scenario.address_only !! "token" = None
  /\ credential_data Scenario.address_only !! "access_token" = None
  /\ credential_data Scenario.address_only !! "refresh_token" = None
  /\ exists self,
      HomeAssistant.__init__ "home_assistant" None Scenario.strict_address_only
      = (Ret self, Scenario.strict_address_only)
      /\ HomeAssistant.configured self = false.
Proof.
  repeat split. eexists. split; [vm_compute; reflexivity | reflexivity].
Qed.

(** C5, amended. In strict mode the constructor of FMP, NewsAPI, Polygon
    and Gemini raises the credentials-missing error of its tool when the
    store holds no record, a record without data, or data whose key is
    empty; the constructor of Home Assistant raises its own when the store
    holds no record or a record without data. The world is left as it
    was: no environment variable is read. Each message starts with the
    name of its tool. *)
Theorem strict_missing_is_fatal (cid : string) (tenant : option string)
    (w : world) :
  strict w = true ->
  (ApiKey.no_usable_record (db w !! (cid, Fmp.TOOL_NAME, tenant)) ->
   Fmp.__init__ cid tenant w = (Raise (RuntimeError Fmp.MISSING), w))
  /\ (ApiKey.no_usable_record (db w !! (cid, NewsApi.TOOL_NAME, tenant)) ->
      NewsApi.__init__ cid tenant w = (Raise (RuntimeError NewsApi.MISSING), w))
  /\ (ApiKey.no_usable_record (db w !! (cid, Polygon.TOOL_NAME, tenant)) ->
      Polygon.__init__ cid tenant w = (Raise (RuntimeError Polygon.MISSING), w))
  /\ (ApiKey.no_usable_record (db w !! (cid, Gemini.TOOL_NAME, tenant)) ->
      Gemini.__init__ cid tenant w = (Raise (RuntimeError Gemini.MISSING), w))
  /\ (match db w !! (cid, HomeAssistant.TOOL_NAME, tenant) with
      | None => True
      | Some c => credential_data c = ∅
      end ->
      HomeAssistant.__init__ cid tenant w
      = (Raise (RuntimeError HomeAssistant.MISSING), w))
  /\ String.prefix "FMP" Fmp.MISSING = true
  /\ String.prefix "NewsAPI" NewsApi.MISSING = true
  /\ String.prefix "Polygon" Polygon.MISSING = true
  /\ String.prefix "Gemini" Gemini.MISSING = true
  /\ String.prefix "Home Assistant" HomeAssistant.MISSING = true.
Proof.
  intros Hs. repeat split.
  - apply ApiKeyFacts.init_strict_missing, Hs.
  - apply ApiKeyFacts.init_strict_missing, Hs.
  - apply ApiKeyFacts.init_strict_missing, Hs.
  - apply ApiKeyFacts.init_strict_missing, Hs.
  - apply HomeAssistantFacts.init_no_record_strict, Hs.
Qed.

(** C5, amended, in strict mode with an empty store. *)
Lemma strict_missing_is_fatal_witness :
  Fmp.__init__ "fmp" None Scenario.strict_empty
  = (Raise (RuntimeError Fmp.MISSING), Scenario.strict_empty)
  /\ HomeAssistant.__init__ "home_assistant" None Scenario.strict_empty
     = (Raise (RuntimeError HomeAssistant.MISSING), Scenario.strict_empty).
Proof.
  destruct (strict_missing_is_fatal "fmp" None Scenario.strict_empty eq_refl)
    as (Hfmp & _).
  destruct (strict_missing_is_fatal "home_assistant" None Scenario.strict_empty
              eq_refl) as (_ & _ & _ & _ & Hha & _).
  split; [apply Hfmp | apply Hha]; exact I.
Defined.

(** Counterexample to C6 as stated. In permissive mode, with an empty
    environment and a Home Assistant record that holds no token, no access
    token and no refresh token, but a [client_id] that is a number, the
    constructor raises [AttributeError]: the number has no [strip]. *)
Lemma permissive_numeric_field_counterexample :
  strict Scenario.permissive_numeric_client = false
  /\ environ Scenario.permissive_numeric_client = ∅
  /\ db Scenario.permissive_numeric_client
       !! ("home_assistant", HomeAssistant.TOOL_NAME, None)
     = Some Scenario.numeric_client
  /\ credential_data Scenario.numeric_client !! "token" = None
  /\ credential_data Scenario.numeric_client !! "access_token" = None
  /\ credential_data Scenario.numeric_client !! "refresh_token" = None
  /\ HomeAssistant.__init__ "home_assistant" None
       Scenario.permissive_numeric_client
     = (Raise AttributeError, Scenario.permissive_numeric_client).
Proof.
  repeat split.
Qed.

(** C6, amended. In permissive mode, with the environment variables of
    the connector unset or empty and a store that holds no record, a
    record without data, or data that reads as text and names no secret
    (the key is empty for FMP, NewsAPI, Polygon and Gemini; the seven text
    fields are text or absent and token, access token and refresh token are
    empty for Home Assistant), the constructor returns a connector whose
    [configured] is false, and from then on every business operation, on
    every argument and in every world, returns
    [{"success": False, "error": ...}] with the not-configured error of
    its connector, touching nothing. *)
Theorem permissive_unconfigured (cid : string) (tenant : option string)
    (w : world) :
  strict w = false ->
  (ApiKey.no_usable_record (db w !! (cid, Fmp.TOOL_NAME, tenant)) ->
   ApiKey.env_unset w Fmp.ENV_VARS ->
   exists self w',
     Fmp.__init__ cid tenant w = (Ret self, w')
     /\ ApiKey.configured self = false
     /\ (forall symbol w2,
           Fmp.quote self symbol w2
           = (Ret {[ "success" := PBool false;
                       "error" := PStr "FMP connector not configured (missing API key)" ]},
                w2))
     /\ (forall tickers limit w2,
           Fmp.stock_news self tickers limit w2
           = (Ret {[ "success" := PBool false;
                       "error" := PStr "FMP connector not configured (missing API key)" ]},
                w2)))
  /\ (ApiKey.no_usable_record (db w !! (cid, NewsApi.TOOL_NAME, tenant)) ->
      ApiKey.env_unset w NewsApi.ENV_VARS ->
      exists self w',
        NewsApi.__init__ cid tenant w = (Ret self, w')
        /\ ApiKey.configured self = false
        /\ (forall q language sort_by page_size w2,
              NewsApi.search self q language sort_by page_size w2
              = (Ret {[ "success" := PBool false;
                          "error" := PStr "NewsAPI connector not configured (missing API key)" ]},
                   w2))
        /\ (forall country category q page_size w2,
              NewsApi.top_headlines self country category q page_size w2
              = (Ret {[ "success" := PBool false;
                          "error" := PStr "NewsAPI connector not configured (missing API key)" ]},
                   w2)))
  /\ (ApiKey.no_usable_record (db w !! (cid, Polygon.TOOL_NAME, tenant)) ->
      ApiKey.env_unset w Polygon.ENV_VARS ->
      exists self w',
        Polygon.__init__ cid tenant w = (Ret self, w')
        /\ ApiKey.configured self = false
        /\ (forall ticker adjusted w2,
              Polygon.prev_close self ticker adjusted w2
              = (Ret {[ "success" := PBool false;
                          "error" := PStr "Polygon connector not configured (missing API key)" ]},
                   w2))
        /\ (forall ticker w2,
              Polygon.ticker_details self ticker w2
              = (Ret {[ "success" := PBool false;
                          "error" := PStr "Polygon connector not configured (missing API key)" ]},
                   w2)))
  /\ (ApiKey.no_usable_record (db w !! (cid, Gemini.TOOL_NAME, tenant)) ->
      ApiKey.env_unset w Gemini.ENV_VARS ->
      exists self w',
        Gemini.__init__ cid tenant w = (Ret self, w')
        /\ ApiKey.configured self = false
        /\ (forall prompt sample_count output_mime_type w2,
              Gemini.generate_image self prompt sample_count output_mime_type w2
              = (Ret {[ "success" := PBool false;
                          "error" := PStr "Gemini connector not configured (missing API key)" ]},
                   w2))
        /\ (forall text language_code voice_name audio_encoding speaking_rate
                   pitch w2,
              Gemini.text_to_speech self text language_code voice_name
                audio_encoding speaking_rate pitch w2
              = (Ret {[ "success" := PBool false;
                          "error" := PStr "Gemini connector not configured (missing API key)" ]},
                   w2)))
  /\ (HomeAssistant.no_usable_record
        (db w !! (cid, HomeAssistant.TOOL_NAME, tenant)) ->
      ApiKey.env_unset w HomeAssistant.ENV_VARS ->
      exists self w' msg,
        HomeAssistant.__init__ cid tenant w = (Ret self, w')
        /\ HomeAssistant.configured self = false
        /\ (msg = "Home Assistant base_url missing"
            \/ msg = "Home Assistant token missing")
        /\ (forall w2,
              HomeAssistant.list_entities (self, w2)
              = (Ret {[ "success" := PBool false;
                          "error" := PStr msg ]},
                   (self, w2)))
        /\ (forall entity_id w2,
              HomeAssistant.get_state entity_id (self, w2)
              = (Ret {[ "success" := PBool false;
                          "error" := PStr msg ]},
                   (self, w2)))
        /\ (forall domain service entity_id service_data w2,
              HomeAssistant.call_service domain service entity_id service_data
                (self, w2)
              = (Ret {[ "success" := PBool false;
                          "error" := PStr msg ]},
                   (self, w2)))).
Proof.
  intros Hs.
  assert (Hkey : forall tool missing vars,
             ApiKey.no_usable_record (db w !! (cid, tool, tenant)) ->
             ApiKey.env_unset w vars ->
             exists self w',
               ApiKey.__init__ tool missing vars cid tenant w = (Ret self, w')
               /\ ApiKey.configured self = false
               /\ ApiKey.unconfigured self = true).
  { intros tool missing vars Hno Hun.
    destruct (ApiKeyFacts.init_permissive_unconfigured tool missing vars cid
                tenant w Hs Hno Hun) as (w' & E & _).
    eexists _, w'. split; [exact E|]. split; reflexivity. }
  split; [|split; [|split; [|split]]].
  - intros Hno Hun. destruct (Hkey _ Fmp.MISSING _ Hno Hun) as (self & w' & E & Hc & Hu).
    destruct (unconfigured_operations self Hu) as (H1 & H2 & _).
    exists self, w'. auto.
  - intros Hno Hun.
    destruct (Hkey _ NewsApi.MISSING _ Hno Hun) as (self & w' & E & Hc & Hu).
    destruct (unconfigured_operations self Hu) as (_ & _ & H1 & H2 & _).
    exists self, w'. auto.
  - intros Hno Hun.
    destruct (Hkey _ Polygon.MISSING _ Hno Hun) as (self & w' & E & Hc & Hu).
    destruct (unconfigured_operations self Hu) as (_ & _ & _ & _ & H1 & H2 & _).
    exists self, w'. auto.
  - intros Hno Hun.
    destruct (Hkey _ Gemini.MISSING _ Hno Hun) as (self & w' & E & Hc & Hu).
    destruct (unconfigured_operations self Hu)
      as (_ & _ & _ & _ & _ & _ & H1 & H2).
    exists self, w'. auto.
  - intros Hno Hun.
    assert (Hinit : exists self w',
               HomeAssistant.__init__ cid tenant w = (Ret self, w')
               /\ HomeAssistant.configured self = false
               /\ HomeAssistant.configured_sound self).
    { destruct (db w !! (cid, HomeAssistant.TOOL_NAME, tenant)) as [c|] eqn:Hdb.
      - destruct (decide (credential_data c = ∅)) as [Hempty | Hne].
        + destruct (HomeAssistantFacts.init_no_record_permissive cid tenant w Hs)
            as (self & w' & E & Hc & _ & Hsound); [rewrite Hdb; exact Hempty|exact Hun|].
          eauto.
        + destruct (HomeAssistantFacts.init_unusable_record cid tenant w c Hdb Hne Hno)
            as (self & E & Hc & Hsound).
          eauto.
      - destruct (HomeAssistantFacts.init_no_record_permissive cid tenant w Hs)
          as (self & w' & E & Hc & _ & Hsound); [rewrite Hdb; exact I|exact Hun|].
        eauto. }
    destruct Hinit as (self & w' & E & Hc & Hsound).
    destruct (HomeAssistantFacts.unconfigured_validate self Hsound Hc) as [msg Hv].
    destruct (unvalidated_operations self msg Hv) as (H1 & H2 & H3).
    exists self, w', msg. repeat split; auto.
    unfold HomeAssistant._validate_configured in Hv.
    destruct (negb (opt_truthy (HomeAssistant.base_url self)));
      [left; congruence|].
    destruct (negb _); [right; congruence | discriminate].
Qed.

(** C6, amended, in permissive mode with an empty store and an empty
    environment. *)
Lemma permissive_unconfigured_witness :
  (exists self w',
     Fmp.__init__ "fmp" None Scenario.permissive_empty = (Ret self, w')
     /\ ApiKey.configured self = false
     /\ Fmp.quote self "AAPL" w'
        = (Ret {[ "success" := PBool false;
                    "error" := PStr "FMP connector not configured (missing API key)" ]},
             w'))
  /\ (exists self w' msg,
        HomeAssistant.__init__ "home_assistant" None Scenario.permissive_empty
        = (Ret self, w')
        /\ HomeAssistant.configured self = false
        /\ (msg = "Home Assistant base_url missing"
            \/ msg = "Home Assistant token missing")
        /\ HomeAssistant.list_entities (self, w')
           = (Ret {[ "success" := PBool false; "error" := PStr msg ]},
              (self, w'))).
Proof.
  destruct (permissive_unconfigured "fmp" None Scenario.permissive_empty eq_refl)
    as (Hfmp & _).
  destruct (permissive_unconfigured "home_assistant" None Scenario.permissive_empty
              eq_refl) as (_ & _ & _ & _ & Hha).
  split.
  - destruct Hfmp as (self & w' & E & Hc & Hq & _).
    + exact I.
    + repeat constructor.
    + exists self, w'. auto.
  - destruct Hha as (self & w' & msg & E & Hc & Hmsg & Hl & _).
    + exact I.
    + repeat constructor.
    + exists self, w', msg. auto.
Defined.

(** C9. When the store record of the FMP connector holds
    [api_key = "  secret123  "], the constructor, in either mode and
    without reading the environment, returns a connector whose key is the
    trimmed ["secret123"] and whose [configured] is true; its [quote] with
    an empty symbol then returns
    [{"success": False, "error": "symbol is required"}] and leaves the world
    as it was, so that no request is sent. *)
Theorem fmp_trimmed_key_scenario (cid : string) (tenant : option string)
    (w : world) (c : cred_record) :
  db w !! (cid, Fmp.TOOL_NAME, tenant) = Some c ->
  credential_data c !! "api_key" = Some (PStr "  secret123  ") ->
  exists self,
    Fmp.__init__ cid tenant w = (Ret self, w)
    /\ ApiKey.api_key self = Some "secret123"
    /\ ApiKey.configured self = true
    /\ forall w2,
         Fmp.quote self "" w2
         = (Ret {[ "success" := PBool false;
                   "error" := PStr "symbol is required" ]},
            w2).
Proof.
  intros Hdb Hk.
  eexists. split.
  - apply (ApiKeyFacts.init_stored_key Fmp.TOOL_NAME Fmp.MISSING Fmp.ENV_VARS
             cid tenant w c "  secret123  " Hdb Hk).
    reflexivity.
  - repeat split.
Qed.

(** C9 at the store of the scenario. *)
Lemma fmp_trimmed_key_scenario_witness :
  exists self,
    Fmp.__init__ "fmp" None Scenario.fmp_store = (Ret self, Scenario.fmp_store)
    /\ ApiKey.api_key self = Some "secret123"
    /\ Fmp.quote self "" Scenario.fmp_store
       = (Ret {[ "success" := PBool false;
                 "error" := PStr "symbol is required" ]},
          Scenario.fmp_store).
Proof.
  destruct (fmp_trimmed_key_scenario "fmp" None Scenario.fmp_store
              Scenario.fmp_record)
    as (self & E & Hk & _ & Hq); try reflexivity.
  exists self. auto.
Defined.

End Resolution.

(** ** Counts sent upstream *)

Section Counts.
Import ApiKey.

Lemma clamp_range (lo hi x : Z) : lo <= hi -> lo <= clamp lo hi x <= hi.
Proof.
  intros H. unfold clamp.
  destruct (Z.ltb_spec x lo); [lia|].
  destruct (Z.ltb_spec hi x); lia.
Qed.

Lemma max_min_clamp (lo hi x : Z) :
  lo <= hi -> Z.max lo (Z.min hi x) = clamp lo hi x.
Proof.
  intros H. unfold clamp.
  destruct (Z.ltb_spec x lo); [lia|].
  destruct (Z.ltb_spec hi x); lia.
Qed.

Lemma min_max_clamp (lo hi x : Z) :
  lo <= hi -> Z.min hi (Z.max lo x) = clamp lo hi x.
Proof.
  intros H. unfold clamp.
  destruct (Z.ltb_spec x lo); [lia|].
  destruct (Z.ltb_spec hi x); lia.
Qed.

Lemma clamped_intro (lo hi dflt x : Z) :
  lo <= hi -> clamped lo hi dflt x (PInt (clamp lo hi (int_or x dflt))).
Proof.
  intros H. split; [reflexivity|].
  eexists. split; [reflexivity|]. apply clamp_range, H.
Qed.

Lemma collect_images_world (items images : list pyval) (w : world) :
  snd (Gemini.collect_images items images w) = w.
Proof.
  revert images. induction items as [|item items IH]; intros images.
  - reflexivity.
  - cbn. unfold bind, lift. destruct (py_get item _) as [b64|e]; cbn.
    + apply IH.
    + reflexivity.
Qed.

(** C10. Whenever [stock_news], [search], [top_headlines] or
    [generate_image] issues its request (the connector is configured and the
    required text is not blank; otherwise nothing is sent), the count in
    that request is the integer argument, replaced by the default (10, 20,
    20, 1) when it is zero, clamped to 1..50, 1..100, 1..100 and 1..4. *)
Theorem count_parameters_clamped (self : connector) (w : world) :
  (forall tickers limit,
     sends (unconfigured self || negb (PyStr.truthy (PyStr.strip tickers)))
       w (snd (Fmp.stock_news self tickers limit w))
       (fun rq => exists v, rq_params rq !! "limit" = Some v
                            /\ clamped 1 50 10 limit v))
  /\ (forall q language sort_by page_size,
        sends (unconfigured self || negb (PyStr.truthy (PyStr.strip q)))
          w (snd (NewsApi.search self q language sort_by page_size w))
          (fun rq => exists v, rq_params rq !! "pageSize" = Some v
                               /\ clamped 1 100 20 page_size v))
  /\ (forall country category q page_size,
        sends (unconfigured self)
          w (snd (NewsApi.top_headlines self country category q page_size w))
          (fun rq => exists v, rq_params rq !! "pageSize" = Some v
                               /\ clamped 1 100 20 page_size v))
  /\ (forall prompt sample_count output_mime_type,
        sends (unconfigured self || negb (PyStr.truthy (PyStr.strip prompt)))
          w (snd (Gemini.generate_image self prompt sample_count
                    output_mime_type w))
          (fun rq => exists payload parameters v,
                       rq_json rq = Some (PDict payload)
                       /\ payload !! "imageParameters" = Some (PDict parameters)
                       /\ parameters !! "sampleCount" = Some v
                       /\ clamped 1 4 1 sample_count v)).
Proof.
  split; [|split; [|split]].
  - intros tickers limit. unfold Fmp.stock_news, sends.
    destruct (unconfigured self); [reflexivity|].
    destruct (negb _); [reflexivity|]. cbn [orb].
    rewrite max_min_clamp by lia.
    eexists. split.
    + OperationFacts.run.
      destruct (net w _ _) as [msg|err|resp]; cbn; [reflexivity | destruct err; reflexivity |].
      destruct (error_status resp); cbn; [reflexivity|].
      destruct (body resp) as [[msg| |]|data]; reflexivity.
    + eexists. split; [reflexivity|]. apply clamped_intro. lia.
  - intros q language sort_by page_size. unfold NewsApi.search, sends.
    destruct (unconfigured self); [reflexivity|].
    destruct (negb _); [reflexivity|]. cbn [orb].
    rewrite max_min_clamp by lia.
    eexists. split.
    + OperationFacts.run.
      destruct (net w _ _) as [msg|err|resp]; cbn; [reflexivity | destruct err; reflexivity |].
      destruct (error_status resp); cbn; [reflexivity|].
      destruct (body resp) as [[msg| |]|data]; cbn; [reflexivity..|].
      destruct (py_get_default data _ _) as [x|[]]; reflexivity.
    + eexists. split; [reflexivity|]. apply clamped_intro. lia.
  - intros country category q page_size. unfold NewsApi.top_headlines, sends.
    destruct (unconfigured self); [reflexivity|].
    rewrite max_min_clamp by lia.
    eexists. split.
    + OperationFacts.run.
      destruct (net w _ _) as [msg|err|resp]; cbn; [reflexivity | destruct err; reflexivity |].
      destruct (error_status resp); cbn; [reflexivity|].
      destruct (body resp) as [[msg| |]|data]; cbn; [reflexivity..|].
      destruct (py_get_default data _ _) as [x|[]]; reflexivity.
    + cbn. exists (PInt (clamp 1 100 (int_or page_size 20))). split.
      * destruct (opt_truthy category), (opt_truthy q); reflexivity.
      * apply clamped_intro. lia.
  - intros prompt sample_count output_mime_type.
    unfold Gemini.generate_image, sends.
    destruct (unconfigured self); [reflexivity|].
    destruct (negb _); [reflexivity|]. cbn [orb].
    rewrite min_max_clamp by lia.
    eexists. split.
    + generalize Gemini.collect_images (fun items => collect_images_world items []).
      intros collect Hcollect. OperationFacts.run.
      destruct (net w _ _) as [msg|err|resp]; cbn; [reflexivity | destruct err; reflexivity |].
      destruct (error_status resp); cbn; [reflexivity|].
      destruct (body resp) as [[msg| |]|data]; cbn; [reflexivity..|].
      destruct (py_get_default data _ _) as [x|[]]; cbn; try reflexivity.
      destruct (py_iter _) as [items|[]]; cbn; try reflexivity.
      match goal with |- context [collect items [] ?w1] =>
        pose proof (Hcollect items w1) as Hw;
        destruct (collect items [] w1) as [[imgs|[]] w2]; cbn in Hw |- *;
        subst w2; reflexivity end.
    + cbn. eexists _, _, _. split; [reflexivity|].
      split; [reflexivity|]. split; [reflexivity|]. apply clamped_intro. lia.
Qed.

End Counts.

(** ** Constructors return, or raise the credentials-missing error *)

Section Constructors.

Lemma getenv_first_returns (vars : list string) (w : world) :
  exists k w', ApiKey.getenv_first vars w = (Ret k, w').
Proof.
  revert w. induction vars as [|v vars IH]; intros w.
  - eexists _, _. reflexivity.
  - cbn. unfold bind, getenv. cbn.
    destruct (opt_truthy (environ w !! v)); [eexists _, _; reflexivity | apply IH].
Qed.

Lemma fallback_outcome (missing : string) (vars : list string)
    (self : ApiKey.connector) (w : world) :
  (exists self' w', ApiKey.load_fallback missing vars self w = (Ret self', w'))
  \/ (strict w = true
      /\ ApiKey.load_fallback missing vars self w = (Raise (RuntimeError missing), w)).
Proof.
  destruct (strict w) eqn:Hs.
  - right. split; [reflexivity|]. apply ApiKeyFacts.fallback_strict, Hs.
  - left. unfold ApiKey.load_fallback, bind, credentials_strict. cbn. rewrite Hs.
    destruct (getenv_first_returns vars w) as (k & w' & ->). cbn.
    eexists _, _. reflexivity.
Qed.

Lemma api_key_init_outcome (tool missing : string) (vars : list string)
    (cid : string) (tenant : option string) (w : world) :
  ApiKey.readable_record (db w !! (cid, tool, tenant)) ->
  (exists self w', ApiKey.__init__ tool missing vars cid tenant w = (Ret self, w'))
  \/ (strict w = true
      /\ ApiKey.__init__ tool missing vars cid tenant w
         = (Raise (RuntimeError missing), w)).
Proof.
  intros Hread.
  unfold ApiKey.__init__, ApiKey._load_credentials.
  generalize (fallback_outcome missing vars).
  generalize (ApiKey.load_fallback missing vars). intros fallback Hfallback.
  unfold bind, get_credential. cbn.
  destruct (db w !! _) as [c|]; cbn in Hread |- *; [|apply Hfallback].
  destruct (dict_is_empty (credential_data c)); [apply Hfallback|].
  destruct Hread as [k ->]. unfold lift. cbn.
  destruct (PyStr.truthy k); [|apply Hfallback].
  left. eexists _, _. reflexivity.
Qed.

Lemma home_assistant_init_outcome (cid : string) (tenant : option string)
    (w : world) :
  HomeAssistant.readable_record (db w !! (cid, HomeAssistant.TOOL_NAME, tenant)) ->
  (exists self w', HomeAssistant.__init__ cid tenant w = (Ret self, w'))
  \/ (strict w = true
      /\ HomeAssistant.__init__ cid tenant w
         = (Raise (RuntimeError HomeAssistant.MISSING), w)).
Proof.
  intros Hread.
  destruct (db w !! (cid, HomeAssistant.TOOL_NAME, tenant)) as [c|] eqn:Hdb.
  - destruct (decide (credential_data c = ∅)) as [Hempty | Hne].
    + destruct (strict w) eqn:Hs.
      * right. split; [reflexivity|].
        apply HomeAssistantFacts.init_no_record_strict; [exact Hs|].
        rewrite Hdb. exact Hempty.
      * left. unfold HomeAssistant.__init__, HomeAssistant._load_credentials.
        HomeAssistantFacts.run. rewrite Hdb. cbn.
        rewrite (dict_is_empty_true _ Hempty). cbn. rewrite Hs. cbn.
        eexists _, _. reflexivity.
    + left. destruct Hread as (b & t & a & r & ci & cs & tu & Hst).
      rewrite (HomeAssistantFacts.init_from_record cid tenant w c _ _ _ _ _ _ _
                 Hdb Hne Hst).
      eexists _, _. reflexivity.
  - destruct (strict w) eqn:Hs.
    + right. split; [reflexivity|].
      apply HomeAssistantFacts.init_no_record_strict; [exact Hs|].
      rewrite Hdb. exact I.
    + left. unfold HomeAssistant.__init__, HomeAssistant._load_credentials.
      HomeAssistantFacts.run. rewrite Hdb. cbn. rewrite Hs. cbn.
      eexists _, _. reflexivity.
Qed.

End Constructors.

(** ** The result envelope *)

Section Envelope.

(** Counterexample to C7 as stated. The upstream answers a search with
    status 200 and a JSON array: [data.get] raises [AttributeError], which
    the handler for [RequestException] lets through. *)
Lemma search_array_body_counterexample :
  ApiKey.unconfigured Scenario.news = false
  /\ net Scenario.array_answer 0 = (fun _ => Scenario.ok (PList []))
  /\ fst (NewsApi.search Scenario.news "rocq" "en" "publishedAt" 20
            Scenario.array_answer)
     = Raise AttributeError.
Proof.
  repeat split.
Qed.

(** C7, amended. Every business operation, on arguments of its declared
    types, returns a result envelope, and raises nothing, whenever every
    answer to a call of [requests] is a failure of the request (a
    [RequestException], an error status, a body that is not JSON) or
    carries a JSON document that [json()] returns and that has the shape
    the operation reads: any document for [quote], [stock_news],
    [get_state] and [call_service]; an object for the NewsAPI and Polygon
    operations and for [text_to_speech]; an object whose images are a list
    of objects for [generate_image]; a list of entity objects for
    [list_entities]; and, for the Home Assistant operations, an expiry that
    reads as an integer and token answers whose fields are text. Left out
    are the calls that raise another exception, as [requests.post] does
    for a [service_data] that [json.dumps] cannot write, and the bodies on
    which [json()] raises [ValueError] or [RecursionError]. On a record
    whose attributes are text, a constructor returns, or raises the
    credentials-missing error of its tool, and that only in strict mode. *)
Theorem operations_return_envelopes (w : world) :
  upstream (fun _ => True) w ->
  (forall self symbol,
     exists env w', Fmp.quote self symbol w = (Ret env, w') /\ envelope env)
  /\ (forall self tickers limit,
        exists env w',
          Fmp.stock_news self tickers limit w = (Ret env, w') /\ envelope env)
  /\ (upstream is_dict w ->
      (forall self q language sort_by page_size,
         exists env w',
           NewsApi.search self q language sort_by page_size w = (Ret env, w')
           /\ envelope env)
      /\ (forall self country category q page_size,
            exists env w',
              NewsApi.top_headlines self country category q page_size w
              = (Ret env, w')
              /\ envelope env)
      /\ (forall self ticker adjusted,
            exists env w',
              Polygon.prev_close self ticker adjusted w = (Ret env, w')
              /\ envelope env)
      /\ (forall self ticker,
            exists env w',
              Polygon.ticker_details self ticker w = (Ret env, w')
              /\ envelope env)
      /\ (forall self text language_code voice_name audio_encoding
                 speaking_rate pitch,
            exists env w',
              Gemini.text_to_speech self text language_code voice_name
                audio_encoding speaking_rate pitch w = (Ret env, w')
              /\ envelope env))
  /\ (upstream Gemini.images_body w ->
      forall self prompt sample_count output_mime_type,
        exists env w',
          Gemini.generate_image self prompt sample_count output_mime_type w
          = (Ret env, w')
          /\ envelope env)
  /\ (HomeAssistant.token_endpoint w ->
      forall self,
        HomeAssistant.expires_readable self ->
        (HomeAssistant.states_endpoint w ->
         exists env s',
           HomeAssistant.list_entities (self, w) = (Ret env, s') /\ envelope env)
        /\ (forall entity_id,
              exists env s',
                HomeAssistant.get_state entity_id (self, w) = (Ret env, s')
                /\ envelope env)
        /\ (forall domain service entity_id service_data,
              exists env s',
                HomeAssistant.call_service domain service entity_id service_data
                  (self, w) = (Ret env, s')
                /\ envelope env))
  /\ (forall cid tenant,
        (ApiKey.readable_record (db w !! (cid, Fmp.TOOL_NAME, tenant)) ->
         (exists self w', Fmp.__init__ cid tenant w = (Ret self, w'))
         \/ (strict w = true
             /\ Fmp.__init__ cid tenant w = (Raise (RuntimeError Fmp.MISSING), w)))
        /\ (ApiKey.readable_record (db w !! (cid, NewsApi.TOOL_NAME, tenant)) ->
            (exists self w', NewsApi.__init__ cid tenant w = (Ret self, w'))
            \/ (strict w = true
                /\ NewsApi.__init__ cid tenant w
                   = (Raise (RuntimeError NewsApi.MISSING), w)))
        /\ (ApiKey.readable_record (db w !! (cid, Polygon.TOOL_NAME, tenant)) ->
            (exists self w', Polygon.__init__ cid tenant w = (Ret self, w'))
            \/ (strict w = true
                /\ Polygon.__init__ cid tenant w
                   = (Raise (RuntimeError Polygon.MISSING), w)))
        /\ (ApiKey.readable_record (db w !! (cid, Gemini.TOOL_NAME, tenant)) ->
            (exists self w', Gemini.__init__ cid tenant w = (Ret self, w'))
            \/ (strict w = true
                /\ Gemini.__init__ cid tenant w
                   = (Raise (RuntimeError Gemini.MISSING), w)))
        /\ (HomeAssistant.readable_record
              (db w !! (cid, HomeAssistant.TOOL_NAME, tenant)) ->
            (exists self w', HomeAssistant.__init__ cid tenant w = (Ret self, w'))
            \/ (strict w = true
                /\ HomeAssistant.__init__ cid tenant w
                   = (Raise (RuntimeError HomeAssistant.MISSING), w)))).
Proof.
  intros Hany. split; [|split; [|split; [|split; [|split]]]].
  - intros. apply OperationFacts.quote_returns, Hany.
  - intros. apply OperationFacts.stock_news_returns, Hany.
  - intros Hup. repeat split; intros.
    + apply OperationFacts.search_returns, Hup.
    + apply OperationFacts.top_headlines_returns, Hup.
    + apply OperationFacts.prev_close_returns, Hup.
    + apply OperationFacts.ticker_details_returns, Hup.
    + apply OperationFacts.text_to_speech_returns, Hup.
  - intros Hup self prompt sample_count output_mime_type.
    apply OperationFacts.generate_image_returns, Hup.
  - intros Hep self Hex. split; [|split].
    + intros Hst. apply HomeAssistantOps.list_entities_returns; assumption.
    + intros. apply HomeAssistantOps.get_state_returns; assumption.
    + intros. apply HomeAssistantOps.call_service_returns; assumption.
  - intros cid tenant. split; [|split; [|split; [|split]]].
    + apply api_key_init_outcome.
    + apply api_key_init_outcome.
    + apply api_key_init_outcome.
    + apply api_key_init_outcome.
    + apply home_assistant_init_outcome.
Qed.

Lemma object_answer_any : upstream (fun _ => True) Scenario.object_answer.
Proof.
  intros n rq. cbn. intros _. exact I.
Qed.

Lemma object_answer_is_dict : upstream is_dict Scenario.object_answer.
Proof.
  intros n rq. cbn. intros _. eexists. reflexivity.
Qed.

Lemma object_answer_token_endpoint :
  HomeAssistant.token_endpoint Scenario.object_answer.
Proof.
  intros n rq _ _. cbn. intros _.
  exists ∅. split; [reflexivity|].
  split; [left; reflexivity|]. split; [left; reflexivity|].
  exists 0. reflexivity.
Qed.

Lemma object_answer_states_endpoint :
  HomeAssistant.states_endpoint Scenario.object_answer.
Proof.
  intros n rq _. cbn. intros _. left. reflexivity.
Qed.

(** C7, amended, with an upstream that answers every request by an
    empty object. *)
Lemma operations_return_envelopes_witness :
  (exists env w',
     NewsApi.search Scenario.news "rocq" "en" "publishedAt" 20
       Scenario.object_answer = (Ret env, w')
     /\ envelope env)
  /\ (exists env s',
        HomeAssistant.list_entities (Scenario.stale, Scenario.object_answer)
        = (Ret env, s')
        /\ envelope env)
  /\ (exists env s',
        HomeAssistant.call_service "light" "turn_on" (Some "light.kitchen") None
          (Scenario.stale, Scenario.object_answer)
        = (Ret env, s')
        /\ envelope env).
Proof.
  destruct (operations_return_envelopes Scenario.object_answer object_answer_any)
    as (_ & _ & Hdict & _ & Hha & _).
  split; [|split].
  - destruct (Hdict object_answer_is_dict) as (Hsearch & _). apply Hsearch.
  - destruct (Hha object_answer_token_endpoint Scenario.stale) as (Hlist & _).
    + intros _. exists 1030. reflexivity.
    + apply Hlist, object_answer_states_endpoint.
  - destruct (Hha object_answer_token_endpoint Scenario.stale) as (_ & _ & Hcall).
    + intros _. exists 1030. reflexivity.
    + apply Hcall.
Defined.

End Envelope.

(** * Further properties *)

(** ** Trimmed strings *)

Module PyStrFacts.
Import PyStr.

Lemma rstrip_empty_iff (s : string) : rstrip s = "" <-> all_space s = true.
Proof.
  induction s as [|c s IH]; cbn.
  - tauto.
  - destruct (rstrip s) eqn:E.
    + destruct (is_space c); cbn.
      * split; intros _; [apply IH; reflexivity | reflexivity].
      * split; discriminate.
    + split; [discriminate|]. intros H. apply andb_true_iff in H as [_ H].
      apply IH in H. discriminate.
Qed.

Lemma lstrip_empty_iff (s : string) : lstrip s = "" <-> all_space s = true.
Proof.
  induction s as [|c s IH]; cbn.
  - tauto.
  - destruct (is_space c); cbn; [exact IH | split; discriminate].
Qed.

Lemma all_space_lstrip (s : string) : all_space s = true -> lstrip s = "".
Proof. apply lstrip_empty_iff. Qed.

(** [strip] yields the empty string exactly on blank strings. *)
Lemma strip_empty_iff (s : string) : strip s = "" <-> all_space s = true.
Proof.
  unfold strip. rewrite rstrip_empty_iff. split.
  - induction s as [|c s IH]; cbn; [tauto|].
    destruct (is_space c) eqn:E; cbn; [exact IH|].
    rewrite E. discriminate.
  - intros H. rewrite (all_space_lstrip s H). reflexivity.
Qed.

Lemma rstrip_last (s : string) : edge_ok (last_char (rstrip s)) = true.
Proof.
  induction s as [|c s IH]; cbn; [reflexivity|].
  destruct (rstrip s) as [|d r] eqn:E.
  - destruct (is_space c) eqn:Ec; cbn; [reflexivity | rewrite Ec; reflexivity].
  - cbn in *. exact IH.
Qed.

Lemma lstrip_first (s : string) : edge_ok (first_char (lstrip s)) = true.
Proof.
  induction s as [|c s IH]; cbn; [reflexivity|].
  destruct (is_space c) eqn:Ec; [exact IH | cbn; rewrite Ec; reflexivity].
Qed.

Lemma rstrip_first (s : string) :
  edge_ok (first_char s) = true -> edge_ok (first_char (rstrip s)) = true.
Proof.
  destruct s as [|c s]; cbn; [reflexivity|].
  intros H. destruct (rstrip s); [|exact H].
  destruct (is_space c) eqn:Ec; [discriminate H|].
  cbn. rewrite Ec. reflexivity.
Qed.

Lemma strip_trimmed (s : string) : trimmed (strip s) = true.
Proof.
  unfold trimmed, strip. rewrite rstrip_last, rstrip_first; [reflexivity|].
  apply lstrip_first.
Qed.

Lemma lstrip_id (s : string) : edge_ok (first_char s) = true -> lstrip s = s.
Proof.
  destruct s as [|c s]; cbn; [reflexivity|].
  intros H. apply negb_true_iff in H. rewrite H. reflexivity.
Qed.

Lemma rstrip_id (s : string) : edge_ok (last_char s) = true -> rstrip s = s.
Proof.
  induction s as [|c s IH]; cbn; [reflexivity|].
  destruct s as [|d s'].
  - cbn. intros H. apply negb_true_iff in H. rewrite H. reflexivity.
  - intros H. rewrite (IH H). reflexivity.
Qed.

(** A trimmed string is a fixed point of [strip]. *)
Lemma strip_id (s : string) : trimmed s = true -> strip s = s.
Proof.
  unfold trimmed, strip. intros H. apply andb_true_iff in H as [Hf Hl].
  rewrite (lstrip_id s Hf). apply rstrip_id, Hl.
Qed.

Lemma strip_idem (s : string) : strip (strip s) = strip s.
Proof. apply strip_id, strip_trimmed. Qed.

Lemma rstrip_char_last (x : ascii) (s : string) :
  last_char (rstrip_char x s) <> Some x.
Proof.
  induction s as [|c s IH]; cbn; [discriminate|].
  destruct (rstrip_char x s) as [|d r] eqn:E.
  - destruct (Ascii.eqb c x) eqn:Ec; cbn; [discriminate|].
    intros [= ->]. rewrite Ascii.eqb_refl in Ec. discriminate.
  - cbn in *. exact IH.
Qed.

Lemma truthy_strip_not_blank (s : string) :
  truthy (strip s) = negb (all_space s).
Proof.
  destruct (all_space s) eqn:E.
  - apply strip_empty_iff in E. rewrite E. reflexivity.
  - destruct (strip s) eqn:Es; [|reflexivity].
    apply strip_empty_iff in Es. congruence.
Qed.

End PyStrFacts.

(** ** API-key connectors: the operations *)

Section Validation.
Import ApiKey.

Lemma blank_strip (s : string) :
  all_space s = true -> negb (PyStr.truthy (PyStr.strip s)) = true.
Proof.
  intros H. rewrite PyStrFacts.truthy_strip_not_blank, H. reflexivity.
Qed.

(** X5. On a configured API-key connector, a required text argument
    that is empty or made of whitespace only is rejected with the result
    [{"success": False, "error": "<argument> is required"}], and the world
    is untouched: no request is sent. *)
Theorem blank_argument_rejected (self : connector) (s : string) (w : world) :
  unconfigured self = false ->
  all_space s = true ->
  Fmp.quote self s w
  = (Ret {[ "success" := PBool false;
              "error" := PStr "symbol is required" ]},
       w)
  /\ (forall limit,
        Fmp.stock_news self s limit w
        = (Ret {[ "success" := PBool false;
                    "error" := PStr "tickers is required" ]},
             w))
  /\ (forall language sort_by page_size,
        NewsApi.search self s language sort_by page_size w
        = (Ret {[ "success" := PBool false;
                    "error" := PStr "q is required" ]},
             w))
  /\ (forall adjusted,
        Polygon.prev_close self s adjusted w
        = (Ret {[ "success" := PBool false;
                    "error" := PStr "ticker is required" ]},
             w))
  /\ Polygon.ticker_details self s w
     = (Ret {[ "success" := PBool false;
                 "error" := PStr "ticker is required" ]},
          w)
  /\ (forall sample_count output_mime_type,
        Gemini.generate_image self s sample_count output_mime_type w
        = (Ret {[ "success" := PBool false;
                    "error" := PStr "prompt is required" ]},
             w))
  /\ (forall language_code voice_name audio_encoding speaking_rate pitch,
        Gemini.text_to_speech self s language_code voice_name audio_encoding
          speaking_rate pitch w
        = (Ret {[ "success" := PBool false;
                    "error" := PStr "text is required" ]},
             w)).
Proof.
  intros Hc Hb. pose proof (blank_strip s Hb) as Hs.
  unfold Fmp.quote, Fmp.stock_news, NewsApi.search, Polygon.prev_close,
    Polygon.ticker_details, Gemini.generate_image, Gemini.text_to_speech.
  rewrite Hc, Hs. repeat split.
Qed.

(** X5 at a symbol made of a space and a no-break space. *)
Lemma blank_argument_rejected_witness :
  Fmp.quote (mkConnector "fmp" None (Some "k") true)
    (String " " (String (ascii_of_nat 160) "")) Scenario.offline
  = (Ret {[ "success" := PBool false;
              "error" := PStr "symbol is required" ]},
       Scenario.offline).
Proof.
  apply (blank_argument_rejected (mkConnector "fmp" None (Some "k") true)
           (String " " (String (ascii_of_nat 160) "")) Scenario.offline);
    reflexivity.
Defined.

End Validation.

Section Transport.
Import ApiKey.

Ltac failing Hfail :=
  OperationFacts.run;
  match goal with
  | |- context [net ?w ?n ?rq] =>
      let H := fresh in
      pose proof (Hfail rq) as H; unfold transport_error in H;
      destruct (net w n rq) as [?m|?err|?resp]; cbn in H |- *;
      [ injection H as ->
      | discriminate H
      | destruct (error_status resp); cbn in H |- *;
        [ injection H as <-
        | destruct (body resp) as [[?m| |]|?v]; cbn in H |- *;
          [ injection H as -> | discriminate H .. ] ] ]
  end;
  (eexists _, _; split; [reflexivity|];
   split; [reflexivity|]; split; [reflexivity|]; split; [reflexivity|];
   eexists; reflexivity).

(** X6. On a configured API-key connector with a non-blank required
    argument, when the exchange fails ([requests] raises, the status is
    4xx or 5xx, or the body is not JSON) the operation returns a failed
    envelope whose [error] is the text of that failure, after exactly one
    call of [requests] and without a change to the store. *)
Theorem transport_failure_reported (self : connector) (w : world)
    (msg : string) :
  unconfigured self = false ->
  (forall rq, transport_error (net w (n_http (trace w)) rq) = Some msg) ->
  (forall symbol, all_space symbol = false ->
     reports msg w (Fmp.quote self symbol w))
  /\ (forall tickers limit, all_space tickers = false ->
        reports msg w (Fmp.stock_news self tickers limit w))
  /\ (forall q language sort_by page_size, all_space q = false ->
        reports msg w (NewsApi.search self q language sort_by page_size w))
  /\ (forall country category q page_size,
        reports msg w
          (NewsApi.top_headlines self country category q page_size w))
  /\ (forall ticker adjusted, all_space ticker = false ->
        reports msg w (Polygon.prev_close self ticker adjusted w))
  /\ (forall ticker, all_space ticker = false ->
        reports msg w (Polygon.ticker_details self ticker w))
  /\ (forall prompt sample_count output_mime_type, all_space prompt = false ->
        reports msg w
          (Gemini.generate_image self prompt sample_count output_mime_type w))
  /\ (forall text language_code voice_name audio_encoding speaking_rate pitch,
        all_space text = false ->
        reports msg w
          (Gemini.text_to_speech self text language_code voice_name
             audio_encoding speaking_rate pitch w)).
Proof.
  intros Hc Hfail.
  assert (Hs : forall s, all_space s = false ->
                         negb (PyStr.truthy (PyStr.strip s)) = false).
  { intros s H. rewrite PyStrFacts.truthy_strip_not_blank, H. reflexivity. }
  unfold reports.
  repeat split; intros.
  - unfold Fmp.quote. rewrite Hc, Hs by assumption. failing Hfail.
  - unfold Fmp.stock_news. rewrite Hc, Hs by assumption. failing Hfail.
  - unfold NewsApi.search. rewrite Hc, Hs by assumption. failing Hfail.
  - unfold NewsApi.top_headlines. rewrite Hc. failing Hfail.
  - unfold Polygon.prev_close. rewrite Hc, Hs by assumption. failing Hfail.
  - unfold Polygon.ticker_details. rewrite Hc, Hs by assumption. failing Hfail.
  - unfold Gemini.generate_image. rewrite Hc, Hs by assumption. failing Hfail.
  - unfold Gemini.text_to_speech. rewrite Hc, Hs by assumption. failing Hfail.
Qed.

Lemma transport_failure_reported_witness :
  reports "connection refused" Scenario.offline
    (Fmp.quote (mkConnector "fmp" None (Some "k") true) "aapl" Scenario.offline).
Proof.
  destruct (transport_failure_reported (mkConnector "fmp" None (Some "k") true)
              Scenario.offline "connection refused") as (Hq & _).
  - reflexivity.
  - intros rq. reflexivity.
  - apply Hq. reflexivity.
Defined.

End Transport.

Section Quiet.
Import ApiKey.

Ltac quiet_step :=
  match goal with
  | |- quiet _ _ => split; [reflexivity | first [left; reflexivity | right; eexists; reflexivity]]
  | |- context [net ?w ?n ?rq] => destruct (net w n rq) as [?m|[]|?resp]; cbn
  | |- context [error_status ?r] => destruct (error_status r); cbn
  | |- context [body ?r] => destruct (body r) as [[?m| |]|?v]; cbn
  | |- context [py_get_default ?d ?k ?x] =>
      destruct (py_get_default d k x) as [?v|[]]; cbn
  | |- context [py_get ?d ?k] => destruct (py_get d k) as [?v|[]]; cbn
  | |- context [py_iter ?v] => destruct (py_iter v) as [?l|[]]; cbn
  end.

(** X7. Whatever its arguments and whatever the upstream answers, also
    when it raises, an operation of an API-key connector sends at most
    one request and never changes the credential store. *)
Theorem api_operations_quiet (self : connector) (w : world) :
  (forall symbol, quiet w (snd (Fmp.quote self symbol w)))
  /\ (forall tickers limit, quiet w (snd (Fmp.stock_news self tickers limit w)))
  /\ (forall q language sort_by page_size,
        quiet w (snd (NewsApi.search self q language sort_by page_size w)))
  /\ (forall country category q page_size,
        quiet w (snd (NewsApi.top_headlines self country category q page_size w)))
  /\ (forall ticker adjusted,
        quiet w (snd (Polygon.prev_close self ticker adjusted w)))
  /\ (forall ticker, quiet w (snd (Polygon.ticker_details self ticker w)))
  /\ (forall prompt sample_count output_mime_type,
        quiet w (snd (Gemini.generate_image self prompt sample_count
                        output_mime_type w)))
  /\ (forall text language_code voice_name audio_encoding speaking_rate pitch,
        quiet w (snd (Gemini.text_to_speech self text language_code voice_name
                        audio_encoding speaking_rate pitch w))).
Proof.
  repeat split_and; intros.
  - unfold Fmp.quote. destruct (unconfigured self); [repeat quiet_step|].
    destruct (negb _); [repeat quiet_step|]. OperationFacts.run.
    repeat quiet_step.
  - unfold Fmp.stock_news. destruct (unconfigured self); [repeat quiet_step|].
    destruct (negb _); [repeat quiet_step|]. OperationFacts.run.
    repeat quiet_step.
  - unfold NewsApi.search. destruct (unconfigured self); [repeat quiet_step|].
    destruct (negb _); [repeat quiet_step|]. OperationFacts.run.
    repeat quiet_step.
  - unfold NewsApi.top_headlines.
    destruct (unconfigured self); [repeat quiet_step|]. OperationFacts.run.
    repeat quiet_step.
  - unfold Polygon.prev_close. destruct (unconfigured self); [repeat quiet_step|].
    destruct (negb _); [repeat quiet_step|]. OperationFacts.run.
    repeat quiet_step.
  - unfold Polygon.ticker_details.
    destruct (unconfigured self); [repeat quiet_step|].
    destruct (negb _); [repeat quiet_step|]. OperationFacts.run.
    repeat quiet_step.
  - unfold Gemini.generate_image.
    destruct (unconfigured self); [repeat quiet_step|].
    destruct (negb _); [repeat quiet_step|].
    generalize Gemini.collect_images (fun items => collect_images_world items []).
    intros collect Hcollect. OperationFacts.run.
    repeat quiet_step.
    match goal with |- context [collect ?items [] ?w1] =>
      pose proof (Hcollect items w1) as Hw;
      destruct (collect items [] w1) as [[imgs|[]] w2]; cbn in Hw |- *;
      subst w2 end; repeat quiet_step.
  - unfold Gemini.text_to_speech.
    destruct (unconfigured self); [repeat quiet_step|].
    destruct (negb _); [repeat quiet_step|]. OperationFacts.run.
    repeat quiet_step.
Qed.

End Quiet.

(** ** API-key connectors: the constructor *)

Section ConstructedKey.
Import ApiKey.

Variable TOOL_NAME : string.
Variable MISSING : string.
Variable ENV_VARS : list string.

Lemma getenv_first_frame (vars : list string) (w : world) :
  exists k w', getenv_first vars w = (Ret k, w')
               /\ db w' = db w /\ n_http (trace w') = n_http (trace w).
Proof.
  revert w. induction vars as [|v vars IH]; intros w.
  - eexists _, _. repeat split.
  - cbn. unfold bind, getenv. cbn.
    destruct (opt_truthy (environ w !! v)).
    + eexists _, _. repeat split.
    + destruct (IH (log (EvGetenv v) w)) as (k & w' & -> & Hdb & Hn).
      eexists _, _. repeat split; assumption.
Qed.

Lemma stored_key_trimmed (d : pydict) (k : string) :
  stored_key d = Ret k -> trimmed k = true.
Proof.
  unfold stored_key, py_strip. destruct (py_or _ _); try discriminate.
  intros [= <-]. apply PyStrFacts.strip_trimmed.
Qed.

(** X1. Whatever the store and the environment hold, a connector that
    the constructor of an API-key connector returns keeps the identifiers
    it was given, holds a key without leading or trailing whitespace, and
    is [configured] exactly when that key is non-empty, so that the
    not-configured guard of the operations is the negation of
    [configured]; the construction sends no request and leaves the store
    as it was. *)
Theorem constructed_key_invariant (cid : string) (tenant : option string)
    (w w' : world) (self : connector) :
  __init__ TOOL_NAME MISSING ENV_VARS cid tenant w = (Ret self, w') ->
  credential_id self = cid
  /\ tenant_id self = tenant
  /\ (exists k, api_key self = Some k
                /\ trimmed k = true
                /\ configured self = PyStr.truthy k)
  /\ unconfigured self = negb (configured self)
  /\ db w' = db w
  /\ n_http (trace w') = n_http (trace w).
Proof.
  assert (Hfb : forall self0 : connector,
             credential_id self0 = cid -> tenant_id self0 = tenant ->
             load_fallback MISSING ENV_VARS self0 w = (Ret self, w') ->
             credential_id self = cid
             /\ tenant_id self = tenant
             /\ (exists k, api_key self = Some k
                           /\ trimmed k = true
                           /\ configured self = PyStr.truthy k)
             /\ unconfigured self = negb (configured self)
             /\ db w' = db w
             /\ n_http (trace w') = n_http (trace w)).
  { intros self0 Hc Ht. unfold load_fallback, bind, credentials_strict. cbn.
    destruct (strict w); [discriminate|].
    destruct (getenv_first_frame ENV_VARS w) as (k & w1 & -> & Hdb & Hn). cbn.
    intros [= <- <-]. cbn. rewrite Hc, Ht.
    split; [reflexivity|]. split; [reflexivity|]. split.
    - eexists. split; [reflexivity|]. split; [apply PyStrFacts.strip_trimmed|reflexivity].
    - unfold unconfigured. cbn. split; [|split; assumption].
      destruct (PyStr.truthy (PyStr.strip k)); reflexivity. }
  unfold __init__, _load_credentials.
  revert Hfb. generalize (load_fallback MISSING ENV_VARS). intros fallback Hfb.
  unfold bind, get_credential. cbn.
  destruct (db w !! _) as [c|]; cbn; [|apply Hfb; reflexivity].
  destruct (dict_is_empty (credential_data c)); [apply Hfb; reflexivity|].
  unfold lift. destruct (stored_key (credential_data c)) as [k|e] eqn:Hk; cbn;
    [|discriminate].
  destruct (PyStr.truthy k) eqn:Hkt; [|apply Hfb; reflexivity].
  intros [= <- <-]. cbn.
  split; [reflexivity|]. split; [reflexivity|]. split.
  - exists k. split; [reflexivity|]. split; [|symmetry; exact Hkt].
    apply (stored_key_trimmed _ _ Hk).
  - unfold unconfigured. cbn. rewrite Hkt. repeat split.
Qed.

End ConstructedKey.

Lemma constructed_key_invariant_witness :
  exists k, ApiKey.api_key (ApiKey.mkConnector "fmp" None (Some "secret123") true)
            = Some k
            /\ trimmed k = true.
Proof.
  destruct (constructed_key_invariant Fmp.TOOL_NAME Fmp.MISSING Fmp.ENV_VARS
              "fmp" None Scenario.fmp_store Scenario.fmp_store
              (ApiKey.mkConnector "fmp" None (Some "secret123") true))
    as (_ & _ & (k & Hk & Ht & _) & _).
  - reflexivity.
  - exists k. split; assumption.
Defined.

Section KeySources.
Import ApiKey.

Variable TOOL_NAME : string.
Variable MISSING : string.

(** X2. A record may name its key [key] instead of [api_key]: with
    [api_key] absent or empty and a non-blank text under [key], the
    constructor configures the connector with the trimmed [key], in either
    mode and without touching the world. But [api_key] is chosen before it
    is trimmed: when it is non-empty and blank it shadows a valid [key],
    and in strict mode the construction fails. *)
Theorem key_alias_and_shadowing (cid : string) (tenant : option string)
    (w : world) (c : cred_record) (raw : string) :
  db w !! (cid, TOOL_NAME, tenant) = Some c ->
  credential_data c !! "key" = Some (PStr raw) ->
  all_space raw = false ->
  forall vars,
    (truthy (dict_get (credential_data c) "api_key") = false ->
     __init__ TOOL_NAME MISSING vars cid tenant w
     = (Ret (mkConnector cid tenant (Some (PyStr.strip raw)) true), w))
    /\ (forall blank,
          credential_data c !! "api_key" = Some (PStr blank) ->
          blank <> "" -> all_space blank = true ->
          strict w = true ->
          __init__ TOOL_NAME MISSING vars cid tenant w
          = (Raise (RuntimeError MISSING), w)).
Proof.
  intros Hdb Hkey Hraw vars.
  assert (Hne : dict_is_empty (credential_data c) = false).
  { apply dict_is_empty_false. eapply lookup_not_empty. exact Hkey. }
  assert (Hrt : PyStr.truthy raw = true).
  { destruct raw; [discriminate Hraw | reflexivity]. }
  split.
  - intros Hfalsy.
    unfold __init__, _load_credentials, bind, get_credential. cbn.
    rewrite Hdb, Hne. unfold lift, stored_key.
    unfold py_or at 1. rewrite Hfalsy.
    unfold dict_get at 1. rewrite Hkey. unfold py_or. cbn. rewrite Hrt. cbn.
    rewrite PyStrFacts.truthy_strip_not_blank, Hraw. reflexivity.
  - intros blank Hapi Hnonempty Hblank Hs.
    apply ApiKeyFacts.init_strict_missing; [exact Hs|].
    rewrite Hdb. cbn. right.
    unfold stored_key, dict_get. rewrite Hapi. unfold py_or at 1. cbn.
    destruct blank; [contradiction|]. cbn [PyStr.truthy py_strip].
    f_equal. apply PyStrFacts.strip_empty_iff, Hblank.
Qed.

Lemma getenv_first_priority (pre post : list string) (v s : string)
    (w : world) :
  ApiKey.env_unset w pre ->
  environ w !! v = Some s ->
  PyStr.truthy s = true ->
  getenv_first (pre ++ v :: post) w
  = (Ret s, mkWorld (strict w) (environ w) (db w) (net w) (clock w)
                    (env_reads (pre ++ [v]) ++ trace w)).
Proof.
  revert w. induction pre as [|p pre IH]; intros w Hun Hv Hs.
  - cbn. unfold bind, getenv. cbn. rewrite Hv. cbn. rewrite Hs. reflexivity.
  - inversion Hun as [|? ? Hp Hrest]; subst.
    cbn [app getenv_first]. unfold bind at 1. unfold getenv at 1. cbn.
    rewrite Hp.
    rewrite (IH (log (EvGetenv p) w)); [|exact Hrest|exact Hv|exact Hs].
    cbn. unfold env_reads. cbn. rewrite !fmap_app, !rev_app_distr. cbn.
    rewrite <- !app_assoc. reflexivity.
Qed.

(** X3. In permissive mode with nothing usable in the store, the
    variables are consulted in the listed order and the first non-empty
    one decides: the key is its trimmed value, [configured] tells whether
    that is non-empty, and only the variables up to it are read (for
    Gemini, [GOOGLE_API_KEY] is read only when [GEMINI_API_KEY] is unset or
    empty). *)
Theorem environment_priority (cid : string) (tenant : option string)
    (w : world) (pre post : list string) (v s : string) :
  strict w = false ->
  no_usable_record (db w !! (cid, TOOL_NAME, tenant)) ->
  env_unset w pre ->
  environ w !! v = Some s ->
  PyStr.truthy s = true ->
  __init__ TOOL_NAME MISSING (pre ++ v :: post) cid tenant w
  = (Ret (mkConnector cid tenant (Some (PyStr.strip s))
            (PyStr.truthy (PyStr.strip s))),
     mkWorld (strict w) (environ w) (db w) (net w) (clock w)
       (env_reads (pre ++ [v]) ++ trace w)).
Proof.
  intros Hs Hno Hun Hv Hst. unfold __init__.
  destruct (ApiKeyFacts.load_no_usable TOOL_NAME MISSING (pre ++ v :: post)
              (mkConnector cid tenant None false) w Hno)
    as (self' & -> & Hc & Ht).
  unfold load_fallback, bind, credentials_strict. cbn. rewrite Hs.
  rewrite (getenv_first_priority pre post v s w Hun Hv Hst). cbn.
  cbn in Hc, Ht. rewrite Hc, Ht. unfold ret. rewrite ?Hs. reflexivity.
Qed.

End KeySources.

Lemma key_alias_and_shadowing_witness :
  Polygon.__init__ "polygon" None Cases.alias_store
  = (Ret (ApiKey.mkConnector "polygon" None (Some "alt-key") true),
     Cases.alias_store).
Proof.
  destruct (key_alias_and_shadowing Polygon.TOOL_NAME Polygon.MISSING "polygon"
              None Cases.alias_store Cases.alias_record " alt-key "
              eq_refl eq_refl eq_refl Polygon.ENV_VARS) as [Halias _].
  apply Halias. reflexivity.
Defined.

Lemma environment_priority_witness :
  exists w',
    Gemini.__init__ "gemini" None Cases.google_env
    = (Ret (ApiKey.mkConnector "gemini" None (Some "g-key") true), w')
    /\ trace w' = [EvGetenv "GOOGLE_API_KEY"; EvGetenv "GEMINI_API_KEY"].
Proof.
  eexists. split.
  - apply (environment_priority Gemini.TOOL_NAME Gemini.MISSING "gemini" None
             Cases.google_env ["GEMINI_API_KEY"] [] "GOOGLE_API_KEY" " g-key ").
    + reflexivity.
    + exact I.
    + repeat constructor.
    + reflexivity.
    + reflexivity.
  - reflexivity.
Defined.

(** ** Home Assistant: what a call leaves alone *)

Module HomeAssistantFrame.
Import HomeAssistant HomeAssistantFacts.

Lemma frame_refl (n : nat) (s : connector * world) : frame n s s.
Proof.
  repeat split. lia.
Qed.

Lemma frame_log (n : nat) (self : connector) (w : world) (e : event) :
  (n_http (trace (log e w)) <= n_http (trace w) + n)%nat ->
  frame n (self, w) (self, log e w).
Proof.
  intros H. repeat split. exact H.
Qed.

Lemma frame_trans (n m : nat) (s1 s2 s3 : connector * world) :
  frame n s1 s2 -> frame m s2 s3 -> frame (n + m) s1 s3.
Proof.
  intros ((Hc & Ht & Hb & Hk & Hi & Hs & Hf) & (Hdb & Hn & Hcl & Hst & Hen) & Hle)
         ((Hc' & Ht' & Hb' & Hk' & Hi' & Hs' & Hf')
          & (Hdb' & Hn' & Hcl' & Hst' & Hen') & Hle').
  assert (Hkey : store_key (fst s2) = store_key (fst s1)).
  { unfold store_key. rewrite Hc, Ht. reflexivity. }
  repeat split; try congruence.
  - intros k Hk0. rewrite Hdb' by (rewrite Hkey; exact Hk0). apply Hdb, Hk0.
  - lia.
Qed.

Lemma frame_weaken (n m : nat) (s s' : connector * world) :
  (n <= m)%nat -> frame n s s' -> frame m s s'.
Proof.
  intros Hnm (Hi & Ho & Hle). repeat split; try apply Hi; try apply Ho. lia.
Qed.

Lemma save_tokens_frame (self : connector) (w : world) :
  frame 0 (self, w) (snd (_save_tokens (self, w))).
Proof.
  unfold _save_tokens. run.
  destruct (negb (opt_truthy (tenant_id self))); cbn.
  - apply frame_refl.
  - repeat split; cbn; try lia.
    intros k Hk. apply lookup_insert_ne. intros E. apply Hk. symmetry. exact E.
Qed.

Lemma refresh_exchange_frame (self : connector) (w : world) :
  frame 1 (self, w)
    (snd (try_request refresh_exchange (fun _ => ret tt) (self, w))).
Proof.
  unfold refresh_exchange.
  generalize _save_tokens save_tokens_frame. intros save Hsave. run.
  assert (Hreq : frame 1 (self, w)
                   (self, log (EvHttp (refresh_request self)) w)).
  { apply frame_log. cbn. lia. }
  destruct (net w _ _) as [msg|err|resp]; cbn; [apply Hreq | destruct err; apply Hreq |].
  destruct (status_code resp =? 200); cbn; [|apply Hreq].
  destruct (body resp) as [[msg| |]|data]; cbn; [apply Hreq..|].
  destruct (py_get data "access_token") as [a|e]; cbn;
    [|destruct e; apply Hreq].
  destruct (py_strip (py_or a (PStr ""))) as [a'|e]; cbn;
    [|destruct e; apply Hreq].
  destruct (py_get data "refresh_token") as [r|e]; cbn;
    [|destruct e; apply Hreq].
  destruct (py_strip (py_or r (PStr ""))) as [r'|e]; cbn;
    [|destruct e; apply Hreq].
  destruct (py_get data "expires_in") as [x|e]; cbn;
    [|destruct e; apply Hreq].
  destruct (py_int (py_or x (PInt 0))) as [ei|e]; cbn;
    [|destruct e; apply Hreq].
  destruct (PyStr.truthy a'), (PyStr.truthy r'), (ei =? 0); cbn;
    match goal with
    | |- context [save ?s1] =>
        pose proof (Hsave (fst s1) (snd s1)) as Hs;
        assert (H1 : frame 1 (self, w) s1) by (repeat split; cbn; lia);
        cbn in Hs;
        destruct (save s1) as [[[]|e] s2]; [|destruct e];
        cbn in Hs |- *;
        apply (frame_trans 1 0 _ _ _ H1 Hs)
    end.
Qed.

Lemma refresh_frame (self : connector) (w : world) :
  frame 1 (self, w) (snd (_refresh_access_token (self, w))).
Proof.
  destruct (opt_truthy (refresh_token self)) eqn:Hr;
    [destruct (opt_truthy (token_url self) || opt_truthy (base_url self)) eqn:Hu|].
  2, 3: rewrite refresh_skipped by (rewrite ?Hr, ?Hu; auto); apply frame_refl.
  rewrite (refresh_entered self w Hr Hu).
  apply (frame_trans 0 1 _ (with_token_url self, w)).
  - unfold with_token_url. destruct (negb _); repeat split; cbn; lia.
  - apply refresh_exchange_frame.
Qed.

Lemma auth_header_frame (self : connector) (w : world) :
  frame 1 (self, w) (snd (_auth_header (self, w))).
Proof.
  unfold _auth_header.
  generalize _refresh_access_token refresh_frame. intros refresh Hrefresh. run.
  destruct (truthy (expires_at self) && opt_truthy (access_token self)); cbn;
    [|apply frame_refl].
  destruct (py_int (expires_at self)) as [e|x]; cbn;
    [|apply frame_log; cbn; lia].
  destruct (e - 60 <=? clock w (n_clock (trace w))); cbn;
    [|apply frame_log; cbn; lia].
  pose proof (Hrefresh self (log EvClock w)) as H.
  assert (H0 : frame 0 (self, w) (self, log EvClock w)).
  { apply frame_log. cbn. lia. }
  destruct (refresh (self, log EvClock w)) as [[[]|x] s1]; cbn in H |- *;
    apply (frame_trans 0 1 _ _ _ H0 H).
Qed.

End HomeAssistantFrame.

Section Isolation.
Import HomeAssistant HomeAssistantFacts HomeAssistantFrame.

Lemma frame_then_request (self s1 : connector) (w w1 : world) (rq : request) :
  frame 1 (self, w) (s1, w1) ->
  frame 2 (self, w) (s1, log (EvHttp rq) w1).
Proof.
  intros H. apply (frame_trans 1 1 _ _ _ H). apply frame_log. cbn. lia.
Qed.

Ltac header_step ah Hah self w :=
  pose proof (Hah self w) as Hf;
  destruct (ah (self, w)) as [[h|e] [s1 w1]]; cbn in Hf |- *;
  [| destruct e; apply (frame_weaken 1 2); (lia || exact Hf) ].

Ltac request_step self w :=
  match goal with
  | Hf : frame 1 (self, w) (?s1, ?w1) |- _ =>
      pose proof (fun rq => frame_then_request self s1 w w1 rq Hf) as Hrq;
      destruct (net w1 _ _) as [msg|err|resp]; cbn;
        [apply Hrq | destruct err; apply Hrq |];
      destruct (error_status resp); cbn; [apply Hrq|];
      destruct (body resp) as [[msg| |]|data]; cbn; [apply Hrq..|]
  end.

Ltac after_header ah Hah self w :=
  header_step ah Hah self w; request_step self w.

(** X15. Whatever the upstream answers, also when an error propagates,
    the refresh, [_auth_header] and the three operations never assign the
    identifiers, the base URL, the long-lived token, the client
    credentials or [configured]; they change the store at most under the
    connector's own (credential id, tool, tenant) key; and they send at
    most one request (refresh, header) or two (operations). *)
Theorem home_assistant_frame (self : connector) (w : world) :
  frame 1 (self, w) (snd (_refresh_access_token (self, w)))
  /\ frame 1 (self, w) (snd (_auth_header (self, w)))
  /\ frame 2 (self, w) (snd (list_entities (self, w)))
  /\ (forall entity_id, frame 2 (self, w) (snd (get_state entity_id (self, w))))
  /\ (forall domain service entity_id service_data,
        frame 2 (self, w)
          (snd (call_service domain service entity_id service_data (self, w)))).
Proof.
  split; [apply refresh_frame|]. split; [apply auth_header_frame|].
  split; [|split].
  - unfold list_entities.
    generalize _auth_header auth_header_frame. intros ah Hah. run.
    destruct (_validate_configured self); [apply frame_refl|].
    after_header ah Hah self w.
    destruct (py_iter _) as [entries|e]; cbn; [|destruct e; apply Hrq].
    destruct (collect_entities entries []) as [es|e]; cbn;
      [|destruct e]; apply Hrq.
  - intros entity_id. unfold get_state.
    generalize _auth_header auth_header_frame. intros ah Hah. run.
    destruct (_validate_configured self); [apply frame_refl|].
    destruct (negb _); [apply frame_refl|]. cbn.
    after_header ah Hah self w. apply Hrq.
  - intros domain service entity_id service_data. unfold call_service.
    generalize _auth_header auth_header_frame. intros ah Hah. run.
    destruct (_validate_configured self); [apply frame_refl|].
    destruct (negb _); [apply frame_refl|].
    destruct (negb _); [apply frame_refl|]. cbn.
    after_header ah Hah self w. apply Hrq.
Qed.

End Isolation.

(** ** Home Assistant: constructor and calls *)

Section Constructed.
Import HomeAssistant HomeAssistantFacts.

Lemma sound_validate (self : connector) :
  configured_sound self ->
  (configured self = true <-> _validate_configured self = None).
Proof.
  unfold configured_sound, _validate_configured. intros ->.
  destruct (opt_truthy (base_url self)); cbn; [|split; discriminate].
  destruct (opt_truthy (token self) || opt_truthy (access_token self)
            || opt_truthy (refresh_token self)); cbn; split; congruence.
Qed.

Lemma no_trailing_slash (b : string) :
  last_char (if PyStr.truthy b then PyStr.rstrip_char "/" b else b)
  <> Some "/"%char.
Proof.
  destruct b as [|c b]; [discriminate|]. cbn [PyStr.truthy].
  apply PyStrFacts.rstrip_char_last.
Qed.

(** X9. A Home Assistant connector that the constructor returns keeps
    the identifiers it was given; its [configured] is true exactly when it
    has a base URL and one of token, access token and refresh token, which
    is exactly when [_validate_configured] finds nothing missing; its base
    URL does not end with a slash; and the construction sends no request
    and leaves the store as it was. *)
Theorem home_assistant_constructed (cid : string) (tenant : option string)
    (w w' : world) (self : connector) :
  __init__ cid tenant w = (Ret self, w') ->
  credential_id self = cid
  /\ tenant_id self = tenant
  /\ configured_sound self
  /\ (configured self = true <-> _validate_configured self = None)
  /\ (exists b, base_url self = Some b /\ last_char b <> Some "/"%char)
  /\ db w' = db w
  /\ n_http (trace w') = n_http (trace w).
Proof.
  intros H.
  assert (Hgoal : credential_id self = cid
                  /\ tenant_id self = tenant
                  /\ configured_sound self
                  /\ (exists b, base_url self = Some b
                                /\ last_char b <> Some "/"%char)
                  /\ db w' = db w
                  /\ n_http (trace w') = n_http (trace w)).
  { assert (Hdone : forall b' t' a' r' ci' cs' tu' ex' cf' (w0 : world),
               cf' = opt_truthy b' && (opt_truthy t' || opt_truthy a' || opt_truthy r') ->
               (exists b, b' = Some b /\ last_char b <> Some "/"%char) ->
               db w0 = db w -> n_http (trace w0) = n_http (trace w) ->
               (Ret tt : outcome unit,
                (mkConnector cid tenant b' t' a' r' ci' cs' tu' ex' cf', w0))
               = (Ret tt, (self, w')) ->
               credential_id self = cid
               /\ tenant_id self = tenant
               /\ configured_sound self
               /\ (exists b, base_url self = Some b
                             /\ last_char b <> Some "/"%char)
               /\ db w' = db w
               /\ n_http (trace w') = n_http (trace w)).
    { intros b' t' a' r' ci' cs' tu' ex' cf' w0 Hcf Hb Hdb Hn [= <- <-].
      repeat split; assumption. }
    revert H. unfold __init__.
    destruct (_load_credentials (blank cid tenant, w)) as [[[]|e] [s1 w1]] eqn:E;
      [|discriminate].
    intros [= <- <-]. revert E. unfold _load_credentials. run.
    destruct (db w !! (cid, TOOL_NAME, tenant)) as [c|]; cbn.
    - destruct (dict_is_empty (credential_data c)); cbn.
      + destruct (strict w); cbn; [discriminate|].
        apply Hdone; try reflexivity.
        * cbn. rewrite !orb_false_r. reflexivity.
        * eexists. split; [reflexivity|]. apply PyStrFacts.rstrip_char_last.
      + destruct (stripped (credential_data c) "base_url") as [b|]; cbn;
          [|discriminate].
        destruct (stripped (credential_data c) "token"); cbn; [|discriminate].
        destruct (stripped (credential_data c) "access_token"); cbn;
          [|discriminate].
        destruct (stripped (credential_data c) "refresh_token"); cbn;
          [|discriminate].
        destruct (stripped (credential_data c) "client_id"); cbn;
          [|discriminate].
        destruct (stripped (credential_data c) "client_secret"); cbn;
          [|discriminate].
        destruct (stripped (credential_data c) "token_url"); cbn;
          [|discriminate].
        apply Hdone; try reflexivity.
        eexists. split; [reflexivity|]. apply no_trailing_slash.
    - destruct (strict w); cbn; [discriminate|].
      apply Hdone; try reflexivity.
      + cbn. rewrite !orb_false_r. reflexivity.
      + eexists. split; [reflexivity|]. apply PyStrFacts.rstrip_char_last. }
  destruct Hgoal as (Hc & Ht & Hs & Hb & Hdb & Hn).
  repeat split; try assumption; apply sound_validate; assumption.
Qed.

End Constructed.

Lemma home_assistant_constructed_witness :
  exists self w',
    HomeAssistant.__init__ "home_assistant" None Scenario.permissive_empty
    = (Ret self, w')
    /\ HomeAssistant.configured_sound self
    /\ db w' = ∅.
Proof.
  destruct (HomeAssistant.__init__ "home_assistant" None Scenario.permissive_empty)
    as [[self|e] w'] eqn:E; [|discriminate E].
  destruct (home_assistant_constructed "home_assistant" None
              Scenario.permissive_empty w' self E)
    as (_ & _ & Hs & _ & _ & Hdb & _).
  exists self, w'. split; [reflexivity|]. split; [exact Hs | exact Hdb].
Defined.

Section HomeAssistantCalls.
Import HomeAssistant HomeAssistantFacts.

(** X10. On a Home Assistant connector that passes
    [_validate_configured], a blank entity id, domain or service is
    rejected with the result [{"success": False, "error": ...}] whose
    error is [entity_id is required], [domain is required] (checked
    first) or [service is required], and connector and world are
    untouched: no token refresh and no request. *)
Theorem blank_home_assistant_argument (self : connector) (s : string)
    (w : world) :
  _validate_configured self = None ->
  all_space s = true ->
  get_state s (self, w)
  = (Ret {[ "success" := PBool false; "error" := PStr "entity_id is required" ]},
     (self, w))
  /\ (forall service entity_id service_data,
        call_service s service entity_id service_data (self, w)
        = (Ret {[ "success" := PBool false;
                  "error" := PStr "domain is required" ]},
           (self, w)))
  /\ (forall domain entity_id service_data,
        all_space domain = false ->
        call_service domain s entity_id service_data (self, w)
        = (Ret {[ "success" := PBool false;
                  "error" := PStr "service is required" ]},
           (self, w))).
Proof.
  intros Hv Hb. pose proof (blank_strip s Hb) as Hs.
  unfold get_state, call_service, bind, get_self. cbn.
  rewrite Hv, Hs. repeat split.
  intros domain entity_id service_data Hd.
  rewrite PyStrFacts.truthy_strip_not_blank, Hd. reflexivity.
Qed.

(** X10 at a no-break space as entity id, and at a blank domain. *)
Lemma blank_home_assistant_argument_witness :
  get_state (String (ascii_of_nat 160) " ") (Scenario.fresh, Scenario.offline)
  = (Ret {[ "success" := PBool false; "error" := PStr "entity_id is required" ]},
     (Scenario.fresh, Scenario.offline))
  /\ call_service (String (ascii_of_nat 160) "") " " None None
       (Scenario.fresh, Scenario.offline)
     = (Ret {[ "success" := PBool false; "error" := PStr "domain is required" ]},
        (Scenario.fresh, Scenario.offline)).
Proof.
  split.
  - apply (blank_home_assistant_argument Scenario.fresh
             (String (ascii_of_nat 160) " ") Scenario.offline); reflexivity.
  - apply (blank_home_assistant_argument Scenario.fresh
             (String (ascii_of_nat 160) "") Scenario.offline); reflexivity.
Defined.

(** X11. A Home Assistant connector without an expiry or without an
    access token, as the environment configures it, never refreshes: each
    operation, given its non-blank arguments, leaves the connector as it
    is and calls [requests] exactly once, for the base URL followed by the
    path of the operation, with the header built from the attributes; a
    non-empty long-lived token is the one the header carries. *)
Theorem unexpiring_token_one_request (self : connector) (w : world) :
  _validate_configured self = None ->
  truthy (expires_at self) && opt_truthy (access_token self) = false ->
  let base := opt_or_empty (base_url self) in
  (exists r,
     list_entities (self, w)
     = (r, (self, log (EvHttp (mkRequest GET (base +:+ "/api/states") ∅ ∅ None
                                 (bearer self) 20)) w)))
  /\ (forall entity_id, all_space entity_id = false ->
        exists r,
          get_state entity_id (self, w)
          = (r, (self,
                 log (EvHttp (mkRequest GET
                                (base +:+ "/api/states/" +:+ entity_id) ∅ ∅
                                None (bearer self) 20)) w)))
  /\ (forall domain service entity_id service_data,
        all_space domain = false -> all_space service = false ->
        exists r,
          call_service domain service entity_id service_data (self, w)
          = (r, (self,
                 log (EvHttp (mkRequest POST
                                (base +:+ "/api/services/" +:+ domain +:+ "/"
                                   +:+ service) ∅ ∅
                                (Some (PDict (plain_part
                                                (service_payload entity_id
                                                   service_data))))
                                (<["Content-Type" := "application/json"]>
                                   (bearer self)) 20)) w)))
  /\ (forall t, token self = Some t -> t <> "" ->
        bearer self = {[ "Authorization" := "Bearer " +:+ t ]}).
Proof.
  intros Hv Hx base.
  pose proof (auth_header_unchecked self w Hx) as E.
  assert (Hs : forall s, all_space s = false ->
                         negb (PyStr.truthy (PyStr.strip s)) = false).
  { intros s H. rewrite PyStrFacts.truthy_strip_not_blank, H. reflexivity. }
  split; [|split; [|split]].
  - unfold list_entities. revert E. generalize _auth_header. intros ah E.
    run. rewrite Hv, E. cbn.
    destruct (net w _ _) as [msg|err|resp]; cbn; [eauto | destruct err; eauto |].
    destruct (error_status resp); cbn; [eauto|].
    destruct (body resp) as [[msg| |]|data]; cbn; [eauto..|].
    destruct (py_iter _) as [entries|e]; cbn; [|destruct e; eauto].
    destruct (collect_entities entries []) as [es|e]; cbn;
      [|destruct e]; eauto.
  - intros entity_id He. unfold get_state.
    revert E. generalize _auth_header. intros ah E.
    run. rewrite Hv, (Hs _ He), E. cbn.
    destruct (net w _ _) as [msg|err|resp]; cbn; [eauto | destruct err; eauto |].
    destruct (error_status resp); cbn; [eauto|].
    destruct (body resp) as [[msg| |]|data]; cbn; eauto.
  - intros domain service entity_id service_data Hd Hsv.
    unfold call_service.
    revert E. generalize _auth_header. intros ah E.
    run. rewrite Hv, (Hs _ Hd), (Hs _ Hsv), E. cbn.
    destruct (net w _ _) as [msg|err|resp]; cbn; [eauto | destruct err; eauto |].
    destruct (error_status resp); cbn; [eauto|].
    destruct (body resp) as [[msg| |]|data]; cbn; eauto.
  - intros t Ht Hne. unfold bearer, opt_or. rewrite Ht. cbn.
    destruct t; [contradiction | reflexivity].
Qed.

(** X12. The payload of [call_service] is [service_data] with the
    entity added only under a free key: every other key is as given, an
    [entity_id] inside [service_data] wins over the argument, and the
    argument is used when [service_data] has none and the argument is
    non-empty. *)
Theorem service_payload_setdefault (entity_id : option string)
    (service_data : option anydict) :
  let given : anydict := default ∅ service_data in
  (forall k, k <> "entity_id" ->
             service_payload entity_id service_data !! k = given !! k)
  /\ service_payload entity_id service_data !! "entity_id"
     = match given !! "entity_id", entity_id with
       | Some v, _ => Some v
       | None, Some e => if PyStr.truthy e then Some (Plain (PStr e)) else None
       | None, None => None
       end.
Proof.
  intros given. unfold service_payload. fold given. split.
  - intros k Hk. destruct (opt_truthy entity_id); [|reflexivity].
    destruct (given !! "entity_id"); [reflexivity|].
    apply lookup_insert_ne. congruence.
  - destruct entity_id as [e|]; cbn.
    + destruct (PyStr.truthy e).
      * destruct (given !! "entity_id") eqn:E; [exact E|].
        apply lookup_insert_eq.
      * destruct (given !! "entity_id"); reflexivity.
    + destruct (given !! "entity_id"); reflexivity.
Qed.

End HomeAssistantCalls.

Lemma unexpiring_token_one_request_witness :
  exists r,
    HomeAssistant.get_state "light.kitchen" (Cases.from_env, Scenario.offline)
    = (r, (Cases.from_env,
           log (EvHttp (mkRequest GET "http://ha.local/api/states/light.kitchen"
                          ∅ ∅ None
                          {[ "Authorization" := "Bearer long-lived" ]} 20))
             Scenario.offline)).
Proof.
  destruct (unexpiring_token_one_request Cases.from_env Scenario.offline
              eq_refl eq_refl) as (_ & Hget & _).
  apply (Hget "light.kitchen"). reflexivity.
Defined.

(** ** Home Assistant: token persistence *)

Section RoundTrip.
Import HomeAssistant HomeAssistantFacts.

Lemma strip_or_empty (x : string) :
  py_strip (py_or (PStr x) (PStr "")) = Ret (PyStr.strip x).
Proof.
  unfold py_or. destruct x; reflexivity.
Qed.

(** What [_load_credentials] reads back from a bundle that
    [_save_tokens] wrote. *)
Lemma bundle_texts (self : connector) :
  stored_texts (token_bundle self)
    (PyStr.strip (opt_or_empty (base_url self)))
    (PyStr.strip (opt_or_empty (token self)))
    (PyStr.strip (opt_or_empty (access_token self)))
    (PyStr.strip (opt_or_empty (refresh_token self)))
    (PyStr.strip (opt_or_empty (client_id self)))
    (PyStr.strip (opt_or_empty (client_secret self)))
    (PyStr.strip (opt_or_empty (token_url self))).
Proof.
  split; exact (strip_or_empty _).
Qed.

Lemma bundle_not_empty (self : connector) : token_bundle self <> ∅.
Proof.
  apply (lookup_not_empty _ "expires_at" (expires_at self)). reflexivity.
Qed.

Lemma bundle_expires (self : connector) :
  dict_get (token_bundle self) "expires_at" = expires_at self.
Proof. reflexivity. Qed.

Lemma stripped_trimmed (d : pydict) (k a : string) :
  stripped d k = Ret a -> PyStr.strip a = a.
Proof.
  unfold stripped, py_strip. destruct (py_or _ _); try discriminate.
  intros [= <-]. apply PyStrFacts.strip_idem.
Qed.

(** X16. What [_save_tokens] writes for a connector with a tenant, the
    constructor reads back for the same credential id and tenant: the
    reloaded connector has the saved token, access token, refresh token
    and token URL, trimmed, and the saved expiry. *)
Theorem saved_tokens_reload (self : connector) (w : world) :
  opt_truthy (tenant_id self) = true ->
  exists w1 other,
    _save_tokens (self, w) = (Ret tt, (self, w1))
    /\ __init__ (credential_id self) (tenant_id self) w1 = (Ret other, w1)
    /\ access_token other = Some (PyStr.strip (opt_or_empty (access_token self)))
    /\ refresh_token other
       = Some (PyStr.strip (opt_or_empty (refresh_token self)))
    /\ token other = Some (PyStr.strip (opt_or_empty (token self)))
    /\ token_url other = Some (PyStr.strip (opt_or_empty (token_url self)))
    /\ expires_at other = expires_at self.
Proof.
  intros Hten.
  eexists _, _. split.
  - unfold _save_tokens. run. rewrite Hten. cbn. reflexivity.
  - split.
    + eapply (init_from_record (credential_id self) (tenant_id self) _
                (token_record self)).
      * cbn. apply lookup_insert_eq.
      * apply bundle_not_empty.
      * apply bundle_texts.
    + cbn. repeat split.
Qed.

Lemma saved_tokens_reload_witness :
  exists w1 other,
    _save_tokens (Scenario.stale, Scenario.offline) = (Ret tt, (Scenario.stale, w1))
    /\ __init__ "home_assistant" (Some "acme") w1 = (Ret other, w1)
    /\ access_token other = Some "old-access"
    /\ expires_at other = PInt 1030.
Proof.
  destruct (saved_tokens_reload Scenario.stale Scenario.offline eq_refl)
    as (w1 & other & E1 & E2 & Ha & _ & _ & _ & He).
  exists w1, other. repeat split; assumption.
Defined.

End RoundTrip.

Section Sequences.
Import HomeAssistant HomeAssistantFacts.

(** X17. After a refresh that was answered 200 with an access token and
    a refresh token that are non-blank texts and a lifetime that reads as
    a non-zero integer, a connector that has a tenant has saved them: a
    connector constructed afterwards for the same credential id and tenant
    holds the new access token and the new refresh token, both trimmed,
    and the new expiry. *)
Theorem refreshed_tokens_visible (self : connector) (w : world)
    (resp : response) (d : pydict) (a r : string) (ei : Z) :
  opt_truthy (tenant_id self) = true ->
  opt_truthy (refresh_token self) = true ->
  opt_truthy (token_url self) || opt_truthy (base_url self) = true ->
  net w (n_http (trace w)) (refresh_request (with_token_url self)) = NetResp resp ->
  status_code resp = 200 ->
  body resp = inr (PDict d) ->
  stripped d "access_token" = Ret a ->
  PyStr.truthy a = true ->
  stripped d "refresh_token" = Ret r ->
  PyStr.truthy r = true ->
  py_int (py_or (dict_get d "expires_in") (PInt 0)) = Ret ei ->
  ei <> 0 ->
  exists self' w' other,
    _refresh_access_token (self, w) = (Ret tt, (self', w'))
    /\ __init__ (credential_id self) (tenant_id self) w' = (Ret other, w')
    /\ access_token other = Some a
    /\ refresh_token other = Some r
    /\ expires_at other = PInt (clock w (n_clock (trace w)) + ei).
Proof.
  intros Hten Hr Hu Hnet Hst Hb Ha Hat Hrt Hrtt Hei Hne.
  rewrite (refresh_entered self w Hr Hu).
  rewrite (refresh_exchange_200 _ w resp d a r ei Hnet Hst Hb Ha Hrt Hei).
  destruct (with_token_url_same self) as (Hcid & Hten' & _ & _ & _).
  apply Z.eqb_neq in Hne. rewrite Hten', Hten, Hat, Hrtt, Hne.
  eexists _, _, _. split; [reflexivity|]. split.
  - rewrite <- Hcid, <- Hten'.
    eapply (init_from_record _ _ _ (token_record _)).
    + cbn. apply lookup_insert_eq.
    + apply bundle_not_empty.
    + apply bundle_texts.
  - cbn [access_token refresh_token expires_at opt_or_empty].
    rewrite (stripped_trimmed _ _ _ Ha), (stripped_trimmed _ _ _ Hrt).
    repeat split.
Qed.

Lemma refreshed_tokens_visible_witness :
  exists self' w' other,
    _refresh_access_token (Scenario.stale, Cases.regranting)
    = (Ret tt, (self', w'))
    /\ __init__ "home_assistant" (Some "acme") w' = (Ret other, w')
    /\ access_token other = Some "new-access"
    /\ refresh_token other = Some "new-refresh"
    /\ expires_at other = PInt 4600.
Proof.
  destruct (refreshed_tokens_visible Scenario.stale Cases.regranting
              (mkResponse 200 "" (inr (PDict Cases.regrant))) Cases.regrant
              "new-access" "new-refresh" 3600)
    as (self' & w' & other & E1 & E2 & Ha & Hr & He); try reflexivity.
  { discriminate. }
  exists self', w', other. repeat split; assumption.
Defined.

(** X18. After the header call that refreshed with a 200 answer
    carrying a non-zero lifetime, the expiry is the clock at the refresh
    plus the lifetime, and a following call made more than 60 seconds
    before it returns the same header, leaves the connector as it is and
    sends nothing. *)
Theorem refresh_then_fresh (self : connector) (w : world) (e : Z)
    (resp : response) (d : pydict) (a r : string) (ei : Z) :
  truthy (expires_at self) = true ->
  opt_truthy (access_token self) = true ->
  py_int (expires_at self) = Ret e ->
  e - 60 <= clock w (n_clock (trace w)) ->
  opt_truthy (refresh_token self) = true ->
  opt_truthy (token_url self) || opt_truthy (base_url self) = true ->
  net w (n_http (trace w)) (refresh_request (with_token_url self)) = NetResp resp ->
  status_code resp = 200 ->
  body resp = inr (PDict d) ->
  stripped d "access_token" = Ret a ->
  stripped d "refresh_token" = Ret r ->
  py_int (py_or (dict_get d "expires_in") (PInt 0)) = Ret ei ->
  ei <> 0 ->
  exists h self1 w1,
    _auth_header (self, w) = (Ret h, (self1, w1))
    /\ n_http (trace w1) = S (n_http (trace w))
    /\ expires_at self1 = PInt (clock w (S (n_clock (trace w))) + ei)
    /\ (clock w1 (n_clock (trace w1))
        < clock w (S (n_clock (trace w))) + ei - 60 ->
        exists w2,
          _auth_header (self1, w1) = (Ret h, (self1, w2))
          /\ n_http (trace w2) = n_http (trace w1)
          /\ db w2 = db w1).
Proof.
  intros Hex Hac He Hle Hr Hu Hnet Hst Hb Ha Hrt Hei Hne.
  assert (Hc : truthy (expires_at self) && opt_truthy (access_token self) = true).
  { rewrite Hex, Hac. reflexivity. }
  rewrite (auth_header_stale self w e Hc He Hle).
  rewrite (refresh_entered self (log EvClock w) Hr Hu).
  rewrite (refresh_exchange_200 _ (log EvClock w) resp d a r ei Hnet Hst Hb Ha
             Hrt Hei).
  cbn zeta. apply Z.eqb_neq in Hne. rewrite Hne.
  eexists _, _, _. split; [reflexivity|].
  split; [destruct (opt_truthy (tenant_id (with_token_url self))); reflexivity|].
  split; [reflexivity|].
  intros Hlt.
  match goal with
  | |- exists w2, _auth_header (?s1, ?w1) = _ /\ _ =>
      destruct (truthy (expires_at s1) && opt_truthy (access_token s1)) eqn:Hc1;
      [ exists (log EvClock w1); split; [|split; reflexivity];
        apply (auth_header_fresh s1 w1 (clock w (S (n_clock (trace w))) + ei));
        [exact Hc1 | reflexivity | exact Hlt]
      | exists w1; split; [|split; reflexivity];
        apply (auth_header_unchecked s1 w1 Hc1) ]
  end.
Qed.

Lemma refresh_then_fresh_witness :
  exists h self1 w1 w2,
    _auth_header (Scenario.stale, Cases.regranting) = (Ret h, (self1, w1))
    /\ n_http (trace w1) = 1%nat
    /\ _auth_header (self1, w1) = (Ret h, (self1, w2))
    /\ n_http (trace w2) = 1%nat.
Proof.
  destruct (refresh_then_fresh Scenario.stale Cases.regranting 1030
              (mkResponse 200 "" (inr (PDict Cases.regrant))) Cases.regrant
              "new-access" "new-refresh" 3600)
    as (h & self1 & w1 & E1 & Hn & Hx & Hnext); try reflexivity.
  { vm_compute. discriminate. }
  { discriminate. }
  assert (Heq : w1 = snd (snd (_auth_header (Scenario.stale, Cases.regranting)))).
  { rewrite E1. reflexivity. }
  destruct Hnext as (w2 & E2 & Hn2 & _).
  { rewrite Heq. reflexivity. }
  exists h, self1, w1, w2.
  split; [exact E1|]. split; [exact Hn|]. split; [exact E2|].
  rewrite Hn2. exact Hn.
Defined.

(** X19. A failed refresh is not remembered: the header call that met
    it returns the header of the old attributes after one request, and the
    next call, while the clock is still inside the margin, sends a request
    again. *)
Theorem failed_refresh_retried (self : connector) (w : world) (e : Z) :
  truthy (expires_at self) = true ->
  opt_truthy (access_token self) = true ->
  py_int (expires_at self) = Ret e ->
  e - 60 <= clock w (n_clock (trace w)) ->
  opt_truthy (refresh_token self) = true ->
  opt_truthy (token_url self) || opt_truthy (base_url self) = true ->
  refresh_failed
    (net w (n_http (trace w)) (refresh_request (with_token_url self))) ->
  exists w1,
    _auth_header (self, w) = (Ret (bearer self), (with_token_url self, w1))
    /\ n_http (trace w1) = S (n_http (trace w))
    /\ (e - 60 <= clock w1 (n_clock (trace w1)) ->
        n_http (trace (snd (snd (_auth_header (with_token_url self, w1)))))
        = S (S (n_http (trace w)))).
Proof.
  intros Hex Hac He Hle Hr Hu Hfail.
  assert (Hc : truthy (expires_at self) && opt_truthy (access_token self) = true).
  { rewrite Hex, Hac. reflexivity. }
  rewrite (auth_header_stale self w e Hc He Hle).
  rewrite (refresh_entered self (log EvClock w) Hr Hu).
  rewrite (refresh_exchange_failed _ (log EvClock w) Hfail).
  assert (Hsame : bearer (with_token_url self) = bearer self
                  /\ expires_at (with_token_url self) = expires_at self
                  /\ access_token (with_token_url self) = access_token self
                  /\ refresh_token (with_token_url self) = refresh_token self
                  /\ opt_truthy (token_url (with_token_url self))
                     || opt_truthy (base_url (with_token_url self)) = true
                  /\ with_token_url (with_token_url self) = with_token_url self).
  { unfold with_token_url, bearer.
    destruct (opt_truthy (token_url self)) eqn:Htu; cbn.
    - rewrite Htu. cbn. repeat split.
    - cbn in Hu. destruct (base_url self) as [[|c b]|]; try discriminate Hu.
      cbn. repeat split. }
  destruct Hsame as (Hb & Hx & Ha & Hrt & Hu' & Hidem).
  eexists. split; [rewrite Hb; reflexivity|]. split; [reflexivity|].
  intros Hle1.
  match goal with
  | |- context [_auth_header (?s1, ?w1)] =>
      rewrite (auth_header_stale s1 w1 e);
      [| rewrite Hx, Ha; exact Hc | rewrite Hx; exact He | exact Hle1 ];
      pose proof (refresh_exchange_one_request (with_token_url s1)
                    (log EvClock w1)) as Hone;
      rewrite <- (refresh_entered s1 (log EvClock w1)) in Hone;
      [| rewrite Hrt; exact Hr | exact Hu' ];
      destruct (_refresh_access_token (s1, log EvClock w1))
        as [[[]|x] [s2 w2]]; exact Hone
  end.
Qed.

Lemma failed_refresh_retried_witness :
  exists w1,
    _auth_header (Scenario.stale, Scenario.offline)
    = (Ret (bearer Scenario.stale), (with_token_url Scenario.stale, w1))
    /\ n_http (trace (snd (snd (_auth_header (with_token_url Scenario.stale, w1)))))
       = 2%nat.
Proof.
  destruct (failed_refresh_retried Scenario.stale Scenario.offline 1030)
    as (w1 & E & Hn & Hnext); try reflexivity.
  { vm_compute. discriminate. }
  assert (Heq : w1 = snd (snd (_auth_header (Scenario.stale, Scenario.offline)))).
  { rewrite E. reflexivity. }
  exists w1. split; [exact E|]. apply Hnext.
  rewrite Heq. vm_compute. discriminate.
Defined.

End Sequences.

(** ** Result loops *)

Section Loops.
Import HomeAssistant.

Lemma split_head_dotless (s : string) : dotless (PyStr.split_head "." s) = true.
Proof.
  induction s as [|c s IH]; cbn; [reflexivity|].
  destruct (Ascii.eqb c ".") eqn:E; cbn; [reflexivity|].
  rewrite E. exact IH.
Qed.

Lemma split_head_prefix (s : string) :
  String.prefix (PyStr.split_head "." s) s = true.
Proof.
  induction s as [|c s IH]; cbn; [reflexivity|].
  destruct (Ascii.eqb c "."); cbn; [reflexivity|].
  destruct (ascii_dec c c); [exact IH | contradiction].
Qed.

Lemma split_head_id (s : string) : dotless s = true -> PyStr.split_head "." s = s.
Proof.
  induction s as [|c s IH]; cbn; [reflexivity|].
  destruct (Ascii.eqb c "."); cbn; [discriminate|].
  intros H. rewrite (IH H). reflexivity.
Qed.

Lemma collect_entities_acc (entries acc es : list pyval) :
  collect_entities entries acc = Ret es
  <-> exists rs, es = (acc ++ rs)%list
                 /\ Forall2 (fun entry e => entity_of entry = Ret e) entries rs.
Proof.
  revert acc es. induction entries as [|entry entries IH]; intros acc es; cbn.
  - split.
    + intros [= <-]. exists []. split; [symmetry; apply app_nil_r | constructor].
    + intros (rs & -> & H). inversion H. rewrite app_nil_r. reflexivity.
  - destruct (entity_of entry) as [e|x] eqn:E.
    + rewrite IH. split.
      * intros (rs & -> & H). exists (e :: rs). split.
        -- rewrite <- app_assoc. reflexivity.
        -- constructor; assumption.
      * intros (rs & -> & H). inversion H as [|? e' ? rs' He Hrest]; subst.
        assert (e' = e) by congruence. subst e'.
        exists rs'. split; [rewrite <- app_assoc; reflexivity | exact Hrest].
    + split; [discriminate|].
      intros (rs & _ & H). inversion H; congruence.
Qed.

(** X13. The loop of [list_entities] returns exactly when every entry
    can be shaped, and then yields one entity per entry, in the order of
    the entries. *)
Theorem entities_in_order (entries es : list pyval) :
  collect_entities entries [] = Ret es
  <-> Forall2 (fun entry e => entity_of entry = Ret e) entries es.
Proof.
  rewrite collect_entities_acc. split.
  - intros (rs & -> & H). exact H.
  - intros H. exists es. split; [reflexivity | exact H].
Qed.

(** X14. An entry with a non-empty text [entity_id] and attributes that
    are absent or an object is shaped into an entity with the same id and
    state, whose name is the non-empty [friendly_name] or else the id, and
    whose domain is the part of the id before its first dot (the whole id
    when it has none). *)
Theorem entity_shape (d : pydict) (id : string) :
  d !! "entity_id" = Some (PStr id) ->
  id <> "" ->
  truthy (dict_get d "attributes") = false \/ is_dict (dict_get d "attributes") ->
  exists out,
    entity_of (PDict d) = Ret (PDict out)
    /\ out !! "entity_id" = Some (PStr id)
    /\ out !! "state" = Some (dict_get d "state")
    /\ out !! "domain" = Some (PStr (PyStr.split_head "." id))
    /\ out !! "name"
       = Some (match dict_get d "attributes" with
               | PDict a => py_or (dict_get a "friendly_name") (PStr id)
               | _ => PStr id
               end)
    /\ dotless (PyStr.split_head "." id) = true
    /\ String.prefix (PyStr.split_head "." id) id = true
    /\ (dotless id = true -> PyStr.split_head "." id = id).
Proof.
  intros Hid Hne Hattr.
  assert (Ht : truthy (PStr id) = true).
  { destruct id; [contradiction | reflexivity]. }
  assert (Hg : dict_get d "entity_id" = PStr id).
  { unfold dict_get. rewrite Hid. reflexivity. }
  unfold entity_of, py_get. rewrite Hg.
  assert (Ha : exists a, py_or (dict_get d "attributes") (PDict ∅) = PDict a
                         /\ py_or (dict_get a "friendly_name") (PStr id)
                            = match dict_get d "attributes" with
                              | PDict a => py_or (dict_get a "friendly_name")
                                             (PStr id)
                              | _ => PStr id
                              end).
  { unfold py_or at 1. destruct Hattr as [Hf | [a Ha]].
    - rewrite Hf. exists ∅. split; [reflexivity|].
      destruct (dict_get d "attributes") as [| | | | | |a]; try reflexivity.
      cbn in Hf. apply negb_false_iff in Hf.
      unfold dict_is_empty in Hf. apply bool_decide_eq_true in Hf. subst a.
      reflexivity.
    - rewrite Ha. destruct (truthy (PDict a)) eqn:E.
      + exists a. split; reflexivity.
      + exists ∅. split; [reflexivity|].
        cbn in E. apply negb_false_iff in E.
        unfold dict_is_empty in E. apply bool_decide_eq_true in E. subst a.
        reflexivity. }
  destruct Ha as (a & -> & Hname).
  rewrite Ht. unfold py_or at 1. rewrite Ht. cbn [py_split_head].
  eexists. split; [reflexivity|].
  split; [reflexivity|]. split; [reflexivity|]. split; [reflexivity|].
  split; [rewrite <- Hname; reflexivity|].
  split; [apply split_head_dotless|].
  split; [apply split_head_prefix | apply split_head_id].
Qed.

Lemma collect_images_filter (items images : list pyval) (w : world) :
  Forall is_dict items ->
  Gemini.collect_images items images w
  = (Ret (images ++ List.filter truthy (List.map b64_of items))%list, w).
Proof.
  intros H. revert images. induction H as [|item items [d ->] _ IH]; intros images.
  - cbn. rewrite app_nil_r. reflexivity.
  - cbn. unfold bind, lift. cbn. rewrite IH.
    destruct (truthy (dict_get d "bytesBase64Encoded")); cbn.
    + rewrite <- app_assoc. reflexivity.
    + reflexivity.
Qed.

(** X8. Over a list of image objects, the loop of [generate_image]
    returns, in order, exactly the non-empty [bytesBase64Encoded] fields:
    every returned image is non-empty and there are no more images than
    items. *)
Theorem images_filtered (items : list pyval) (w : world) :
  Forall is_dict items ->
  exists images,
    Gemini.collect_images items [] w = (Ret images, w)
    /\ images = List.filter truthy (List.map b64_of items)
    /\ Forall (fun v => truthy v = true) images
    /\ (length images <= length items)%nat.
Proof.
  intros H. eexists. split; [apply (collect_images_filter items [] w H)|].
  split; [reflexivity|]. cbn. split.
  - apply List.Forall_forall. intros v Hv. apply filter_In in Hv. apply Hv.
  - rewrite <- (List.length_map b64_of items). apply List.filter_length_le.
Qed.

End Loops.

Lemma entity_shape_witness :
  exists out,
    HomeAssistant.entity_of (PDict Cases.kitchen) = Ret (PDict out)
    /\ out !! "domain" = Some (PStr "light")
    /\ out !! "name" = Some (PStr "light.kitchen").
Proof.
  destruct (entity_shape Cases.kitchen "light.kitchen" eq_refl)
    as (out & E & _ & _ & Hd & Hn & _).
  - discriminate.
  - left. reflexivity.
  - exists out. split; [exact E|]. split; [exact Hd | exact Hn].
Defined.

Lemma images_filtered_witness :
  exists images,
    Gemini.collect_images [Cases.image; PDict ∅] [] Scenario.offline
    = (Ret images, Scenario.offline)
    /\ (length images <= 2)%nat.
Proof.
  destruct (images_filtered [Cases.image; PDict ∅] Scenario.offline)
    as (images & E & _ & _ & Hlen).
  - repeat constructor; eexists; reflexivity.
  - exists images. split; [exact E | exact Hlen].
Defined.

(** ** Billing endpoints *)

Section BillingFacts.
Import Billing.

Variable DB : Type.
Variable db_get_tenant : DB -> pyval -> pyval.
Variable db_get_tenant_usage : DB -> pyval -> pyval.
Variable db_create_api_key : DB -> pyval -> pyval -> string -> pyval * DB.
Variable db_list_api_keys : DB -> pyval -> list pyval.
Variable db_delete_api_key : DB -> string -> pyval -> pyval * DB.
Variable get_plan_limits : pyval -> plan_limits.
Variable get_request_tenant_id : request -> pyval.
Variable py_str : pyval -> string.
Variable sha256_hex : string -> string.

Abbreviation billing_status :=
  (billing_status DB db_get_tenant db_get_tenant_usage get_plan_limits).
Abbreviation create_api_key :=
  (create_api_key DB db_create_api_key get_request_tenant_id sha256_hex).
Abbreviation delete_api_key :=
  (delete_api_key DB db_list_api_keys db_delete_api_key get_request_tenant_id
     py_str).
Abbreviation list_api_keys := (list_api_keys DB db_list_api_keys).

(** X20. Outside demo mode, a request without a tenant is answered 401
    by each of the four billing endpoints, with the state untouched: no
    call reaches the database and no key is drawn. *)
Theorem unauthenticated_rejected (s : state DB) (req : request) :
  DEMO_MODE DB s = false ->
  (truthy (state_tenant_id req) = false ->
   billing_status req s
   = (HTTPException 401 "No tenant context for billing status", s)
   /\ list_api_keys req s
      = (HTTPException 401 "No tenant context for API keys", s))
  /\ (truthy (get_request_tenant_id req) = false ->
      (forall body,
         create_api_key req body s
         = (HTTPException 401 "Authentication required", s))
      /\ (forall key_id,
            delete_api_key req key_id s
            = (HTTPException 401 "Authentication required", s))).
Proof.
  intros Hd. split; intros Ht.
  - unfold Billing.billing_status, Billing.list_api_keys, and_then,
      tenant_or_demo.
    rewrite Ht, Hd. split; reflexivity.
  - unfold Billing.create_api_key, Billing.delete_api_key, and_then,
      tenant_or_demo.
    rewrite Ht, Hd. split; reflexivity.
Qed.

Lemma and_then_reply {A C : Type} (m : B DB A) (k : A -> B DB C)
    (s s' : state DB) (a : A) :
  m s = (Reply a, s') -> and_then DB m k s = k a s'.
Proof.
  intros H. unfold and_then. rewrite H. reflexivity.
Qed.

Lemma gate_demo (t : pyval) (detail : string) (s : state DB) :
  DEMO_MODE DB s = true -> truthy t = false ->
  tenant_or_demo DB t detail s = (Reply (DEMO_TENANT_ID DB s), s).
Proof.
  intros Hd Ht. unfold tenant_or_demo. rewrite Ht, Hd. reflexivity.
Qed.

Lemma gate_given (t : pyval) (detail : string) (s : state DB) :
  truthy t = true -> tenant_or_demo DB t detail s = (Reply t, s).
Proof.
  intros Ht. unfold tenant_or_demo. rewrite Ht. reflexivity.
Qed.

(** X21. In demo mode with a demo tenant set, a request without a
    tenant is served exactly as a request of the demo tenant, by each of
    the four endpoints. *)
Theorem demo_acts_as_demo_tenant (s : state DB) (req demo : request) :
  DEMO_MODE DB s = true ->
  truthy (DEMO_TENANT_ID DB s) = true ->
  (truthy (state_tenant_id req) = false ->
   state_tenant_id demo = DEMO_TENANT_ID DB s ->
   billing_status req s = billing_status demo s
   /\ list_api_keys req s = list_api_keys demo s)
  /\ (truthy (get_request_tenant_id req) = false ->
      get_request_tenant_id demo = DEMO_TENANT_ID DB s ->
      (forall body, create_api_key req body s = create_api_key demo body s)
      /\ (forall key_id,
            delete_api_key req key_id s = delete_api_key demo key_id s)).
Proof.
  intros Hd Ht. split; intros Hreq Hdemo.
  - unfold Billing.billing_status, Billing.list_api_keys. rewrite Hdemo.
    split.
    + rewrite (and_then_reply _ _ s s _ (gate_demo _ _ s Hd Hreq)).
      rewrite (and_then_reply _ _ s s _ (gate_given _ _ s Ht)). reflexivity.
    + rewrite (and_then_reply _ _ s s _ (gate_demo _ _ s Hd Hreq)).
      rewrite (and_then_reply _ _ s s _ (gate_given _ _ s Ht)). reflexivity.
  - unfold Billing.create_api_key, Billing.delete_api_key. rewrite Hdemo.
    split; intros.
    + rewrite (and_then_reply _ _ s s _ (gate_demo _ _ s Hd Hreq)).
      rewrite (and_then_reply _ _ s s _ (gate_given _ _ s Ht)). reflexivity.
    + rewrite (and_then_reply _ _ s s _ (gate_demo _ _ s Hd Hreq)).
      rewrite (and_then_reply _ _ s s _ (gate_given _ _ s Ht)). reflexivity.
Qed.

(** The keys are records, none of which has the identifier. *)
Lemma any_key_absent (keys : list pyval) (key_id : string) (s : state DB) :
  Forall (fun k => exists d, k = PDict d
                             /\ py_str (dict_get d "id") <> key_id) keys ->
  any_key DB py_str keys key_id s = (Reply false, s).
Proof.
  induction 1 as [|k keys (d & -> & Hne) _ IH]; cbn; [reflexivity|].
  destruct (String.eqb_spec (py_str (dict_get d "id")) key_id);
    [contradiction | exact IH].
Qed.

Lemma any_key_outcome (keys : list pyval) (key_id : string) (s : state DB) :
  exists r, any_key DB py_str keys key_id s = (r, s)
            /\ (r = Reply true ->
                exists d, In (PDict d) keys
                          /\ py_str (dict_get d "id") = key_id).
Proof.
  induction keys as [|k keys IH]; cbn.
  - eexists. split; [reflexivity | discriminate].
  - destruct (py_get k "id") as [id|e] eqn:E.
    + destruct k; try discriminate E. injection E as <-.
      destruct (String.eqb_spec (py_str (dict_get d "id")) key_id) as [Heq|Hne].
      * eexists. split; [reflexivity|]. intros _. exists d. split; [left; reflexivity | exact Heq].
      * destruct IH as (r & -> & Hr). exists r. split; [reflexivity|].
        intros Ht. destruct (Hr Ht) as (d' & Hin & Hid).
        exists d'. split; [right; exact Hin | exact Hid].
    + eexists. split; [reflexivity | discriminate].
Qed.

Lemma gate_served (t : pyval) (detail : string) (s : state DB) :
  truthy t || DEMO_MODE DB s = true ->
  tenant_or_demo DB t detail s
  = (Reply (if truthy t then t else DEMO_TENANT_ID DB s), s).
Proof.
  intros H. unfold tenant_or_demo.
  destruct (truthy t); cbn in *; [reflexivity|]. rewrite H. reflexivity.
Qed.

(** X22. [delete_api_key] deletes only what the tenant's own listing
    shows, where the tenant is the one of the request or, for a request
    without one in demo mode, the demo tenant: when no listed key has the
    identifier the answer is 404 and the database is only read; a delete
    reaches the database only for the requested identifier, for that
    tenant, and after a listed key matched. *)
Theorem delete_only_listed_keys (s : state DB) (req : request)
    (key_id : string) :
  truthy (get_request_tenant_id req) || DEMO_MODE DB s = true ->
  let tenant :=
    if truthy (get_request_tenant_id req) then get_request_tenant_id req
    else DEMO_TENANT_ID DB s in
  let keys := db_list_api_keys (database DB s) tenant in
  let s' := snd (delete_api_key req key_id s) in
  (Forall (fun k => exists d, k = PDict d
                              /\ py_str (dict_get d "id") <> key_id) keys ->
   delete_api_key req key_id s
   = (HTTPException 404 "API key not found",
      called DB (ListApiKeys tenant) (database DB s) s))
  /\ (In (DeleteApiKey key_id tenant) (calls DB s') ->
      In (DeleteApiKey key_id tenant) (calls DB s)
      \/ exists d, In (PDict d) keys /\ py_str (dict_get d "id") = key_id)
  /\ (forall other_key other_tenant,
        In (DeleteApiKey other_key other_tenant) (calls DB s') ->
        In (DeleteApiKey other_key other_tenant) (calls DB s)
        \/ (other_key = key_id /\ other_tenant = tenant)).
Proof.
  intros Ht tenant keys s'. subst s'.
  unfold Billing.delete_api_key.
  rewrite (and_then_reply _ _ s s _ (gate_served _ _ s Ht)).
  fold tenant.
  set (s1 := called DB (ListApiKeys tenant) (database DB s) s).
  rewrite (and_then_reply (list_keys DB db_list_api_keys tenant) _ s s1 keys
             eq_refl).
  split; [|split].
  - intros Hnone. unfold and_then.
    rewrite (any_key_absent keys key_id s1 Hnone). reflexivity.
  - destruct (any_key_outcome keys key_id s1) as (r & E & Hr).
    unfold and_then at 1. rewrite E.
    destruct r as [[|]| |]; cbn.
    + intros _. right. apply Hr. reflexivity.
    + intros [H|H]; [discriminate H | left; exact H].
    + intros [H|H]; [discriminate H | left; exact H].
    + intros [H|H]; [discriminate H | left; exact H].
  - intros other_key other_tenant.
    destruct (any_key_outcome keys key_id s1) as (r & E & _).
    unfold and_then at 1. rewrite E.
    destruct r as [[|]| |]; cbn.
    + unfold and_then, delete_key. cbn.
      destruct (db_delete_api_key (database DB s) key_id tenant) as [deleted d'].
      cbn. destruct (negb (truthy deleted)); cbn;
        (intros [H|[H|H]];
         [ injection H as <- <-; right; split; reflexivity
         | discriminate H | left; exact H ]).
    + intros [H|H]; [discriminate H | left; exact H].
    + intros [H|H]; [discriminate H | left; exact H].
    + intros [H|H]; [discriminate H | left; exact H].
Qed.

End BillingFacts.

Lemma unauthenticated_rejected_witness :
  BillingCase.status BillingCase.anonymous (BillingCase.start false)
  = (Billing.HTTPException 401 "No tenant context for billing status",
     BillingCase.start false).
Proof.
  destruct (unauthenticated_rejected unit (fun _ _ => PNone) (fun _ _ => PNone)
              (fun _ _ _ _ => (PNone, tt)) (fun _ _ => [])
              (fun _ _ _ => (PNone, tt)) (fun _ => Billing.mkLimits PNone PNone PNone)
              BillingCase.tenant_of BillingCase.str_of (fun s => s)
              (BillingCase.start false) BillingCase.anonymous eq_refl)
    as [Hstate _].
  apply Hstate. reflexivity.
Defined.

Lemma demo_acts_as_demo_tenant_witness :
  BillingCase.status BillingCase.anonymous (BillingCase.start true)
  = BillingCase.status (Billing.mkRequest (PStr "demo")) (BillingCase.start true).
Proof.
  destruct (demo_acts_as_demo_tenant unit (fun _ _ => PNone) (fun _ _ => PNone)
              (fun _ _ _ _ => (PNone, tt)) (fun _ _ => [])
              (fun _ _ _ => (PNone, tt)) (fun _ => Billing.mkLimits PNone PNone PNone)
              BillingCase.tenant_of BillingCase.str_of (fun s => s)
              (BillingCase.start true) BillingCase.anonymous
              (Billing.mkRequest (PStr "demo")) eq_refl eq_refl)
    as [Hstate _].
  apply Hstate; reflexivity.
Defined.

(** X22 for a key that the tenant [acme] does not have, and for a
    request without a tenant in demo mode. *)
Lemma delete_only_listed_keys_witness :
  BillingCase.delete BillingCase.acme "8" (BillingCase.start false)
  = (Billing.HTTPException 404 "API key not found",
     Billing.called unit (Billing.ListApiKeys (PStr "acme")) tt
       (BillingCase.start false))
  /\ BillingCase.delete BillingCase.anonymous "7" (BillingCase.start true)
     = (Billing.HTTPException 404 "API key not found",
        Billing.called unit (Billing.ListApiKeys (PStr "demo")) tt
          (BillingCase.start true)).
Proof.
  split.
  - destruct (delete_only_listed_keys unit BillingCase.keys_of
                (fun _ _ _ => (PBool true, tt)) BillingCase.tenant_of
                BillingCase.str_of (BillingCase.start false) BillingCase.acme "8"
                eq_refl) as [Habsent _].
    apply Habsent. repeat constructor. eexists. split; [reflexivity|].
    discriminate.
  - destruct (delete_only_listed_keys unit BillingCase.keys_of
                (fun _ _ _ => (PBool true, tt)) BillingCase.tenant_of
                BillingCase.str_of (BillingCase.start true)
                BillingCase.anonymous "7" eq_refl) as [Habsent _].
    apply Habsent. constructor.
Defined.

(** ** Strict mode *)

Section StrictMode.

Lemma api_key_strict_world (tool missing : string) (vars : list string)
    (cid : string) (tenant : option string) (w : world) :
  strict w = true ->
  snd (ApiKey.__init__ tool missing vars cid tenant w) = w.
Proof.
  intros Hs. unfold ApiKey.__init__, ApiKey._load_credentials.
  assert (Hfb : forall self, snd (ApiKey.load_fallback missing vars self w) = w).
  { intros self. rewrite ApiKeyFacts.fallback_strict by exact Hs. reflexivity. }
  revert Hfb. generalize (ApiKey.load_fallback missing vars). intros fallback Hfb.
  unfold bind, get_credential. cbn.
  destruct (db w !! _) as [c|]; cbn; [|apply Hfb].
  destruct (dict_is_empty (credential_data c)); [apply Hfb|].
  unfold lift. destruct (ApiKey.stored_key (credential_data c)) as [k|e]; cbn;
    [|reflexivity].
  destruct (PyStr.truthy k); [reflexivity | apply Hfb].
Qed.

Lemma home_assistant_strict_world (cid : string) (tenant : option string)
    (w : world) :
  strict w = true ->
  snd (HomeAssistant.__init__ cid tenant w) = w.
Proof.
  intros Hs. unfold HomeAssistant.__init__, HomeAssistant._load_credentials.
  HomeAssistantFacts.run.
  destruct (db w !! _) as [c|]; cbn.
  - destruct (dict_is_empty (credential_data c)); cbn.
    + rewrite Hs. reflexivity.
    + destruct (HomeAssistant.stripped (credential_data c) "base_url"); cbn;
        [|reflexivity].
      destruct (HomeAssistant.stripped (credential_data c) "token"); cbn;
        [|reflexivity].
      destruct (HomeAssistant.stripped (credential_data c) "access_token"); cbn;
        [|reflexivity].
      destruct (HomeAssistant.stripped (credential_data c) "refresh_token"); cbn;
        [|reflexivity].
      destruct (HomeAssistant.stripped (credential_data c) "client_id"); cbn;
        [|reflexivity].
      destruct (HomeAssistant.stripped (credential_data c) "client_secret"); cbn;
        [|reflexivity].
      destruct (HomeAssistant.stripped (credential_data c) "token_url"); cbn;
        reflexivity.
  - rewrite Hs. reflexivity.
Qed.

(** X4. In strict mode no constructor touches the world, whatever the
    store holds and whether it returns or raises: no environment variable
    is read, nothing is sent and nothing is saved. *)
Theorem strict_never_reads_environment (cid : string)
    (tenant : option string) (w : world) :
  strict w = true ->
  snd (Fmp.__init__ cid tenant w) = w
  /\ snd (NewsApi.__init__ cid tenant w) = w
  /\ snd (Polygon.__init__ cid tenant w) = w
  /\ snd (Gemini.__init__ cid tenant w) = w
  /\ snd (HomeAssistant.__init__ cid tenant w) = w.
Proof.
  intros Hs. repeat split.
  - apply api_key_strict_world, Hs.
  - apply api_key_strict_world, Hs.
  - apply api_key_strict_world, Hs.
  - apply api_key_strict_world, Hs.
  - apply home_assistant_strict_world, Hs.
Qed.

Lemma strict_never_reads_environment_witness :
  snd (Fmp.__init__ "fmp" None Scenario.fmp_store) = Scenario.fmp_store
  /\ snd (HomeAssistant.__init__ "home_assistant" None Scenario.strict_address_only)
     = Scenario.strict_address_only.
Proof.
  destruct (strict_never_reads_environment "fmp" None Scenario.fmp_store eq_refl)
    as (Hfmp & _).
  destruct (strict_never_reads_environment "home_assistant" None
              Scenario.strict_address_only eq_refl) as (_ & _ & _ & _ & Hha).
  split; assumption.
Defined.

End StrictMode.
